(** * Lateral planner: lane-change state machine, mode arbiter and
      curvature post-processing

    Shallow embedding of [selfdrive/controls/lib/lateral_planner.py]
    (class [LateralPlanner]: [__init__], [setup_mpc], [update], [publish])
    and verification of its specification.

    Numbers.  Python floats are modelled as exact rationals extended with a
    NaN ([PyFloat]): comparisons with NaN are false, arithmetic propagates
    it, and the builtins [max]/[min] pick their result by comparison, as
    CPython does.  Rounding and infinities are outside the model; the two
    computations whose stated properties depend on rounding, the fade of
    [lane_change_ll_prob] and the clamp of the safe curvature, are written
    a second time over IEEE binary64 in the module [Binary64].

    Errors.  An exception raised inside [update] (an index out of range, a
    failed [assert], [ZeroDivisionError], a [ValueError] from numpy) is the
    result [None].

    Collaborators.  The lane planner, the native MPC solver and the numpy
    interpolation over path norms are not part of the file; they are the
    fields of the class [Externals]. *)

From Stdlib Require Import QArith Qabs Lqa ZArith Lia List Bool String.
From Stdlib Require PrimFloat FloatOps SpecFloat.
Import ListNotations.

(* ------------------------------------------------------------------ *)
(** ** Python floats *)

Inductive PyFloat : Type :=
| NaN : PyFloat
| Fin (q : Q) : PyFloat.

Declare Scope pyfloat_scope.
Delimit Scope pyfloat_scope with F.
Bind Scope pyfloat_scope with PyFloat.

Definition Qlt_bool (a b : Q) : bool := negb (Qle_bool b a).

Definition lift2 (f : Q -> Q -> Q) (a b : PyFloat) : PyFloat :=
  match a, b with
  | Fin x, Fin y => Fin (f x y)
  | _, _ => NaN
  end.

Definition cmp2 (f : Q -> Q -> bool) (a b : PyFloat) : bool :=
  match a, b with
  | Fin x, Fin y => f x y
  | _, _ => false
  end.

Definition fadd := lift2 Qplus.
Definition fsub := lift2 Qminus.
Definition fmul := lift2 Qmult.
(** Quotient used where the divisor cannot be zero (a non-zero constant, or
    two distinct breakpoints of a table). *)
Definition fdiv := lift2 Qdiv.
Definition fneg (a : PyFloat) : PyFloat :=
  match a with Fin x => Fin (- x) | NaN => NaN end.
(** [abs(a)] *)
Definition fabs (a : PyFloat) : PyFloat :=
  match a with Fin x => Fin (Qabs x) | NaN => NaN end.

Definition flt := cmp2 Qlt_bool.
Definition fle := cmp2 Qle_bool.
Definition fgt (a b : PyFloat) : bool := flt b a.
Definition fge (a b : PyFloat) : bool := fle b a.
Definition feq := cmp2 Qeq_bool.

Notation "a + b" := (fadd a b) : pyfloat_scope.
Notation "a - b" := (fsub a b) : pyfloat_scope.
Notation "a * b" := (fmul a b) : pyfloat_scope.
Notation "a / b" := (fdiv a b) : pyfloat_scope.
Notation "- a" := (fneg a) : pyfloat_scope.
Notation "a <? b" := (flt a b) (at level 70) : pyfloat_scope.
Notation "a <=? b" := (fle a b) (at level 70) : pyfloat_scope.
Notation "a >? b" := (fgt a b) (at level 70) : pyfloat_scope.
Notation "a >=? b" := (fge a b) (at level 70) : pyfloat_scope.
Notation "a =? b" := (feq a b) (at level 70) : pyfloat_scope.

(** [math.isnan] *)
Definition isnan (a : PyFloat) : bool :=
  match a with NaN => true | Fin _ => false end.

(** Truth value of a float in a condition: everything but zero. *)
Definition truthy (a : PyFloat) : bool :=
  match a with NaN => true | Fin x => negb (Qeq_bool x 0) end.

(** The builtin [max(a, b)]: [b] when [b > a], else [a]. *)
Definition py_max (a b : PyFloat) : PyFloat := if (b >? a)%F then b else a.
(** The builtin [min(a, b)]: [b] when [b < a], else [a]. *)
Definition py_min (a b : PyFloat) : PyFloat := if (b <? a)%F then b else a.

(** [a / b] on Python floats: [ZeroDivisionError] when [b] is zero. *)
Definition truediv (a b : PyFloat) : option PyFloat :=
  match b with
  | NaN => Some NaN
  | Fin d => if Qeq_bool d 0 then None else Some (a / b)%F
  end.

(** [int(a)] on a float: truncation towards zero, [ValueError] on NaN. *)
Definition py_int (a : PyFloat) : option Z :=
  match a with
  | NaN => None
  | Fin x => Some (Z.quot (Qnum x) (Zpos (Qden x)))
  end.

(** Modelled from the spec: [clip] is imported from [common.numpy_fast],
    which is not among the sources.  The spec uses it as the clamp of a
    value between a lower and an upper bound; it is written here with the
    builtins, [max(lo, min(hi, x))]. *)
Definition clip (x lo hi : PyFloat) : PyFloat := py_max lo (py_min hi x).

(** Modelled from the spec: [interp] is imported from [common.numpy_fast],
    which is not among the sources.  The spec describes it as the
    piecewise-linear function through the points [(xp[i], fp[i])], clamped at
    both ends.  The segment is found by comparing the argument with the
    breakpoints from the left, so an argument that compares false with the
    first breakpoint (NaN included) yields the first value.  Without
    breakpoints there is no value: NaN. *)
Fixpoint interp_from (xv x0 y0 : PyFloat) (xp fp : list PyFloat) : PyFloat :=
  match xp, fp with
  | x1 :: xp', y1 :: fp' =>
      if (xv >? x1)%F then interp_from xv x1 y1 xp' fp'
      else ((xv - x0) * (y1 - y0) / (x1 - x0) + y0)%F
  | _, _ => y0
  end.

Definition interp (xv : PyFloat) (xp fp : list PyFloat) : PyFloat :=
  match xp, fp with
  | x0 :: xp', y0 :: fp' =>
      if (xv >? x0)%F then interp_from xv x0 y0 xp' fp' else y0
  | _, _ => NaN
  end.

(** Modelled from the spec: [DT_MDL] is imported from [common.realtime],
    which is not among the sources; the spec's model frame period is
    0.05 s. *)
Definition DT_MDL : PyFloat := Fin 0.05.

(** Modelled from the spec: [CV.KPH_TO_MS] is imported from
    [selfdrive.config], which is not among the sources; the spec calls it the
    unit conversion from km/h to m/s. *)
Definition KPH_TO_MS : Q := 1 / 3.6.

(* ------------------------------------------------------------------ *)
(** ** Messages and enumerations (cereal) *)

Module LaneChangeState.
Inductive t : Type := off | preLaneChange | laneChangeStarting | laneChangeFinishing.
Definition eqb (a b : t) : bool :=
    match a, b with
    | off, off | preLaneChange, preLaneChange
    | laneChangeStarting, laneChangeStarting
    | laneChangeFinishing, laneChangeFinishing => true
    | _, _ => false
    end.
End LaneChangeState.

Module LaneChangeDirection.
Inductive t : Type := none | left | right.
Definition eqb (a b : t) : bool :=
    match a, b with
    | none, none | left, left | right, right => true
    | _, _ => false
    end.
End LaneChangeDirection.

Module Desire.
Inductive t : Type := none | laneChangeLeft | laneChangeRight.
Definition eqb (a b : t) : bool :=
    match a, b with
    | none, none | laneChangeLeft, laneChangeLeft
    | laneChangeRight, laneChangeRight => true
    | _, _ => false
    end.
End Desire.

Module CarState.
Record t : Type := {
    vEgo : PyFloat;
    standStill : bool;
    leftBlinker : bool;
    rightBlinker : bool;
    steeringPressed : bool;
    steeringTorque : PyFloat;
    leftBlindspot : bool;
    rightBlindspot : bool;
    steeringAngleDeg : PyFloat
  }.
End CarState.

(** [controlsState.lateralControlState] is a union; reading the member of
    another variant raises. *)
Module LateralControlState.
Inductive t : Type :=
  | pidState (output : PyFloat)
  | indiState (output : PyFloat)
  | lqrState (output : PyFloat)
  | otherState.
End LateralControlState.

Module ControlsState.
Record t : Type := {
    vCruise : PyFloat;
    active : bool;
    curvature : PyFloat;
    steeringAngleDesiredDeg : PyFloat;
    lateralControlState : LateralControlState.t
  }.
End ControlsState.

Module XYZTData.
Record t : Type := {
    x : list PyFloat; y : list PyFloat; z : list PyFloat; t_ : list PyFloat;
    xStd : list PyFloat; yStd : list PyFloat; zStd : list PyFloat
  }.
End XYZTData.

Module LeadData.
Record t : Type := { dRel : PyFloat; vRel : PyFloat }.
End LeadData.

Module RadarState.
Record t : Type := { leadOne : LeadData.t }.
End RadarState.

(** [CP.lateralTuning.which()] *)
Module LateralTuning.
Inductive t : Type := pid | indi | lqr | other.
End LateralTuning.

Module CarParams.
Record t : Type := {
    steerRateCost : PyFloat;
    steerMaxV : list PyFloat;
    steerActuatorDelay : PyFloat;
    lateralTuning : LateralTuning.t
  }.
End CarParams.

(** The parameter store, with the four keys the planner reads, decoded. *)
Module Params.
Record t : Type := {
    EndToEndToggle : bool;
    LanelessMode : Z;
    OpkrLaneChangeSpeed : Z;
    OpkrAutoLaneChangeDelay : Z
  }.
End Params.

(** [state_t] of the solver: the seed state. *)
Module MpcState.
Record t : Type := { x : PyFloat; y : PyFloat; psi : PyFloat; curvature : PyFloat }.
End MpcState.

(** [log_t] of the solver: the solution. *)
Module MpcLog.
Record t : Type := {
    x : list PyFloat; y : list PyFloat; psi : list PyFloat;
    curvature : list PyFloat; curvature_rate : list PyFloat;
    cost : PyFloat
  }.
End MpcLog.

(** Calls made to the native solver library, oldest first. *)
Inductive MpcCall : Type :=
| mpc_init
| mpc_set_weights (path_cost heading_cost steer_rate_cost : PyFloat)
| mpc_run (cur_state : MpcState.t) (v_ego radius : PyFloat)
          (y_pts heading_pts : list PyFloat).

(** A numpy array of shape (n, 3): its rows. *)
Definition Path : Type := list (PyFloat * PyFloat * PyFloat).

(** [np.column_stack([a, b, c])]: [ValueError] unless the lengths agree. *)
Fixpoint column_stack (a b c : list PyFloat) : option Path :=
  match a, b, c with
  | [], [], [] => Some []
  | u :: a', v :: b', w :: c' =>
      match column_stack a' b' c' with
      | Some r => Some ((u, v, w) :: r)
      | None => None
      end
  | _, _, _ => None
  end.

(** [p[0,1]]: [IndexError] on an array without rows. *)
Definition at_0_1 (p : Path) : option PyFloat :=
  match p with
  | (_, v, _) :: _ => Some v
  | [] => None
  end.

(** [p[:,1]] *)
Definition column_1 (p : Path) : list PyFloat := map (fun r => snd (fst r)) p.

Module ModelV2.
Record t : Type := { position : XYZTData.t; orientation : XYZTData.t }.
End ModelV2.

(** The message bus as the planner sees it at one frame;
    [all_alive_and_valid] is the result of [sm.all_alive_and_valid] for the
    three services the planner names. *)
Module SubMaster.
Record t : Type := {
  carState : CarState.t;
  controlsState : ControlsState.t;
  modelV2 : ModelV2.t;
  radarState : RadarState.t;
  all_alive_and_valid : bool
}.
End SubMaster.

(* ------------------------------------------------------------------ *)
(** ** Collaborators *)

(** The attributes of the [LanePlanner] object that the planner reads or
    writes; [lp_private] stands for the rest of the object. *)
Module LanePlanner.
Record t (Private : Type) : Type := {
  lll_prob : PyFloat;
  rll_prob : PyFloat;
  l_lane_change_prob : PyFloat;
  r_lane_change_prob : PyFloat;
  d_prob : PyFloat;
  lane_width : PyFloat;
  lp_private : Private
}.
Arguments lll_prob {Private} _.
Arguments rll_prob {Private} _.
Arguments l_lane_change_prob {Private} _.
Arguments r_lane_change_prob {Private} _.
Arguments d_prob {Private} _.
Arguments lane_width {Private} _.
Arguments lp_private {Private} _.
End LanePlanner.

(** What the planner imports and does not define: the lane planner
    ([selfdrive.controls.lib.lane_planner]), the solver ([libmpc_py]), the
    constants of [drive_helpers] and the numpy operations on paths that need
    a norm.  [run_mpc] receives the calls made to the library before it, so
    its answer may depend on the weights and on earlier runs. *)
Class Externals : Type := {
  LPPrivate : Type;
  new_LanePlanner : bool -> LanePlanner.t LPPrivate;
  parse_model : LanePlanner.t LPPrivate -> ModelV2.t -> SubMaster.t -> PyFloat ->
                LanePlanner.t LPPrivate;
  get_d_path : LanePlanner.t LPPrivate -> PyFloat -> list PyFloat -> Path ->
               LanePlanner.t LPPrivate * Path;
  TRAJECTORY_SIZE : nat;
  MPC_N : nat;
  MPC_COST_LAT_PATH : PyFloat;
  MPC_COST_LAT_HEADING : PyFloat;
  CAR_ROTATION_RADIUS : PyFloat;
  (** [np.interp(xs, np.linalg.norm(path, axis=1), fp)]; [ValueError] when
      the lengths of the norms and of [fp] differ. *)
  np_interp_norm : list PyFloat -> Path -> list PyFloat -> option (list PyFloat);
  run_mpc : list MpcCall -> MpcState.t -> PyFloat -> PyFloat ->
            list PyFloat -> list PyFloat -> MpcLog.t
}.

(* ------------------------------------------------------------------ *)
(** ** The planner object *)

Definition LANE_CHANGE_TIME_MAX : PyFloat := Fin 10.
Definition MAX_CURVATURE_RATES : list PyFloat :=
  [Fin 0.03762194918267951; Fin 0.003441203371932992].
Definition MAX_CURVATURE_RATE_SPEEDS : list PyFloat := [Fin 0; Fin 35].

(** The table [DESIRES], indexed by direction, then by state. *)
Definition DESIRES (d : LaneChangeDirection.t) (s : LaneChangeState.t) : Desire.t :=
  match d, s with
  | LaneChangeDirection.none, _ => Desire.none
  | LaneChangeDirection.left, LaneChangeState.off => Desire.none
  | LaneChangeDirection.left, LaneChangeState.preLaneChange => Desire.none
  | LaneChangeDirection.left, LaneChangeState.laneChangeStarting => Desire.laneChangeLeft
  | LaneChangeDirection.left, LaneChangeState.laneChangeFinishing => Desire.laneChangeLeft
  | LaneChangeDirection.right, LaneChangeState.off => Desire.none
  | LaneChangeDirection.right, LaneChangeState.preLaneChange => Desire.none
  | LaneChangeDirection.right, LaneChangeState.laneChangeStarting => Desire.laneChangeRight
  | LaneChangeDirection.right, LaneChangeState.laneChangeFinishing => Desire.laneChangeRight
  end.

(** [self.lane_change_adjust] and [self.lane_change_adjust_vel]: set in
    [__init__] and never assigned again. *)
Definition lane_change_adjust : list PyFloat := [Fin 0.1; Fin 0.17; Fin 0.7; Fin 1.2].
Definition lane_change_adjust_vel : list PyFloat := [Fin 8.3; Fin 16; Fin 22; Fin 30].

(** The attributes of a [LateralPlanner]; [libmpc] is the record of the calls
    made to the solver library and [cloudlog] the warnings logged. *)
Record Planner {E : Externals} : Type := {
  use_lanelines : bool;
  LP : LanePlanner.t LPPrivate;
  last_cloudlog_t : PyFloat;
  steer_rate_cost : PyFloat;
  libmpc : list MpcCall;
  mpc_solution : MpcLog.t;
  cur_state : MpcState.t;
  desired_curvature : PyFloat;
  safe_desired_curvature : PyFloat;
  desired_curvature_rate : PyFloat;
  safe_desired_curvature_rate : PyFloat;
  solution_invalid_cnt : Z;
  laneless_mode : Z;
  laneless_mode_status : bool;
  laneless_mode_status_buffer : bool;
  laneless_mode_at_stopping : bool;
  laneless_mode_at_stopping_timer : Z;
  lane_change_delay : Z;
  lane_change_auto_delay : PyFloat;
  lane_change_wait_timer : PyFloat;
  lane_change_state : LaneChangeState.t;
  lane_change_direction : LaneChangeDirection.t;
  lane_change_timer : PyFloat;
  lane_change_ll_prob : PyFloat;
  prev_one_blinker : bool;
  desire : Desire.t;
  path_xyz : Path;
  path_xyz_stds : Path;
  plan_yaw : list PyFloat;
  t_idxs : list PyFloat;
  y_pts : list PyFloat;
  lane_change_adjust_new : PyFloat;
  standstill_elapsed_time : PyFloat;
  v_cruise_kph : PyFloat;
  stand_still : bool;
  steer_actuator_delay_to_send : PyFloat;
  output_scale : PyFloat;
  second : PyFloat;
  cloudlog : list string
}.

(** The published [lateralPlan] message. *)
Module LateralPlan.
Record t : Type := {
  valid : bool;
  laneWidth : PyFloat;
  dPathPoints : list PyFloat;
  lProb : PyFloat;
  rProb : PyFloat;
  dProb : PyFloat;
  rawCurvature : PyFloat;
  rawCurvatureRate : PyFloat;
  curvature : PyFloat;
  curvatureRate : PyFloat;
  mpcSolutionValid : bool;
  desire : Desire.t;
  laneChangeState : LaneChangeState.t;
  laneChangeDirection : LaneChangeDirection.t;
  steerRateCost : PyFloat;
  outputScale : PyFloat;
  vCruiseSet : PyFloat;
  vCurvature : PyFloat;
  steerAngleDesireDeg : PyFloat;
  lanelessMode : bool;
  steerActuatorDelay : PyFloat;
  standstillElapsedTime : Z
}.
End LateralPlan.

(** The optional [liveMpc] message. *)
Module LiveMpc.
Record t : Type := {
  x : list PyFloat; y : list PyFloat; psi : list PyFloat;
  curvature : list PyFloat; cost : PyFloat
}.
End LiveMpc.

(* ------------------------------------------------------------------ *)
(** ** Exceptions *)

Definition bind {A B : Type} (m : option A) (k : A -> option B) : option B :=
  match m with
  | Some a => k a
  | None => None
  end.

Notation "'do' x <- m ; k" := (bind m (fun x => k))
  (at level 10, x name, m at level 100, k at level 200).
Notation "'do' ' p <- m ; k" := (bind m (fun p => k))
  (at level 10, p strict pattern, m at level 100, k at level 200).

(** [assert c] *)
Definition assert (c : bool) : option unit := if c then Some tt else None.

Section LateralPlanner.

Context {E : Externals}.

(** The parameter store as it was when the module was loaded. *)
Variable params_at_import : Params.t.

(** Module level:
    [float(int(Params().get("OpkrLaneChangeSpeed")) * CV.KPH_TO_MS)]. *)
Definition LANE_CHANGE_SPEED_MIN : PyFloat :=
  Fin (inject_Z (Params.OpkrLaneChangeSpeed params_at_import) * KPH_TO_MS).

(** [ffi.new("log_t *")]: a zeroed solution. *)
Definition new_log : MpcLog.t :=
  {| MpcLog.x := repeat (Fin 0) (S MPC_N);
     MpcLog.y := repeat (Fin 0) (S MPC_N);
     MpcLog.psi := repeat (Fin 0) (S MPC_N);
     MpcLog.curvature := repeat (Fin 0) (S MPC_N);
     MpcLog.curvature_rate := repeat (Fin 0) MPC_N;
     MpcLog.cost := Fin 0 |}.

Definition zero_state (curvature : PyFloat) : MpcState.t :=
  {| MpcState.x := Fin 0; MpcState.y := Fin 0; MpcState.psi := Fin 0;
     MpcState.curvature := curvature |}.

(** [np.arange(n)] *)
Definition arange (n : nat) : list PyFloat :=
  map (fun i => Fin (inject_Z (Z.of_nat i))) (seq 0 n).

(** [__init__], with [setup_mpc] inlined: one call to [libmpc.init()], a
    zeroed solution and seed state, zero curvatures. *)
Definition init (CP : CarParams.t) (use_lanelines_arg wide_camera : bool)
    (params : Params.t) : Planner :=
  let delay := Params.OpkrAutoLaneChangeDelay params in
  {| use_lanelines := use_lanelines_arg;
     LP := new_LanePlanner wide_camera;
     last_cloudlog_t := Fin 0;
     steer_rate_cost := CarParams.steerRateCost CP;
     libmpc := [mpc_init];
     mpc_solution := new_log;
     cur_state := zero_state (Fin 0);
     desired_curvature := Fin 0;
     safe_desired_curvature := Fin 0;
     desired_curvature_rate := Fin 0;
     safe_desired_curvature_rate := Fin 0;
     solution_invalid_cnt := 0%Z;
     laneless_mode := Params.LanelessMode params;
     laneless_mode_status := false;
     laneless_mode_status_buffer := false;
     laneless_mode_at_stopping := false;
     laneless_mode_at_stopping_timer := 0%Z;
     lane_change_delay := delay;
     lane_change_auto_delay :=
       if (delay =? 0)%Z then Fin 0 else if (delay =? 1)%Z then Fin 0.2
       else if (delay =? 2)%Z then Fin 0.5 else if (delay =? 3)%Z then Fin 1
       else if (delay =? 4)%Z then Fin 1.5 else Fin 2;
     lane_change_wait_timer := Fin 0;
     lane_change_state := LaneChangeState.off;
     lane_change_direction := LaneChangeDirection.none;
     lane_change_timer := Fin 0;
     lane_change_ll_prob := Fin 1;
     prev_one_blinker := false;
     desire := Desire.none;
     path_xyz := repeat (Fin 0, Fin 0, Fin 0) TRAJECTORY_SIZE;
     path_xyz_stds := repeat (Fin 1, Fin 1, Fin 1) TRAJECTORY_SIZE;
     plan_yaw := repeat (Fin 0) TRAJECTORY_SIZE;
     t_idxs := arange TRAJECTORY_SIZE;
     y_pts := repeat (Fin 0) TRAJECTORY_SIZE;
     lane_change_adjust_new := Fin 0;
     standstill_elapsed_time := Fin 0;
     v_cruise_kph := Fin 0;
     stand_still := false;
     steer_actuator_delay_to_send := Fin 0;
     output_scale := Fin 0;
     second := Fin 0;
     cloudlog := [] |}.

(** *** [update], lines 112-116: the parameters polled about once a second *)

Definition poll_params (self : Planner) (params : Params.t) : PyFloat * bool * Z :=
  let second' := (second self + DT_MDL)%F in
  if (second' >? Fin 1)%F
  then (Fin 0, negb (Params.EndToEndToggle params), Params.LanelessMode params)
  else (second', use_lanelines self, laneless_mode self).

(** *** lines 119-127: the lateral controller's output; a member of another
    variant raises, and the [except] keeps the old value *)

Definition read_output_scale (self : Planner) (sm : SubMaster.t) (CP : CarParams.t)
  : PyFloat :=
  match CarParams.lateralTuning CP,
        ControlsState.lateralControlState (SubMaster.controlsState sm) with
  | LateralTuning.pid, LateralControlState.pidState o => o
  | LateralTuning.indi, LateralControlState.indiState o => o
  | LateralTuning.lqr, LateralControlState.lqrState o => o
  | _, _ => output_scale self
  end.

(** *** lines 135-140: the model's trajectory *)

Definition read_model (self : Planner) (md : ModelV2.t)
  : option (Path * list PyFloat * list PyFloat * Path) :=
  let pos := ModelV2.position md in
  let ori := ModelV2.orientation md in
  do '(path, t, yaw) <-
    (if (List.length (XYZTData.x pos) =? TRAJECTORY_SIZE)%nat &&
        (List.length (XYZTData.x ori) =? TRAJECTORY_SIZE)%nat
     then do p <- column_stack (XYZTData.x pos) (XYZTData.y pos) (XYZTData.z pos);
          Some (p, XYZTData.t_ pos, XYZTData.z ori)
     else Some (path_xyz self, t_idxs self, plan_yaw self));
  do stds <-
    (if (List.length (XYZTData.xStd ori) =? TRAJECTORY_SIZE)%nat
     then column_stack (XYZTData.xStd pos) (XYZTData.yStd pos) (XYZTData.zStd pos)
     else Some (path_xyz_stds self));
  Some (path, t, yaw, stds).

(** *** lines 206-265: lane change logic *)

(** The lane-change attributes as the block leaves them. *)
Record LaneChange : Type := {
  lc_state : LaneChangeState.t;
  lc_direction : LaneChangeDirection.t;
  lc_ll_prob : PyFloat;
  lc_wait_timer : PyFloat;
  lc_adjust_new : PyFloat;
  lc_timer : PyFloat
}.

(** Line 209: the condition that forces [off] and [none].  [or] and [and]
    evaluate from the left and stop early, so [CP.steerMaxV[0]] is read only
    when the first two tests are false. *)
Definition lane_change_abort (self : Planner) (active : bool)
    (output_scale' : PyFloat) (CP : CarParams.t) : option bool :=
  if negb active then Some true
  else if (lane_change_timer self >? LANE_CHANGE_TIME_MAX)%F then Some true
  else
    do m <- nth_error (CarParams.steerMaxV CP) 0;
    Some ((fabs output_scale' >=? m - Fin 0.15)%F &&
          (lane_change_timer self >? Fin 1)%F).

(** Lines 213-260: the transitions out of each state; the timer is not
    touched here. *)
Definition lane_change_transitions (self : Planner) (cs : CarState.t)
    (v_ego : PyFloat) (lp : LanePlanner.t LPPrivate) : LaneChange :=
  let one_blinker := xorb (CarState.leftBlinker cs) (CarState.rightBlinker cs) in
  let below_lane_change_speed := (v_ego <? LANE_CHANGE_SPEED_MIN)%F in
  let keep (s : LaneChangeState.t) :=
    {| lc_state := s;
       lc_direction := lane_change_direction self;
       lc_ll_prob := lane_change_ll_prob self;
       lc_wait_timer := lane_change_wait_timer self;
       lc_adjust_new := lane_change_adjust_new self;
       lc_timer := lane_change_timer self |} in
  match lane_change_state self with
  | LaneChangeState.off =>
      if one_blinker && negb (prev_one_blinker self) && negb below_lane_change_speed
      then {| lc_state := LaneChangeState.preLaneChange;
              lc_direction := lane_change_direction self;
              lc_ll_prob := Fin 1;
              lc_wait_timer := Fin 0;
              lc_adjust_new := lane_change_adjust_new self;
              lc_timer := lane_change_timer self |}
      else keep LaneChangeState.off
  | LaneChangeState.preLaneChange =>
      let wait := (lane_change_wait_timer self + DT_MDL)%F in
      let direction :=
        if CarState.leftBlinker cs then LaneChangeDirection.left
        else if CarState.rightBlinker cs then LaneChangeDirection.right
        else LaneChangeDirection.none in
      let torque_applied :=
        CarState.steeringPressed cs &&
        (((CarState.steeringTorque cs >? Fin 0)%F &&
          LaneChangeDirection.eqb direction LaneChangeDirection.left) ||
         ((CarState.steeringTorque cs <? Fin 0)%F &&
          LaneChangeDirection.eqb direction LaneChangeDirection.right)) in
      let blindspot_detected :=
        (CarState.leftBlindspot cs &&
         LaneChangeDirection.eqb direction LaneChangeDirection.left) ||
        (CarState.rightBlindspot cs &&
         LaneChangeDirection.eqb direction LaneChangeDirection.right) in
      {| lc_state :=
           if negb one_blinker || below_lane_change_speed
           then LaneChangeState.off
           else if negb blindspot_detected &&
                   (torque_applied ||
                    (truthy (lane_change_auto_delay self) &&
                     (wait >? lane_change_auto_delay self)%F))
           then LaneChangeState.laneChangeStarting
           else LaneChangeState.preLaneChange;
         lc_direction := direction;
         lc_ll_prob := lane_change_ll_prob self;
         lc_wait_timer := wait;
         lc_adjust_new := lane_change_adjust_new self;
         lc_timer := lane_change_timer self |}
  | LaneChangeState.laneChangeStarting =>
      let adjust := interp v_ego lane_change_adjust_vel lane_change_adjust in
      let ll := py_max (lane_change_ll_prob self - adjust * DT_MDL)%F (Fin 0) in
      let lane_change_prob :=
        (LanePlanner.l_lane_change_prob lp + LanePlanner.r_lane_change_prob lp)%F in
      {| lc_state :=
           if (lane_change_prob <? Fin 0.02)%F && (ll <? Fin 0.01)%F
           then LaneChangeState.laneChangeFinishing
           else LaneChangeState.laneChangeStarting;
         lc_direction := lane_change_direction self;
         lc_ll_prob := ll;
         lc_wait_timer := lane_change_wait_timer self;
         lc_adjust_new := adjust;
         lc_timer := lane_change_timer self |}
  | LaneChangeState.laneChangeFinishing =>
      let ll := py_min (lane_change_ll_prob self + DT_MDL)%F (Fin 1) in
      {| lc_state :=
           if one_blinker && (ll >? Fin 0.99)%F then LaneChangeState.preLaneChange
           else if (ll >? Fin 0.99)%F then LaneChangeState.off
           else LaneChangeState.laneChangeFinishing;
         lc_direction := lane_change_direction self;
         lc_ll_prob := ll;
         lc_wait_timer := lane_change_wait_timer self;
         lc_adjust_new := lane_change_adjust_new self;
         lc_timer := lane_change_timer self |}
  end.

(** Lines 209-265 together: abort or transition, then the timer. *)
Definition lane_change_logic (self : Planner) (sm : SubMaster.t) (CP : CarParams.t)
    (v_ego : PyFloat) (active : bool) (output_scale' : PyFloat)
    (lp : LanePlanner.t LPPrivate) : option LaneChange :=
  do abort <- lane_change_abort self active output_scale' CP;
  let lc :=
    if abort
    then {| lc_state := LaneChangeState.off;
            lc_direction := LaneChangeDirection.none;
            lc_ll_prob := lane_change_ll_prob self;
            lc_wait_timer := lane_change_wait_timer self;
            lc_adjust_new := lane_change_adjust_new self;
            lc_timer := lane_change_timer self |}
    else lane_change_transitions self (SubMaster.carState sm) v_ego lp in
  Some {| lc_state := lc_state lc;
          lc_direction := lc_direction lc;
          lc_ll_prob := lc_ll_prob lc;
          lc_wait_timer := lc_wait_timer lc;
          lc_adjust_new := lc_adjust_new lc;
          lc_timer :=
            match lc_state lc with
            | LaneChangeState.off | LaneChangeState.preLaneChange => Fin 0
            | _ => (lc_timer lc + DT_MDL)%F
            end |}.

(** *** lines 275-277: lane lines are turned off during a lane change *)

Definition fade_lanes (lp : LanePlanner.t LPPrivate) (d : Desire.t) (ll_prob : PyFloat)
  : LanePlanner.t LPPrivate :=
  if Desire.eqb d Desire.laneChangeRight || Desire.eqb d Desire.laneChangeLeft
  then {| LanePlanner.lll_prob := (LanePlanner.lll_prob lp * ll_prob)%F;
          LanePlanner.rll_prob := (LanePlanner.rll_prob lp * ll_prob)%F;
          LanePlanner.l_lane_change_prob := LanePlanner.l_lane_change_prob lp;
          LanePlanner.r_lane_change_prob := LanePlanner.r_lane_change_prob lp;
          LanePlanner.d_prob := LanePlanner.d_prob lp;
          LanePlanner.lane_width := LanePlanner.lane_width lp;
          LanePlanner.lp_private := LanePlanner.lp_private lp |}
  else lp.

(** *** lines 278-334: the choice between the lane path and the raw model
    path, with the weights handed to the solver *)

Record Arbitration : Type := {
  arb_LP : LanePlanner.t LPPrivate;
  arb_d_path_xyz : Path;
  arb_weights : MpcCall;
  arb_status : bool;
  arb_buffer : bool;
  arb_at_stopping : bool;
  arb_timer : Z
}.

(** [np.clip(abs(a / b), 0.5, 5.0)] on numpy scalars: a division by zero
    gives an infinity (clipped to 5.0) or, for 0/0, NaN; it does not
    raise. *)
Definition np_clip_abs_div (a b : PyFloat) : PyFloat :=
  match a, b with
  | Fin n, Fin d =>
      if Qeq_bool d 0 then (if Qeq_bool n 0 then NaN else Fin 5)
      else
        let r := Qabs (n / d) in
        if Qlt_bool r 0.5 then Fin 0.5 else if Qlt_bool 5 r then Fin 5 else Fin r
  | _, _ => NaN
  end.

(** The branches that track the lane path:
    [d_path_xyz = self.LP.get_d_path(...)], weights [PATH], [HEADING]. *)
Definition lane_path (lp : LanePlanner.t LPPrivate) (v_ego : PyFloat)
    (t : list PyFloat) (path : Path) (rate_cost : PyFloat)
    (buffer at_stopping : bool) (timer : Z) : option Arbitration :=
  let '(lp', d) := get_d_path lp v_ego t path in
  Some {| arb_LP := lp';
          arb_d_path_xyz := d;
          arb_weights := mpc_set_weights MPC_COST_LAT_PATH MPC_COST_LAT_HEADING rate_cost;
          arb_status := false;
          arb_buffer := buffer;
          arb_at_stopping := at_stopping;
          arb_timer := timer |}.

(** The branches that track the raw model path:
    [d_path_xyz = self.path_xyz], weights from the first path point. *)
Definition laneless_path (lp : LanePlanner.t LPPrivate) (v_ego : PyFloat)
    (path stds : Path) (rate_cost : PyFloat)
    (buffer at_stopping : bool) (timer : Z) : option Arbitration :=
  do a <- at_0_1 path;
  do b <- at_0_1 stds;
  let path_cost := (np_clip_abs_div a b * MPC_COST_LAT_PATH)%F in
  let heading_cost := interp v_ego [Fin 5; Fin 10] [MPC_COST_LAT_HEADING; Fin 0] in
  Some {| arb_LP := lp;
          arb_d_path_xyz := path;
          arb_weights := mpc_set_weights path_cost heading_cost rate_cost;
          arb_status := true;
          arb_buffer := buffer;
          arb_at_stopping := at_stopping;
          arb_timer := timer |}.

(** Line 287-288: the lead-vehicle test of the third branch. *)
Definition lead_stopping (sm : SubMaster.t) (v_ego : PyFloat)
    (state : LaneChangeState.t) : bool :=
  let lead := RadarState.leadOne (SubMaster.radarState sm) in
  (LeadData.dRel lead <? Fin 25)%F &&
  ((LeadData.vRel lead <? Fin 0)%F ||
   ((LeadData.vRel lead >=? Fin 0)%F && (v_ego <? Fin 5)%F)) &&
  ((fabs (ControlsState.steeringAngleDesiredDeg (SubMaster.controlsState sm))
    - fabs (CarState.steeringAngleDeg (SubMaster.carState sm)) >? Fin 2)%F) &&
  LaneChangeState.eqb state LaneChangeState.off.

Definition arbiter (self : Planner) (sm : SubMaster.t) (v_ego : PyFloat)
    (use_lanelines' : bool) (laneless_mode' : Z)
    (state : LaneChangeState.t) (lp : LanePlanner.t LPPrivate)
    (path stds : Path) (t : list PyFloat) (rate_cost : PyFloat)
  : option Arbitration :=
  let buffer := laneless_mode_status_buffer self in
  let at_stopping := laneless_mode_at_stopping self in
  let timer := laneless_mode_at_stopping_timer self in
  let lane := lane_path lp v_ego t path rate_cost in
  let laneless := laneless_path lp v_ego path stds rate_cost in
  let ll_avg := ((LanePlanner.lll_prob lp + LanePlanner.rll_prob lp) / Fin 2)%F in
  let is_off := LaneChangeState.eqb state LaneChangeState.off in
  if use_lanelines' then lane buffer at_stopping timer
  else if (laneless_mode' =? 0)%Z then lane buffer at_stopping timer
  else if lead_stopping sm v_ego state then laneless buffer true 60%Z
  else if at_stopping && ((v_ego <? Fin 0.5)%F || (timer <=? 0)%Z)
       then lane buffer false timer
  else if (laneless_mode' =? 1)%Z then laneless buffer at_stopping timer
  else if (laneless_mode' =? 2)%Z && (ll_avg <? Fin 0.2)%F && is_off
       then laneless true at_stopping timer
  else if (laneless_mode' =? 2)%Z && (ll_avg >? Fin 0.4)%F && buffer &&
          negb at_stopping && is_off
       then lane false at_stopping timer
  else if (laneless_mode' =? 2)%Z && Bool.eqb buffer true && is_off
       then laneless buffer at_stopping timer
  else lane false at_stopping timer.

(** Lines 336-337 *)
Definition tick_down (timer : Z) : Z :=
  if (timer >? 0)%Z then (timer - 1)%Z else timer.

(** *** lines 339-354: the solver run *)

Record MpcRun : Type := {
  run_y_pts : list PyFloat;
  run_call : MpcCall;
  run_solution : MpcLog.t;
  run_cur_state : MpcState.t
}.

Definition mpc_step (calls : list MpcCall) (seed : MpcState.t) (v_ego : PyFloat)
    (t : list PyFloat) (d_path path : Path) (yaw : list PyFloat) : option MpcRun :=
  let xs := map (fun ti => (v_ego * ti)%F) (firstn (S MPC_N) t) in
  do y <- np_interp_norm xs d_path (column_1 d_path);
  do heading <- np_interp_norm xs path yaw;
  do _ <- assert (List.length y =? S MPC_N)%nat;
  do _ <- assert (List.length heading =? S MPC_N)%nat;
  let sol := run_mpc calls seed v_ego CAR_ROTATION_RADIUS y heading in
  Some {| run_y_pts := y;
          run_call := mpc_run seed v_ego CAR_ROTATION_RADIUS y heading;
          run_solution := sol;
          run_cur_state :=
            zero_state (interp DT_MDL (firstn (S MPC_N) t) (MpcLog.curvature sol)) |}.

(** *** lines 357-378: delay compensation and rate limits *)

Record Curvatures : Type := {
  cv_desired_curvature : PyFloat;
  cv_desired_curvature_rate : PyFloat;
  cv_safe_desired_curvature_rate : PyFloat;
  cv_safe_desired_curvature : PyFloat
}.

(** Line 372 *)
Definition max_curvature_rate (v_ego : PyFloat) : PyFloat :=
  interp v_ego MAX_CURVATURE_RATE_SPEEDS MAX_CURVATURE_RATES.

Definition curvature_step (safe_prev : PyFloat) (CP : CarParams.t) (v_ego : PyFloat)
    (t : list PyFloat) (sol : MpcLog.t) : option Curvatures :=
  let delay := CarParams.steerActuatorDelay CP in
  do current_curvature <- nth_error (MpcLog.curvature sol) 0;
  let psi := interp delay (firstn (S MPC_N) t) (MpcLog.psi sol) in
  do next_curvature_rate <- nth_error (MpcLog.curvature_rate sol) 0;
  do q <- truediv psi (py_max v_ego (Fin 0.1) * delay)%F;
  let curvature_diff_from_psi := (q - current_curvature)%F in
  let next_curvature := (current_curvature + Fin 2 * curvature_diff_from_psi)%F in
  let rate := max_curvature_rate v_ego in
  Some {| cv_desired_curvature := next_curvature;
          cv_desired_curvature_rate := next_curvature_rate;
          cv_safe_desired_curvature_rate := clip next_curvature_rate (- rate)%F rate;
          cv_safe_desired_curvature :=
            clip next_curvature (safe_prev - rate / DT_MDL)%F
                                (safe_prev + rate / DT_MDL)%F |}.

(** *** lines 381-394: the check for an infeasible solution *)

Definition mpc_nans (sol : MpcLog.t) : bool := existsb isnan (MpcLog.curvature sol).

Definition solution_invalid (sol : MpcLog.t) : bool :=
  (MpcLog.cost sol >? Fin 20000)%F || mpc_nans sol.

Definition next_invalid_cnt (cnt : Z) (sol : MpcLog.t) : Z :=
  if solution_invalid sol then (cnt + 1)%Z else 0%Z.

(** *** [update]

    [params] is the parameter store and [now] the value of
    [sec_since_boot()] at this frame. *)
Definition update (self : Planner) (sm : SubMaster.t) (CP : CarParams.t)
    (params : Params.t) (now : PyFloat) : option Planner :=
  let '(second', use_lanelines', laneless_mode') := poll_params self params in
  let output_scale' := read_output_scale self sm CP in
  let v_ego := CarState.vEgo (SubMaster.carState sm) in
  let active := ControlsState.active (SubMaster.controlsState sm) in
  let measured_curvature := ControlsState.curvature (SubMaster.controlsState sm) in
  let md := SubMaster.modelV2 sm in
  let lp1 := parse_model (LP self) md sm v_ego in
  do '(path, t, yaw, stds) <- read_model self md;
  let one_blinker :=
    xorb (CarState.leftBlinker (SubMaster.carState sm))
         (CarState.rightBlinker (SubMaster.carState sm)) in
  do lc <- lane_change_logic self sm CP v_ego active output_scale' lp1;
  let desire' := DESIRES (lc_direction lc) (lc_state lc) in
  let rate_cost :=
    interp v_ego [Fin 1; Fin 8; Fin 15] [Fin 1; Fin 0.8; CarParams.steerRateCost CP] in
  let lp2 := fade_lanes lp1 desire' (lc_ll_prob lc) in
  do arb <- arbiter self sm v_ego use_lanelines' laneless_mode' (lc_state lc)
                    lp2 path stds t rate_cost;
  let calls1 := libmpc self ++ [arb_weights arb] in
  do run <- mpc_step calls1 (cur_state self) v_ego t (arb_d_path_xyz arb) path yaw;
  let calls2 := calls1 ++ [run_call run] in
  let sol := run_solution run in
  do cv <- curvature_step (safe_desired_curvature self) CP v_ego t sol;
  let nans := mpc_nans sol in
  let warn := nans && (now >? last_cloudlog_t self + Fin 5)%F in
  Some {| use_lanelines := use_lanelines';
          LP := arb_LP arb;
          last_cloudlog_t := if warn then now else last_cloudlog_t self;
          steer_rate_cost := rate_cost;
          libmpc := if nans then calls2 ++ [mpc_init] else calls2;
          mpc_solution := sol;
          cur_state :=
            if nans then zero_state measured_curvature else run_cur_state run;
          desired_curvature := cv_desired_curvature cv;
          safe_desired_curvature := cv_safe_desired_curvature cv;
          desired_curvature_rate := cv_desired_curvature_rate cv;
          safe_desired_curvature_rate := cv_safe_desired_curvature_rate cv;
          solution_invalid_cnt := next_invalid_cnt (solution_invalid_cnt self) sol;
          laneless_mode := laneless_mode';
          laneless_mode_status := arb_status arb;
          laneless_mode_status_buffer := arb_buffer arb;
          laneless_mode_at_stopping := arb_at_stopping arb;
          laneless_mode_at_stopping_timer := tick_down (arb_timer arb);
          lane_change_delay := lane_change_delay self;
          lane_change_auto_delay := lane_change_auto_delay self;
          lane_change_wait_timer := lc_wait_timer lc;
          lane_change_state := lc_state lc;
          lane_change_direction := lc_direction lc;
          lane_change_timer := lc_timer lc;
          lane_change_ll_prob := lc_ll_prob lc;
          prev_one_blinker := one_blinker;
          desire := desire';
          path_xyz := path;
          path_xyz_stds := stds;
          plan_yaw := yaw;
          t_idxs := t;
          y_pts := run_y_pts run;
          lane_change_adjust_new := lc_adjust_new lc;
          standstill_elapsed_time := standstill_elapsed_time self;
          v_cruise_kph := ControlsState.vCruise (SubMaster.controlsState sm);
          stand_still := CarState.standStill (SubMaster.carState sm);
          steer_actuator_delay_to_send := CarParams.steerActuatorDelay CP;
          output_scale := output_scale';
          second := second';
          cloudlog :=
            if warn then cloudlog self ++ ["Lateral mpc - nan: True"%string]
            else cloudlog self |}.

(** *** [publish] *)

(** [LOG_MPC], read from the environment when the module is loaded. *)
Variable LOG_MPC : bool.

(** The [lateralPlan] message; [secs] is [int(self.standstill_elapsed_time)]
    after the update of line 425-428. *)
Definition plan_message (self : Planner) (sm : SubMaster.t) (secs : Z) : LateralPlan.t :=
  {| LateralPlan.valid := SubMaster.all_alive_and_valid sm;
     LateralPlan.laneWidth := LanePlanner.lane_width (LP self);
     LateralPlan.dPathPoints := y_pts self;
     LateralPlan.lProb := LanePlanner.lll_prob (LP self);
     LateralPlan.rProb := LanePlanner.rll_prob (LP self);
     LateralPlan.dProb := LanePlanner.d_prob (LP self);
     LateralPlan.rawCurvature := desired_curvature self;
     LateralPlan.rawCurvatureRate := desired_curvature_rate self;
     LateralPlan.curvature := safe_desired_curvature self;
     LateralPlan.curvatureRate := safe_desired_curvature_rate self;
     LateralPlan.mpcSolutionValid := (solution_invalid_cnt self <? 3)%Z;
     LateralPlan.desire := desire self;
     LateralPlan.laneChangeState := lane_change_state self;
     LateralPlan.laneChangeDirection := lane_change_direction self;
     LateralPlan.steerRateCost := steer_rate_cost self;
     LateralPlan.outputScale := output_scale self;
     LateralPlan.vCruiseSet := v_cruise_kph self;
     LateralPlan.vCurvature := ControlsState.curvature (SubMaster.controlsState sm);
     LateralPlan.steerAngleDesireDeg :=
       ControlsState.steeringAngleDesiredDeg (SubMaster.controlsState sm);
     LateralPlan.lanelessMode := laneless_mode_status self;
     LateralPlan.steerActuatorDelay := steer_actuator_delay_to_send self;
     LateralPlan.standstillElapsedTime := secs |}.

Definition live_mpc_message (self : Planner) : LiveMpc.t :=
  {| LiveMpc.x := MpcLog.x (mpc_solution self);
     LiveMpc.y := MpcLog.y (mpc_solution self);
     LiveMpc.psi := MpcLog.psi (mpc_solution self);
     LiveMpc.curvature := MpcLog.curvature (mpc_solution self);
     LiveMpc.cost := MpcLog.cost (mpc_solution self) |}.

Definition with_standstill_elapsed_time (self : Planner) (e : PyFloat) : Planner :=
  {| use_lanelines := use_lanelines self;
     LP := LP self;
     last_cloudlog_t := last_cloudlog_t self;
     steer_rate_cost := steer_rate_cost self;
     libmpc := libmpc self;
     mpc_solution := mpc_solution self;
     cur_state := cur_state self;
     desired_curvature := desired_curvature self;
     safe_desired_curvature := safe_desired_curvature self;
     desired_curvature_rate := desired_curvature_rate self;
     safe_desired_curvature_rate := safe_desired_curvature_rate self;
     solution_invalid_cnt := solution_invalid_cnt self;
     laneless_mode := laneless_mode self;
     laneless_mode_status := laneless_mode_status self;
     laneless_mode_status_buffer := laneless_mode_status_buffer self;
     laneless_mode_at_stopping := laneless_mode_at_stopping self;
     laneless_mode_at_stopping_timer := laneless_mode_at_stopping_timer self;
     lane_change_delay := lane_change_delay self;
     lane_change_auto_delay := lane_change_auto_delay self;
     lane_change_wait_timer := lane_change_wait_timer self;
     lane_change_state := lane_change_state self;
     lane_change_direction := lane_change_direction self;
     lane_change_timer := lane_change_timer self;
     lane_change_ll_prob := lane_change_ll_prob self;
     prev_one_blinker := prev_one_blinker self;
     desire := desire self;
     path_xyz := path_xyz self;
     path_xyz_stds := path_xyz_stds self;
     plan_yaw := plan_yaw self;
     t_idxs := t_idxs self;
     y_pts := y_pts self;
     lane_change_adjust_new := lane_change_adjust_new self;
     standstill_elapsed_time := e;
     v_cruise_kph := v_cruise_kph self;
     stand_still := stand_still self;
     steer_actuator_delay_to_send := steer_actuator_delay_to_send self;
     output_scale := output_scale self;
     second := second self;
     cloudlog := cloudlog self |}.

(** The planner after the call, the [lateralPlan] message sent and, when
    [LOG_MPC] is set, the [liveMpc] message. *)
Definition publish (self : Planner) (sm : SubMaster.t)
  : option (Planner * LateralPlan.t * option LiveMpc.t) :=
  let elapsed :=
    if stand_still self then (standstill_elapsed_time self + DT_MDL)%F else Fin 0 in
  do secs <- py_int elapsed;
  let self' := with_standstill_elapsed_time self elapsed in
  Some (self', plan_message self' sm secs,
        if LOG_MPC then Some (live_mpc_message self') else None).

(** One frame of the planner loop: [update], then [publish]. *)
Record Frame : Type := {
  f_sm : SubMaster.t;
  f_CP : CarParams.t;
  f_params : Params.t;
  f_now : PyFloat
}.

Definition step (self : Planner) (f : Frame) : option (Planner * LateralPlan.t) :=
  do self1 <- update self (f_sm f) (f_CP f) (f_params f) (f_now f);
  do '(self2, plan, _) <- publish self1 (f_sm f);
  Some (self2, plan).

(** The planner after a sequence of frames. *)
Fixpoint run (self : Planner) (fs : list Frame) : option Planner :=
  match fs with
  | [] => Some self
  | f :: fs' => do '(self', _) <- step self f; run self' fs'
  end.

(** The planner states the loop can reach from a fresh planner. *)
Inductive reachable : Planner -> Prop :=
| reach_init CP ul wc params : reachable (init CP ul wc params)
| reach_update self sm CP params now self' :
    reachable self -> update self sm CP params now = Some self' -> reachable self'
| reach_publish self sm self' plan live :
    reachable self -> publish self sm = Some (self', plan, live) -> reachable self'.

End LateralPlanner.

(* ------------------------------------------------------------------ *)
(** ** A concrete set of collaborators, for running the planner *)

Module Demo.

(** A lane planner that keeps both lines at full confidence and returns the
    model path, a solver that answers with the zero solution (or with NaN
    curvatures when the ego speed it is given is NaN), the horizon lengths of
    the spec. *)
Definition lane_planner : LanePlanner.t unit :=
  {| LanePlanner.lll_prob := Fin 1;
     LanePlanner.rll_prob := Fin 1;
     LanePlanner.l_lane_change_prob := Fin 0;
     LanePlanner.r_lane_change_prob := Fin 0;
     LanePlanner.d_prob := Fin 1;
     LanePlanner.lane_width := Fin 3.7;
     LanePlanner.lp_private := tt |}.

Definition solve (v_ego : PyFloat) : MpcLog.t :=
  let c := if isnan v_ego then NaN else Fin 0 in
  {| MpcLog.x := repeat (Fin 0) 17;
     MpcLog.y := repeat (Fin 0) 17;
     MpcLog.psi := repeat (Fin 0) 17;
     MpcLog.curvature := repeat c 17;
     MpcLog.curvature_rate := repeat (Fin 0) 16;
     MpcLog.cost := Fin 0 |}.

Definition externals : Externals :=
  {| LPPrivate := unit;
     new_LanePlanner := fun _ => lane_planner;
     parse_model := fun _ _ _ _ => lane_planner;
     get_d_path := fun lp _ _ path => (lp, path);
     TRAJECTORY_SIZE := 33;
     MPC_N := 16;
     MPC_COST_LAT_PATH := Fin 1;
     MPC_COST_LAT_HEADING := Fin 1;
     CAR_ROTATION_RADIUS := Fin 0;
     np_interp_norm := fun xs path fp =>
       if (List.length path =? List.length fp)%nat
       then Some (map (fun _ => Fin 0) xs) else None;
     run_mpc := fun _ _ v_ego _ _ _ => solve v_ego |}.

Definition car_params : CarParams.t :=
  {| CarParams.steerRateCost := Fin 1;
     CarParams.steerMaxV := [Fin 1];
     CarParams.steerActuatorDelay := Fin 0.1;
     CarParams.lateralTuning := LateralTuning.pid |}.

(** The store: [EndToEndToggle], [LanelessMode], [OpkrLaneChangeSpeed] in
    km/h, [OpkrAutoLaneChangeDelay]. *)
Definition store (e2e : bool) (mode speed delay : Z) : Params.t :=
  {| Params.EndToEndToggle := e2e;
     Params.LanelessMode := mode;
     Params.OpkrLaneChangeSpeed := speed;
     Params.OpkrAutoLaneChangeDelay := delay |}.

Definition car (v_ego : PyFloat) (left_blinker right_blinker : bool)
    (angle : PyFloat) : CarState.t :=
  {| CarState.vEgo := v_ego;
     CarState.standStill := false;
     CarState.leftBlinker := left_blinker;
     CarState.rightBlinker := right_blinker;
     CarState.steeringPressed := false;
     CarState.steeringTorque := Fin 0;
     CarState.leftBlindspot := false;
     CarState.rightBlindspot := false;
     CarState.steeringAngleDeg := angle |}.

Definition controls (active : bool) (angle_desired : PyFloat) : ControlsState.t :=
  {| ControlsState.vCruise := Fin 0;
     ControlsState.active := active;
     ControlsState.curvature := Fin 0;
     ControlsState.steeringAngleDesiredDeg := angle_desired;
     ControlsState.lateralControlState := LateralControlState.pidState (Fin 0) |}.

Definition no_model : ModelV2.t :=
  let e := {| XYZTData.x := []; XYZTData.y := []; XYZTData.z := [];
              XYZTData.t_ := []; XYZTData.xStd := []; XYZTData.yStd := [];
              XYZTData.zStd := [] |} in
  {| ModelV2.position := e; ModelV2.orientation := e |}.

Definition radar (d_rel v_rel : PyFloat) : RadarState.t :=
  {| RadarState.leadOne := {| LeadData.dRel := d_rel; LeadData.vRel := v_rel |} |}.

Definition bus (cs : CarState.t) (ctl : ControlsState.t) (rs : RadarState.t)
  : SubMaster.t :=
  {| SubMaster.carState := cs;
     SubMaster.controlsState := ctl;
     SubMaster.modelV2 := no_model;
     SubMaster.radarState := rs;
     SubMaster.all_alive_and_valid := true |}.

(** A frame with the system engaged, no lead in range and straight wheels. *)
Definition driving (v_ego : PyFloat) (left_blinker right_blinker : bool)
    (params : Params.t) : Frame :=
  {| f_sm := bus (car v_ego left_blinker right_blinker (Fin 0))
                 (controls true (Fin 0)) (radar (Fin 100) (Fin 0));
     f_CP := car_params;
     f_params := params;
     f_now := Fin 0 |}.

End Demo.

(* ------------------------------------------------------------------ *)
(** ** Properties of planner states *)

(** A probability: a number of the unit interval. *)
Definition in_unit (a : PyFloat) : Prop :=
  exists q, a = Fin q /\ 0 <= q <= 1.

(** What holds of every planner the loop can reach.  While lane lines fade
    back in, [ll_prob] has made [k] steps of [DT_MDL] from a start below
    0.01. *)
Record planner_inv {E : Externals} (self : Planner) : Prop := {
  inv_ll_prob : in_unit (lane_change_ll_prob self);
  inv_ll_prob_pre :
    lane_change_state self = LaneChangeState.preLaneChange ->
    (lane_change_ll_prob self =? Fin 1)%F = true;
  inv_ll_prob_finishing :
    lane_change_state self = LaneChangeState.laneChangeFinishing ->
    exists (k : Z) (q : Q),
      lane_change_ll_prob self = Fin q /\ (0 <= k <= 19)%Z /\
      0.05 * inject_Z k <= q < 0.05 * inject_Z k + 0.01;
  inv_timer :
    lane_change_state self = LaneChangeState.off \/
    lane_change_state self = LaneChangeState.preLaneChange ->
    lane_change_timer self = Fin 0;
  inv_safe_curvature : isnan (safe_desired_curvature self) = false;
  inv_invalid_cnt : (0 <= solution_invalid_cnt self)%Z
}.

(** The desire table of the spec (section 4.2), read by state first: none
    in [off] and [preLaneChange], the direction's desire in
    [laneChangeStarting] and [laneChangeFinishing]. *)
Definition desire_table (s : LaneChangeState.t) (d : LaneChangeDirection.t)
  : Desire.t :=
  match s with
  | LaneChangeState.off | LaneChangeState.preLaneChange => Desire.none
  | LaneChangeState.laneChangeStarting | LaneChangeState.laneChangeFinishing =>
      match d with
      | LaneChangeDirection.none => Desire.none
      | LaneChangeDirection.left => Desire.laneChangeLeft
      | LaneChangeDirection.right => Desire.laneChangeRight
      end
  end.

(** The spec's infeasible solution: some curvature entry is NaN, or the cost
    exceeds 20000. *)
Definition infeasible (sol : MpcLog.t) : Prop :=
  Exists (fun c => c = NaN) (MpcLog.curvature sol) \/
  (MpcLog.cost sol >? Fin 20000)%F = true.

(** The inputs of the spec's scenario 2: engaged, left blinker only, not
    below the minimum lane-change speed. *)
Definition left_blinker_on {E : Externals} (params_at_import : Params.t)
    (sm : SubMaster.t) : bool :=
  ControlsState.active (SubMaster.controlsState sm) &&
  CarState.leftBlinker (SubMaster.carState sm) &&
  negb (CarState.rightBlinker (SubMaster.carState sm)) &&
  negb (CarState.vEgo (SubMaster.carState sm)
        <? LANE_CHANGE_SPEED_MIN params_at_import)%F.

(** No vehicle in the left blind spot and no torque from the driver. *)
Definition hands_off (sm : SubMaster.t) : bool :=
  negb (CarState.leftBlindspot (SubMaster.carState sm)) &&
  negb (CarState.steeringPressed (SubMaster.carState sm)).

(** Engaged, at an ego speed of 16 m/s. *)
Definition cruising_16 (sm : SubMaster.t) : bool :=
  ControlsState.active (SubMaster.controlsState sm) &&
  (CarState.vEgo (SubMaster.carState sm) =? Fin 16)%F.

(** The lead-vehicle test as the spec words it: lead closer than 25 m,
    closing in or stopped ahead of a slow ego, the desired steering angle
    diverging from the measured one by more than 2 degrees, lane-change state
    off. *)
Definition lead_stopping_spec (sm : SubMaster.t) (v_ego : PyFloat)
    (state : LaneChangeState.t) : bool :=
  let lead := RadarState.leadOne (SubMaster.radarState sm) in
  (LeadData.dRel lead <? Fin 25)%F &&
  ((LeadData.vRel lead <? Fin 0)%F ||
   ((LeadData.vRel lead >=? Fin 0)%F && (v_ego <? Fin 5)%F)) &&
  ((fabs (ControlsState.steeringAngleDesiredDeg (SubMaster.controlsState sm)
          - CarState.steeringAngleDeg (SubMaster.carState sm)) >? Fin 2)%F) &&
  LaneChangeState.eqb state LaneChangeState.off.

(** *** Scenarios, on the concrete collaborators *)

Module Scenario.

Import Demo.

#[local] Existing Instance Demo.externals.

(** End-to-end toggle on, a minimum lane-change speed of 30 km/h
    (8.33 m/s). *)
Definition params (mode delay : Z) : Params.t := store true mode 30 delay.

(** A fresh planner that does not use lane lines. *)
Definition fresh (p : Params.t) : Planner := init car_params false false p.

(** Scenario 2 of the spec: engaged at 20 m/s, left blinker newly on. *)
Definition blinker (p : Params.t) : Frame := driving (Fin 20) true false p.

(** Scenario 3 of the spec: scenario 2, five more frames with the blinker
    on, ten frames at 16 m/s. *)
Definition auto_delay : list Frame :=
  blinker (params 1 1) :: repeat (blinker (params 1 1)) 5
  ++ repeat (driving (Fin 16) true false (params 1 1)) 10.

(** A complete lane change to the left at 30 m/s, up to the last frame of
    the fade-in, and that last frame, the blinker long off. *)
Definition lane_change : list Frame :=
  repeat (blinker (params 1 1)) 6
  ++ repeat (driving (Fin 30) true false (params 1 1)) 17
  ++ repeat (driving (Fin 30) false false (params 1 1)) 19.
Definition last_fade_in : Frame := driving (Fin 30) false false (params 1 1).

(** Scenario 6 of the spec: a lead 10 m ahead closing in at 2 m/s, the ego at
    10 m/s, desired and measured steering angles as given. *)
Definition lead_close (p : Params.t) (desired measured : PyFloat) : Frame :=
  {| f_sm := bus (car (Fin 10) false false measured) (controls true desired)
                 (radar (Fin 10) (Fin (-2)));
     f_CP := car_params;
     f_params := p;
     f_now := Fin 0 |}.

(** The store after [OpkrLaneChangeSpeed] was lowered from 60 to 30 km/h,
    seen by a planner for 22 frames; in the last one the left blinker comes
    on at 10 m/s. *)
Definition loaded_at_60 : Params.t := store true 1 60 1.
Definition lowered_to_30 : list Frame :=
  repeat (driving (Fin 10) false false (params 1 1)) 21
  ++ [driving (Fin 10) true false (params 1 1)].

End Scenario.

(** More of what holds of every planner the loop can reach: the lane-change
    timer runs exactly during a lane change and for at most
    [LANE_CHANGE_TIME_MAX] plus one frame, the desire is the table's, the
    stopping countdown stays between 0 and 59, the model path keeps its
    [TRAJECTORY_SIZE] rows, the seed state sits at the origin, the standstill
    time and the polling time are numbers. *)
Record planner_inv_more {E : Externals} (self : Planner) : Prop := {
  inv_timer_range :
    exists tm, lane_change_timer self = Fin tm /\ 0 <= tm <= 10.05 /\
      (lane_change_state self = LaneChangeState.laneChangeStarting \/
       lane_change_state self = LaneChangeState.laneChangeFinishing -> 0 < tm);
  inv_desire :
    desire self = DESIRES (lane_change_direction self) (lane_change_state self);
  inv_ticks :
    (0 <= laneless_mode_at_stopping_timer self <= 59)%Z;
  inv_path_rows : List.length (path_xyz self) = TRAJECTORY_SIZE;
  inv_seed :
    MpcState.x (cur_state self) = Fin 0 /\
    MpcState.y (cur_state self) = Fin 0 /\
    MpcState.psi (cur_state self) = Fin 0;
  inv_standstill :
    exists e, standstill_elapsed_time self = Fin e /\ 0 <= e;
  inv_second :
    exists q, second self = Fin q /\ 0 <= q <= 1
}.

(** Exactly one blinker is on. *)
Definition one_blinker_on (sm : SubMaster.t) : bool :=
  xorb (CarState.leftBlinker (SubMaster.carState sm))
       (CarState.rightBlinker (SubMaster.carState sm)).

(** The mean of the two lane-line probabilities of a lane planner. *)
Definition lane_confidence {E : Externals} (lp : LanePlanner.t LPPrivate) : PyFloat :=
  ((LanePlanner.lll_prob lp + LanePlanner.rll_prob lp) / Fin 2)%F.

(** A time grid whose first index is not below zero (an empty grid
    included). *)
Definition starts_at_or_after_zero (t : list PyFloat) : bool :=
  match t with
  | [] => true
  | t0 :: _ => negb (t0 <? Fin 0)%F
  end.

(** *** More scenarios *)

Module ScenarioMore.

Import Demo.

#[local] Existing Instance Demo.externals.

(** A car at 20 m/s with the left blinker on; the left blind spot, the
    pressed wheel and the torque as given. *)
Definition car_left (blindspot pressed : bool) (torque : PyFloat) : CarState.t :=
  {| CarState.vEgo := Fin 20;
     CarState.standStill := false;
     CarState.leftBlinker := true;
     CarState.rightBlinker := false;
     CarState.steeringPressed := pressed;
     CarState.steeringTorque := torque;
     CarState.leftBlindspot := blindspot;
     CarState.rightBlindspot := false;
     CarState.steeringAngleDeg := Fin 0 |}.

Definition frame (cs : CarState.t) (active : bool) (CP : CarParams.t)
    (p : Params.t) : Frame :=
  {| f_sm := bus cs (controls active (Fin 0)) (radar (Fin 100) (Fin 0));
     f_CP := CP;
     f_params := p;
     f_now := Fin 0 |}.

(** The left blind spot occupied, the driver pulling to the left. *)
Definition blocked (p : Params.t) : Frame :=
  frame (car_left true true (Fin 1)) true car_params p.

(** The left blind spot free, the driver pulling to the left. *)
Definition pulling (p : Params.t) : Frame :=
  frame (car_left false true (Fin 1)) true car_params p.

(** Disengaged. *)
Definition disengaged (p : Params.t) : Frame :=
  frame (car (Fin 20) false false (Fin 0)) false car_params p.

(** The left blinker on below the minimum lane-change speed. *)
Definition slow_blinker (p : Params.t) : Frame := driving (Fin 5) true false p.

(** Car parameters without actuator delay, and without [steerMaxV]. *)
Definition no_delay : CarParams.t :=
  {| CarParams.steerRateCost := Fin 1;
     CarParams.steerMaxV := [Fin 1];
     CarParams.steerActuatorDelay := Fin 0;
     CarParams.lateralTuning := LateralTuning.pid |}.
Definition no_steer_max : CarParams.t :=
  {| CarParams.steerRateCost := Fin 1;
     CarParams.steerMaxV := [];
     CarParams.steerActuatorDelay := Fin 0.1;
     CarParams.lateralTuning := LateralTuning.pid |}.

End ScenarioMore.

(* ------------------------------------------------------------------ *)
(** ** The fade and the rate limit in binary64

    The planner above computes with exact rationals.  Where a stated
    property depends on the rounding of IEEE binary64, the arithmetic is
    written here a second time over the kernel's binary64 floats, operation
    by operation as in the source: the fade of [lane_change_ll_prob] (lines
    245-246) and the clamps of the safe curvature and its rate (lines
    372-378).  A decimal constant denotes the nearest binary64 value, as in
    Python. *)

Module Binary64.
Import PrimFloat FloatOps SpecFloat.
#[local] Set Warnings "-inexact-float".
#[local] Open Scope float_scope.

(** The builtin [max(a, b)]: [b] when [b > a], else [a]. *)
Definition py_max (a b : float) : float := if ltb a b then b else a.
(** The builtin [min(a, b)]: [b] when [b < a], else [a]. *)
Definition py_min (a b : float) : float := if ltb b a then b else a.

(** Modelled from the spec: [clip] of [common.numpy_fast], which is not
    among the sources, as in the rational model: [max(lo, min(hi, x))]. *)
Definition clip (x lo hi : float) : float := py_max lo (py_min hi x).

(** Modelled from the spec: [interp] of [common.numpy_fast], which is not
    among the sources, as in the rational model: piecewise linear through
    the points [(xp[i], fp[i])], clamped at both ends. *)
Fixpoint interp_from (xv x0 y0 : float) (xp fp : list float) : float :=
  match xp, fp with
  | x1 :: xp', y1 :: fp' =>
      if ltb x1 xv then interp_from xv x1 y1 xp' fp'
      else (xv - x0) * (y1 - y0) / (x1 - x0) + y0
  | _, _ => y0
  end.

Definition interp (xv : float) (xp fp : list float) : float :=
  match xp, fp with
  | x0 :: xp', y0 :: fp' =>
      if ltb x0 xv then interp_from xv x0 y0 xp' fp' else y0
  | _, _ => nan
  end.

(** Modelled from the spec: [DT_MDL] of [common.realtime], which is not
    among the sources; the model frame period, 0.05 s. *)
Definition DT_MDL : float := 0.05.

Definition MAX_CURVATURE_RATES : list float :=
  [0.03762194918267951; 0.003441203371932992].
Definition MAX_CURVATURE_RATE_SPEEDS : list float := [0; 35].

Definition lane_change_adjust : list float := [0.1; 0.17; 0.7; 1.2].
Definition lane_change_adjust_vel : list float := [8.3; 16; 22; 30].

(** Lines 245-246: one frame of the fade in [laneChangeStarting]. *)
Definition lane_change_ll_prob (ll_prob v_ego : float) : float :=
  let lane_change_adjust_new :=
    interp v_ego lane_change_adjust_vel lane_change_adjust in
  py_max (ll_prob - lane_change_adjust_new * DT_MDL) 0.

(** Line 372. *)
Definition max_curvature_rate (v_ego : float) : float :=
  interp v_ego MAX_CURVATURE_RATE_SPEEDS MAX_CURVATURE_RATES.

(** Lines 373-375. *)
Definition safe_desired_curvature_rate (desired_curvature_rate v_ego : float)
    : float :=
  let max_curvature_rate := max_curvature_rate v_ego in
  clip desired_curvature_rate (- max_curvature_rate) max_curvature_rate.

(** Lines 376-378: the clamp around the safe curvature held before. *)
Definition safe_desired_curvature (safe_prev desired_curvature v_ego : float)
    : float :=
  let max_curvature_rate := max_curvature_rate v_ego in
  clip desired_curvature
       (safe_prev - max_curvature_rate / DT_MDL)
       (safe_prev + max_curvature_rate / DT_MDL).

(** The rational a finite binary64 value stands for. *)
Definition to_Q (x : float) : option Q :=
  match Prim2SF x with
  | S754_zero _ => Some 0%Q
  | S754_finite s m e =>
      let v := (inject_Z (Zpos m) * Qpower 2 e)%Q in
      Some (if s then (- v)%Q else v)
  | _ => None
  end.

End Binary64.


(* ------------------------------------------------------------------ *)
(** ** Comparisons on rationals *)

Lemma Qlt_bool_true (a b : Q) : Qlt_bool a b = true <-> a < b.
Proof.
  unfold Qlt_bool. rewrite negb_true_iff.
  split; intro H.
  - apply Qnot_le_lt. intro L. apply Qle_bool_iff in L. congruence.
  - destruct (Qle_bool b a) eqn:L; auto.
    apply Qle_bool_iff in L. exfalso. apply (Qlt_not_le _ _ H L).
Qed.

Lemma Qlt_bool_false (a b : Q) : Qlt_bool a b = false <-> b <= a.
Proof.
  unfold Qlt_bool. rewrite negb_false_iff. apply Qle_bool_iff.
Qed.

Lemma Qle_bool_false (a b : Q) : Qle_bool a b = false <-> b < a.
Proof.
  rewrite <- Qlt_bool_true. unfold Qlt_bool. rewrite negb_true_iff. tauto.
Qed.

Lemma Qeq_bool_false (a b : Q) : Qeq_bool a b = false <-> ~ a == b.
Proof.
  split; intro H.
  - intro K. apply Qeq_bool_iff in K. congruence.
  - destruct (Qeq_bool a b) eqn:K; auto. apply Qeq_bool_iff in K. tauto.
Qed.

(** Boolean comparisons on rationals, in hypotheses and goal, as
    propositions. *)
Ltac qprop :=
  repeat match goal with
  | H : Qlt_bool _ _ = true |- _ => apply Qlt_bool_true in H
  | H : Qlt_bool _ _ = false |- _ => apply Qlt_bool_false in H
  | H : Qle_bool _ _ = true |- _ => apply Qle_bool_iff in H
  | H : Qle_bool _ _ = false |- _ => apply Qle_bool_false in H
  | H : Qeq_bool _ _ = true |- _ => apply Qeq_bool_iff in H
  | H : Qeq_bool _ _ = false |- _ => apply Qeq_bool_false in H
  | |- Qlt_bool _ _ = true => apply Qlt_bool_true
  | |- Qlt_bool _ _ = false => apply Qlt_bool_false
  | |- Qle_bool _ _ = true => apply Qle_bool_iff
  | |- Qle_bool _ _ = false => apply Qle_bool_false
  | |- Qeq_bool _ _ = true => apply Qeq_bool_iff
  | |- Qeq_bool _ _ = false => apply Qeq_bool_false
  end.

(** Quotients by closed rationals, as products, so that linear arithmetic
    applies. *)
Ltac qinv :=
  unfold Qdiv in *;
  repeat match goal with
  | |- context [Qinv ?e] =>
      let c := eval vm_compute in (Qinv e) in change (Qinv e) with c
  | H : context [Qinv ?e] |- _ =>
      let c := eval vm_compute in (Qinv e) in change (Qinv e) with c in H
  end.

(** Case analysis on the next comparison of rationals the goal branches
    on. *)
Ltac qcase :=
  match goal with
  | |- context [Qlt_bool ?a ?b] =>
      let C := fresh "C" in destruct (Qlt_bool a b) eqn:C
  | |- context [Qle_bool ?a ?b] =>
      let C := fresh "C" in destruct (Qle_bool a b) eqn:C
  | |- context [Qeq_bool ?a ?b] =>
      let C := fresh "C" in destruct (Qeq_bool a b) eqn:C
  end.

Ltac unfold_float :=
  unfold clip, py_max, py_min, fgt, fge, flt, fle, feq, fadd, fsub, fmul, fdiv,
    fneg, fabs, cmp2, lift2, DT_MDL in *.

(** One [do] of a computation that returned. *)
Ltac inv_bind H :=
  match type of H with
  | bind ?m _ = Some _ =>
      let x := fresh "x" in
      let Hx := fresh "E" x in
      destruct m as [x|] eqn:Hx; [cbn [bind] in H | discriminate H]
  end.

(** ** The tables *)

(** The fade-out rate is a number between the first and the last entry of
    the table, whatever the speed. *)
Lemma fade_rate_range (v : PyFloat) :
  exists r, interp v lane_change_adjust_vel lane_change_adjust = Fin r /\
            0.1 <= r <= 1.2.
Proof.
  destruct v as [|v]; cbn.
  - eexists; split; [reflexivity | lra].
  - repeat (qcase; cbn); eexists; (split; [reflexivity |]); qprop; qinv; lra.
Qed.

(** At 16 m/s the rate is the table's second entry. *)
Lemma fade_rate_16 (v : Q) :
  v == 16 ->
  exists r, interp (Fin v) lane_change_adjust_vel lane_change_adjust = Fin r /\
            r == 0.17.
Proof.
  intro Hv. cbn.
  repeat (qcase; cbn); qprop; try lra;
    eexists; (split; [reflexivity |]); qinv; lra.
Qed.

(** The rate limit is a positive number, whatever the speed. *)
Lemma max_curvature_rate_range (v : PyFloat) :
  exists m, max_curvature_rate v = Fin m /\
            0.003441203371932992 <= m <= 0.03762194918267951.
Proof.
  destruct v as [|v]; cbn.
  - eexists; split; [reflexivity | lra].
  - repeat (qcase; cbn); eexists; (split; [reflexivity |]); qprop; qinv; lra.
Qed.

(** The spec's reading of the rate limit: linear between the two
    breakpoints, constant outside. *)
Lemma max_curvature_rate_linear (v : Q) :
  exists m, max_curvature_rate (Fin v) = Fin m /\
    (v <= 0 -> m == 0.03762194918267951) /\
    (35 <= v -> m == 0.003441203371932992) /\
    (0 <= v <= 35 ->
     m == 0.03762194918267951
          + v * (0.003441203371932992 - 0.03762194918267951) / 35).
Proof.
  cbn. repeat (qcase; cbn); eexists; (split; [reflexivity |]);
    qprop; qinv; repeat split; intros; lra.
Qed.

(* ------------------------------------------------------------------ *)
(** ** What one [update] leaves in the planner *)

Section Update.

Context {E : Externals}.
Variable params_at_import : Params.t.
Variable LOG_MPC : bool.

Ltac update_inv H :=
  unfold update in H;
  let sec := fresh "sec" in
  let ul := fresh "ul" in
  let lm := fresh "lm" in
  let Hp := fresh "Hpoll" in
  destruct (poll_params _ _) as [[sec ul] lm] eqn:Hp;
  inv_bind H;
  match goal with
  | x : (Path * list PyFloat * list PyFloat * Path)%type |- _ =>
      let path := fresh "path" in
      let t := fresh "t" in
      let yaw := fresh "yaw" in
      let stds := fresh "stds" in
      destruct x as [[[path t] yaw] stds]
  end;
  inv_bind H; inv_bind H; inv_bind H; inv_bind H;
  injection H as H; subst.

(** The lane-change attributes are those computed by [lane_change_logic],
    and the desire is looked up in the table. *)
Lemma update_lane_change self sm CP params now self' :
  update params_at_import self sm CP params now = Some self' ->
  exists lc,
    lane_change_logic params_at_import self sm CP
      (CarState.vEgo (SubMaster.carState sm))
      (ControlsState.active (SubMaster.controlsState sm))
      (read_output_scale self sm CP)
      (parse_model (LP self) (SubMaster.modelV2 sm) sm
         (CarState.vEgo (SubMaster.carState sm))) = Some lc /\
    lane_change_state self' = lc_state lc /\
    lane_change_direction self' = lc_direction lc /\
    lane_change_ll_prob self' = lc_ll_prob lc /\
    lane_change_wait_timer self' = lc_wait_timer lc /\
    lane_change_timer self' = lc_timer lc /\
    lane_change_auto_delay self' = lane_change_auto_delay self /\
    prev_one_blinker self' =
      xorb (CarState.leftBlinker (SubMaster.carState sm))
           (CarState.rightBlinker (SubMaster.carState sm)) /\
    desire self' = DESIRES (lane_change_direction self') (lane_change_state self').
Proof.
  intro H. update_inv H. eexists. split; [first [eassumption | reflexivity] |].
  cbn. repeat split; reflexivity.
Qed.

(** The arbiter attributes are those computed by [arbiter] on the polled
    parameters and on the lane-change state of this step. *)
Lemma update_arbiter self sm CP params now self' :
  update params_at_import self sm CP params now = Some self' ->
  exists lp path stds t rate_cost arb,
    arbiter self sm (CarState.vEgo (SubMaster.carState sm))
      (use_lanelines self') (laneless_mode self') (lane_change_state self')
      lp path stds t rate_cost = Some arb /\
    path_xyz self' = path /\
    (second self', use_lanelines self', laneless_mode self')
      = poll_params self params /\
    laneless_mode_status self' = arb_status arb /\
    laneless_mode_status_buffer self' = arb_buffer arb /\
    laneless_mode_at_stopping self' = arb_at_stopping arb /\
    laneless_mode_at_stopping_timer self' = tick_down (arb_timer arb) /\
    In (arb_weights arb) (libmpc self').
Proof.
  intro H. update_inv H. do 6 eexists. split; [first [eassumption | reflexivity] |].
  cbn. repeat split; try reflexivity; auto.
  destruct (mpc_nans _); rewrite !in_app_iff; cbn; tauto.
Qed.

(** The curvatures are those computed by [curvature_step] from the previous
    safe curvature and the solution of this step. *)
Lemma update_curvature self sm CP params now self' :
  update params_at_import self sm CP params now = Some self' ->
  exists t cv,
    curvature_step (safe_desired_curvature self) CP
      (CarState.vEgo (SubMaster.carState sm)) t (mpc_solution self') = Some cv /\
    desired_curvature self' = cv_desired_curvature cv /\
    desired_curvature_rate self' = cv_desired_curvature_rate cv /\
    safe_desired_curvature self' = cv_safe_desired_curvature cv /\
    safe_desired_curvature_rate self' = cv_safe_desired_curvature_rate cv.
Proof.
  intro H. update_inv H. do 2 eexists. split; [first [eassumption | reflexivity] |].
  cbn. repeat split; reflexivity.
Qed.

(** The check of the solution: the counter, the calls to the solver and the
    seed state. *)
Lemma update_check self sm CP params now self' :
  update params_at_import self sm CP params now = Some self' ->
  solution_invalid_cnt self'
    = next_invalid_cnt (solution_invalid_cnt self) (mpc_solution self') /\
  (mpc_nans (mpc_solution self') = true ->
     (exists calls, libmpc self' = calls ++ [mpc_init]) /\
     cur_state self'
       = zero_state (ControlsState.curvature (SubMaster.controlsState sm))) /\
  (mpc_nans (mpc_solution self') = false ->
     exists calls seed v r ys hs,
       libmpc self' = calls ++ [mpc_run seed v r ys hs]).
Proof.
  intro H. update_inv H. cbn. split; [reflexivity |].
  split; intro Hn; rewrite Hn.
  - split; [eexists; reflexivity | reflexivity].
  - match goal with
    | K : mpc_step _ _ _ _ _ _ _ = Some _ |- _ =>
        unfold mpc_step in K; repeat inv_bind K; injection K as K; subst
    end.
    cbn. do 6 eexists. reflexivity.
Qed.

(** [publish] changes the standstill time and nothing else. *)
Lemma publish_planner self sm self' plan live :
  publish LOG_MPC self sm = Some (self', plan, live) ->
  exists e secs,
    self' = with_standstill_elapsed_time self e /\
    plan = plan_message self' sm secs.
Proof.
  unfold publish. intro H. inv_bind H. injection H as H1 H2 H3. subst.
  do 2 eexists. split; reflexivity.
Qed.

End Update.

(* ------------------------------------------------------------------ *)
(** ** Invariants of the planner loop *)

Section Invariants.

Context {E : Externals}.
Variable params_at_import : Params.t.
Variable LOG_MPC : bool.

(** A clamp between two numbers is a number between them, whatever is
    clamped. *)
Lemma clip_between (x : PyFloat) (l h : Q) :
  l <= h -> exists c, clip x (Fin l) (Fin h) = Fin c /\ l <= c <= h.
Proof.
  intro Hlh. destruct x as [|x]; unfold_float.
  - qcase; eexists; (split; [reflexivity |]); qprop; lra.
  - destruct (Qlt_bool x h) eqn:C1.
    + destruct (Qlt_bool l x) eqn:C2; eexists; (split; [reflexivity |]);
        qprop; lra.
    + destruct (Qlt_bool l h) eqn:C2; eexists; (split; [reflexivity |]);
        qprop; lra.
Qed.

Lemma lane_change_logic_inv self sm CP v_ego active out lp lc :
  planner_inv self ->
  lane_change_logic params_at_import self sm CP v_ego active out lp = Some lc ->
  in_unit (lc_ll_prob lc) /\
  (lc_state lc = LaneChangeState.preLaneChange ->
   (lc_ll_prob lc =? Fin 1)%F = true) /\
  (lc_state lc = LaneChangeState.laneChangeFinishing ->
   exists (k : Z) (q : Q),
     lc_ll_prob lc = Fin q /\ (0 <= k <= 19)%Z /\
     0.05 * inject_Z k <= q < 0.05 * inject_Z k + 0.01) /\
  (lc_state lc = LaneChangeState.off \/
   lc_state lc = LaneChangeState.preLaneChange -> lc_timer lc = Fin 0).
Proof.
  intros [Hll Hpre Hfin Htim _ _] H.
  unfold lane_change_logic in H. inv_bind H. injection H as H. subst lc. cbn.
  assert (Htimer : forall s t,
    (s = LaneChangeState.off \/ s = LaneChangeState.preLaneChange ->
     match s with
     | LaneChangeState.off | LaneChangeState.preLaneChange => Fin 0
     | _ => (t + DT_MDL)%F
     end = Fin 0)).
  { intros s t [-> | ->]; reflexivity. }
  destruct x.
  - (* forced off *)
    cbn. repeat split; auto; try discriminate.
  - unfold lane_change_transitions.
    destruct (lane_change_state self) eqn:Hs.
    + (* off *)
      match goal with |- context [if ?c then _ else _] => destruct c end; cbn.
      * repeat split; auto; try discriminate.
        exists 1. split; [reflexivity | lra].
      * repeat split; auto; try discriminate.
    + (* preLaneChange *)
      cbn [lc_state lc_ll_prob lc_timer].
      specialize (Hpre eq_refl).
      repeat split; auto.
      intro K. exfalso.
      repeat match type of K with
             | (if ?c then _ else _) = _ => destruct c
             end; discriminate.
    + (* laneChangeStarting *)
      cbn [lc_state lc_ll_prob lc_timer].
      destruct (fade_rate_range v_ego) as (r & -> & Hr).
      destruct Hll as (q & -> & Hq).
      assert (Hmax : exists q', py_max (Fin q - Fin r * DT_MDL)%F (Fin 0) = Fin q' /\
                                0 <= q' <= 1 /\
                                ((Fin q' <? Fin 0.01)%F = true -> q' < 0.01)).
      { unfold_float. qcase; eexists; (split; [reflexivity |]); qprop;
          (split; [lra | intro; qprop; lra]). }
      destruct Hmax as (q' & -> & Hq' & Hlt).
      split; [exists q'; auto |]. split; [| split].
      * intro K.
        repeat match type of K with
               | (if ?c then _ else _) = _ => destruct c
               end; discriminate.
      * intro K. exists 0%Z, q'. split; [reflexivity |]. split; [lia |].
        destruct ((Fin q' <? Fin 0.01)%F) eqn:C;
          [| rewrite andb_false_r in K; discriminate].
        specialize (Hlt eq_refl). change (inject_Z 0) with 0. lra.
      * intros [K | K];
        repeat match type of K with
               | (if ?c then _ else _) = _ => destruct c
               end; discriminate.
    + (* laneChangeFinishing *)
      cbn [lc_state lc_ll_prob lc_timer].
      destruct (Hfin eq_refl) as (k & q & Hq & Hk & Hkq).
      destruct Hll as (q0 & Hq0 & Hq01). rewrite Hq in Hq0.
      injection Hq0 as <-. rewrite Hq. clear Hpre Hfin.
      unfold_float.
      destruct (Qlt_bool 1 (q + 0.05)) eqn:C1.
      * (* clamped at 1 *)
        assert (C2 : Qlt_bool 0.99 1 = true) by reflexivity.
        rewrite C2. rewrite andb_true_r.
        split; [exists 1; split; [reflexivity | lra] |].
        split; [intros _; reflexivity |].
        split; [intro K; destruct (xorb _ _); discriminate |].
        intros _. destruct (xorb _ _); reflexivity.
      * destruct (Qlt_bool 0.99 (q + 0.05)) eqn:C2.
        -- (* above 0.99 but not above 1: only at exactly 1 *)
           qprop.
           assert (Hk19 : (k = 19)%Z).
           { destruct (Z_lt_le_dec k 19) as [L | L]; [| lia].
             exfalso. assert (L' : (k <= 18)%Z) by lia.
             rewrite Zle_Qle in L'. change (inject_Z 18) with 18 in L'. lra. }
           subst k. change (inject_Z 19) with 19 in Hkq.
           rewrite andb_true_r.
           split; [exists (q + 0.05); split; [reflexivity | lra] |].
           split; [intros _; apply Qeq_bool_iff; lra |].
           split; [intro K; destruct (xorb _ _); discriminate |].
           intros _. destruct (xorb _ _); reflexivity.
        -- rewrite andb_false_r. qprop.
           split; [exists (q + 0.05); split; [reflexivity | lra] |].
           split; [discriminate |].
           split; [| intros [K | K]; discriminate].
           intros _.
           assert (Hk18 : (k <= 18)%Z).
           { destruct (Z_lt_le_dec k 19) as [L | L]; [lia |].
             exfalso. rewrite Zle_Qle in L.
             change (inject_Z 19) with 19 in L. lra. }
           exists (k + 1)%Z, (q + 0.05). split; [reflexivity |].
           split; [lia |]. rewrite inject_Z_plus.
           change (inject_Z 1) with 1. lra.
Qed.

(** The rate limits of lines 372-378: the safe rate is within the limit of
    this speed, and the safe curvature within the limit over one frame of the
    previous safe curvature. *)
Lemma curvature_step_bounds safe_prev CP v_ego t sol cv :
  isnan safe_prev = false ->
  curvature_step safe_prev CP v_ego t sol = Some cv ->
  isnan (cv_safe_desired_curvature cv) = false /\
  (fabs (cv_safe_desired_curvature_rate cv) <=? max_curvature_rate v_ego)%F = true /\
  (fabs (cv_safe_desired_curvature cv - safe_prev)
     <=? max_curvature_rate v_ego / DT_MDL)%F = true.
Proof.
  intros Hprev H. unfold curvature_step in H. repeat inv_bind H.
  injection H as H. subst cv.
  cbn [cv_safe_desired_curvature cv_safe_desired_curvature_rate].
  destruct (max_curvature_rate_range v_ego) as (m & -> & Hm).
  destruct safe_prev as [|p]; [discriminate |].
  destruct (clip_between x0 (- m) m) as (c1 & Hc1 & Hb1); [lra |].
  cbn [fneg]. rewrite Hc1.
  match goal with
  | |- context [clip ?d (_ - _)%F _] => generalize d; intro d'
  end.
  destruct (clip_between d' (p - m / 0.05) (p + m / 0.05))
    as (c2 & Hc2 & Hb2); [qinv; lra |].
  unfold DT_MDL. cbn [fsub fadd fdiv lift2]. rewrite Hc2.
  unfold fabs, fle, fsub, cmp2, lift2, isnan.
  repeat split; apply Qle_bool_iff; apply Qabs_Qle_condition;
    revert Hb2; qinv; intros; lra.
Qed.

(** A fresh planner satisfies the invariant. *)
Lemma inv_init CP ul wc params : planner_inv (init CP ul wc params).
Proof.
  constructor; cbn;
    first [ reflexivity | discriminate | lia
          | exists 1; split; [reflexivity | lra]
          | intros [K | K]; reflexivity ].
Qed.

(** [update] keeps the invariant. *)
Lemma inv_update self sm CP params now self' :
  planner_inv self ->
  update params_at_import self sm CP params now = Some self' ->
  planner_inv self'.
Proof.
  intros Hinv H.
  destruct (update_lane_change _ _ _ _ _ _ _ H)
    as (lc & Hlc & E1 & _ & E2 & _ & E3 & _).
  destruct (lane_change_logic_inv _ _ _ _ _ _ _ _ Hinv Hlc) as (I1 & I2 & I3 & I4).
  destruct (update_curvature _ _ _ _ _ _ _ H) as (t & cv & Hcv & _ & _ & E4 & _).
  destruct (curvature_step_bounds _ _ _ _ _ _ (inv_safe_curvature _ Hinv) Hcv)
    as (J1 & _).
  destruct (update_check _ _ _ _ _ _ _ H) as (E5 & _).
  constructor; rewrite ?E1, ?E2, ?E3, ?E4, ?E5; auto.
  unfold next_invalid_cnt. pose proof (inv_invalid_cnt _ Hinv).
  destruct (solution_invalid _); lia.
Qed.

(** [publish] keeps the invariant. *)
Lemma inv_publish self sm self' plan live :
  planner_inv self ->
  publish LOG_MPC self sm = Some (self', plan, live) ->
  planner_inv self'.
Proof.
  intros [I1 I2 I3 I4 I5 I6] H.
  destruct (publish_planner _ _ _ _ _ _ H) as (e & secs & -> & _).
  constructor; cbn; auto.
Qed.

(** Every planner the loop can reach satisfies the invariant. *)
Lemma reachable_inv self :
  reachable params_at_import LOG_MPC self -> planner_inv self.
Proof.
  induction 1.
  - apply inv_init.
  - eapply inv_update; eassumption.
  - eapply inv_publish; eassumption.
Qed.

End Invariants.

(* ------------------------------------------------------------------ *)
(** ** The desire and the solution check *)

Section Outputs.

Context {E : Externals}.
Variable params_at_import : Params.t.
Variable LOG_MPC : bool.

Lemma mpc_nans_iff sol :
  mpc_nans sol = true <-> Exists (fun c => c = NaN) (MpcLog.curvature sol).
Proof.
  unfold mpc_nans. rewrite existsb_exists, Exists_exists.
  split; intros (c & Hin & Hc); exists c; split; auto.
  - destruct c; [reflexivity | discriminate].
  - subst c. reflexivity.
Qed.

Lemma solution_invalid_iff sol : solution_invalid sol = true <-> infeasible sol.
Proof.
  unfold solution_invalid, infeasible.
  rewrite orb_true_iff, mpc_nans_iff. tauto.
Qed.

(** C9.  After every [update] the desire is the entry of the spec's table
    for the state and direction of the planner, and so is the desire of the
    message [publish] sends next; the table gives none whenever the state is
    off or preLaneChange or the direction is none, and laneChangeLeft (resp.
    laneChangeRight) exactly when the direction is left (resp. right) and the
    state is laneChangeStarting or laneChangeFinishing. *)
Theorem desire_is_table_lookup self sm CP params now self' :
  update params_at_import self sm CP params now = Some self' ->
  desire self' = desire_table (lane_change_state self') (lane_change_direction self') /\
  (forall sm2 self2 plan live,
     publish LOG_MPC self' sm2 = Some (self2, plan, live) ->
     LateralPlan.desire plan
       = desire_table (LateralPlan.laneChangeState plan)
                      (LateralPlan.laneChangeDirection plan)) /\
  (forall s d, DESIRES d s = desire_table s d) /\
  (forall s d,
     s = LaneChangeState.off \/ s = LaneChangeState.preLaneChange \/
     d = LaneChangeDirection.none -> desire_table s d = Desire.none) /\
  (forall s d,
     desire_table s d = Desire.laneChangeLeft <->
     d = LaneChangeDirection.left /\
     (s = LaneChangeState.laneChangeStarting \/
      s = LaneChangeState.laneChangeFinishing)) /\
  (forall s d,
     desire_table s d = Desire.laneChangeRight <->
     d = LaneChangeDirection.right /\
     (s = LaneChangeState.laneChangeStarting \/
      s = LaneChangeState.laneChangeFinishing)).
Proof.
  intro H.
  assert (T : forall s d, DESIRES d s = desire_table s d).
  { intros [] []; reflexivity. }
  destruct (update_lane_change _ _ _ _ _ _ _ H) as (lc & _ & _ & _ & _ & _ & _ & _ & _ & Hd).
  rewrite T in Hd.
  split; [exact Hd |]. split; [| split; [exact T | split; [| split]]].
  - intros sm2 self2 plan live Hp.
    destruct (publish_planner _ _ _ _ _ _ Hp) as (e & secs & -> & ->).
    exact Hd.
  - intros [] [] [K | [K | K]]; try discriminate; reflexivity.
  - intros [] []; cbn;
      (split;
       [ intro K; try discriminate; auto
       | intros [K1 [K2 | K2]]; try discriminate; reflexivity ]).
  - intros [] []; cbn;
      (split;
       [ intro K; try discriminate; auto
       | intros [K1 [K2 | K2]]; try discriminate; reflexivity ]).
Qed.

Lemma step_inv self f self' plan :
  step params_at_import LOG_MPC self f = Some (self', plan) ->
  exists self1 live,
    update params_at_import self (f_sm f) (f_CP f) (f_params f) (f_now f)
      = Some self1 /\
    publish LOG_MPC self1 (f_sm f) = Some (self', plan, live).
Proof.
  unfold step. intro H. inv_bind H. inv_bind H.
  destruct x0 as [[self2 plan2] live]. injection H as -> ->.
  exists x, live. split; [reflexivity | assumption].
Qed.

Lemma step_reachable self f self' plan :
  reachable params_at_import LOG_MPC self ->
  step params_at_import LOG_MPC self f = Some (self', plan) ->
  reachable params_at_import LOG_MPC self'.
Proof.
  intros Hr H. destruct (step_inv _ _ _ _ H) as (s1 & live & Hu & Hp).
  eapply reach_publish; [| exact Hp]. eapply reach_update; eassumption.
Qed.

(** The counter after a frame, and the flag of the message sent. *)
Lemma step_counter self f self' plan :
  step params_at_import LOG_MPC self f = Some (self', plan) ->
  solution_invalid_cnt self'
    = next_invalid_cnt (solution_invalid_cnt self) (mpc_solution self') /\
  LateralPlan.mpcSolutionValid plan = (solution_invalid_cnt self' <? 3)%Z.
Proof.
  intro H. destruct (step_inv _ _ _ _ H) as (s1 & live & Hu & Hp).
  destruct (update_check _ _ _ _ _ _ _ Hu) as (Hc & _).
  destruct (publish_planner _ _ _ _ _ _ Hp) as (e & secs & -> & ->).
  cbn. split; [exact Hc | reflexivity].
Qed.

(** C7.  In every [update], [solution_invalid_cnt] is incremented exactly
    when a curvature entry of the solution is NaN or its cost exceeds 20000,
    and reset to 0 otherwise; the published [mpcSolutionValid] is
    [solution_invalid_cnt < 3]; on a NaN the solver is initialised again and
    the seed state is zero with the measured curvature.  Three consecutive
    infeasible frames publish false, and one feasible frame publishes
    true. *)
Theorem solution_validity self :
  reachable params_at_import LOG_MPC self ->
  (forall sm CP params now self',
     update params_at_import self sm CP params now = Some self' ->
     (infeasible (mpc_solution self') ->
      solution_invalid_cnt self' = (solution_invalid_cnt self + 1)%Z) /\
     (~ infeasible (mpc_solution self') -> solution_invalid_cnt self' = 0%Z) /\
     (forall sm2 self2 plan live,
        publish LOG_MPC self' sm2 = Some (self2, plan, live) ->
        LateralPlan.mpcSolutionValid plan = (solution_invalid_cnt self' <? 3)%Z) /\
     (Exists (fun c => c = NaN) (MpcLog.curvature (mpc_solution self')) ->
      (exists calls, libmpc self' = calls ++ [mpc_init]) /\
      cur_state self'
        = zero_state (ControlsState.curvature (SubMaster.controlsState sm)))) /\
  (forall f1 f2 f3 s1 s2 s3 p1 p2 p3,
     step params_at_import LOG_MPC self f1 = Some (s1, p1) ->
     step params_at_import LOG_MPC s1 f2 = Some (s2, p2) ->
     step params_at_import LOG_MPC s2 f3 = Some (s3, p3) ->
     infeasible (mpc_solution s1) ->
     infeasible (mpc_solution s2) ->
     infeasible (mpc_solution s3) ->
     LateralPlan.mpcSolutionValid p3 = false) /\
  (forall f s p,
     step params_at_import LOG_MPC self f = Some (s, p) ->
     ~ infeasible (mpc_solution s) ->
     LateralPlan.mpcSolutionValid p = true).
Proof.
  intro Hr. pose proof (inv_invalid_cnt _ (reachable_inv _ _ _ Hr)) as Hcnt.
  split; [| split].
  - intros sm CP params now self' H.
    destruct (update_check _ _ _ _ _ _ _ H) as (Hc & Hnan & _).
    unfold next_invalid_cnt in Hc.
    split; [| split; [| split]].
    + intro Hi. apply solution_invalid_iff in Hi. rewrite Hi in Hc. exact Hc.
    + intro Hi. destruct (solution_invalid _) eqn:K; [| exact Hc].
      apply solution_invalid_iff in K. contradiction.
    + intros sm2 self2 plan live Hp.
      destruct (publish_planner _ _ _ _ _ _ Hp) as (e & secs & -> & ->).
      reflexivity.
    + intro Hn. apply Hnan. apply mpc_nans_iff. exact Hn.
  - intros f1 f2 f3 s1 s2 s3 p1 p2 p3 H1 H2 H3 I1 I2 I3.
    apply solution_invalid_iff in I1, I2, I3.
    destruct (step_counter _ _ _ _ H1) as (C1 & _).
    destruct (step_counter _ _ _ _ H2) as (C2 & _).
    destruct (step_counter _ _ _ _ H3) as (C3 & V3).
    unfold next_invalid_cnt in *. rewrite I1 in C1. rewrite I2 in C2.
    rewrite I3 in C3. rewrite V3. apply Z.ltb_ge. lia.
  - intros f s p H Hi.
    destruct (step_counter _ _ _ _ H) as (C & V).
    unfold next_invalid_cnt in C.
    destruct (solution_invalid _) eqn:K.
    + apply solution_invalid_iff in K. contradiction.
    + rewrite V, C. reflexivity.
Qed.

End Outputs.

(* ------------------------------------------------------------------ *)
(** ** Rate limits *)

Section RateLimits.

Context {E : Externals}.
Variable params_at_import : Params.t.
Variable LOG_MPC : bool.

(** The two clamps of [curvature_step], as written in lines 373-378. *)
Lemma curvature_step_clamps safe_prev CP v_ego t sol cv :
  curvature_step safe_prev CP v_ego t sol = Some cv ->
  let rate := max_curvature_rate v_ego in
  cv_safe_desired_curvature_rate cv
    = clip (cv_desired_curvature_rate cv) (- rate)%F rate /\
  cv_safe_desired_curvature cv
    = clip (cv_desired_curvature cv) (safe_prev - rate / DT_MDL)%F
                                     (safe_prev + rate / DT_MDL)%F.
Proof.
  intros H rate. unfold curvature_step in H. repeat inv_bind H.
  injection H as H. subst cv. split; reflexivity.
Qed.

(** A distance of at most [c] from [b] puts [a] between [b - c] and
    [b + c]. *)
Lemma fabs_le_between (a b c : PyFloat) :
  (fabs (a - b) <=? c)%F = true ->
  (b - c <=? a)%F = true /\ (a <=? b + c)%F = true.
Proof.
  destruct a as [|a], b as [|b], c as [|c]; try discriminate.
  unfold fabs, fle, fsub, fadd, cmp2, lift2. intro H.
  apply Qle_bool_iff in H. apply Qabs_Qle_condition in H.
  split; apply Qle_bool_iff; lra.
Qed.

(** C6, as the code has it.  With the rate limit the linear interpolation
    of the ego speed over the speeds [0, 35] to the two rates of
    [MAX_CURVATURE_RATES], every [update] leaves a safe curvature rate
    within the limit, and a safe curvature that is the desired curvature
    clamped between the two bounds the code computes, the safe curvature
    held before the step minus and plus limit/DT_MDL: it lies between these
    two computed bounds.  (Each bound is one rounded subtraction or addition
    in the program, so the distance from the value held before is bounded by
    limit/DT_MDL only up to that rounding.) *)
Theorem curvature_rate_limits self sm CP params now self' :
  reachable params_at_import LOG_MPC self ->
  update params_at_import self sm CP params now = Some self' ->
  let v_ego := CarState.vEgo (SubMaster.carState sm) in
  let rate := max_curvature_rate v_ego in
  let lower := (safe_desired_curvature self - rate / DT_MDL)%F in
  let upper := (safe_desired_curvature self + rate / DT_MDL)%F in
  rate = interp v_ego [Fin 0; Fin 35]
           [Fin 0.03762194918267951; Fin 0.003441203371932992] /\
  safe_desired_curvature_rate self'
    = clip (desired_curvature_rate self') (- rate)%F rate /\
  (fabs (safe_desired_curvature_rate self') <=? rate)%F = true /\
  safe_desired_curvature self' = clip (desired_curvature self') lower upper /\
  (lower <=? safe_desired_curvature self')%F = true /\
  (safe_desired_curvature self' <=? upper)%F = true.
Proof.
  intros Hr H v_ego rate lower upper.
  destruct (update_curvature _ _ _ _ _ _ _ H)
    as (t & cv & Hcv & D1 & D2 & E1 & E2).
  pose proof (inv_safe_curvature _ (reachable_inv _ _ _ Hr)) as Hs.
  destruct (curvature_step_bounds _ _ _ _ _ _ Hs Hcv) as (_ & B1 & B2).
  destruct (curvature_step_clamps _ _ _ _ _ _ Hcv) as (C1 & C2).
  destruct (fabs_le_between _ _ _ B2) as (L & U).
  rewrite E1, E2, D1, D2.
  split; [reflexivity |]. split; [exact C1 |]. split; [exact B1 |].
  split; [exact C2 |]. split; assumption.
Qed.

End RateLimits.

(* ------------------------------------------------------------------ *)
(** ** The lane-change state machine *)

Section LaneChanges.

Context {E : Externals}.
Variable params_at_import : Params.t.
Variable LOG_MPC : bool.

(** Without the forced reset, [lane_change_logic] is the transition of the
    current state followed by the timer. *)
Lemma lane_change_logic_transitions self sm CP v_ego active out lp lc :
  lane_change_abort self active out CP = Some false ->
  lane_change_logic params_at_import self sm CP v_ego active out lp = Some lc ->
  let tr := lane_change_transitions params_at_import self
              (SubMaster.carState sm) v_ego lp in
  lc_state lc = lc_state tr /\
  lc_direction lc = lc_direction tr /\
  lc_ll_prob lc = lc_ll_prob tr /\
  lc_wait_timer lc = lc_wait_timer tr /\
  lc_timer lc =
    match lc_state tr with
    | LaneChangeState.off | LaneChangeState.preLaneChange => Fin 0
    | _ => (lane_change_timer self + DT_MDL)%F
    end.
Proof.
  intros Ha H tr. unfold lane_change_logic in H. rewrite Ha in H.
  cbn [bind] in H. injection H as H. subst lc. cbn.
  repeat split.
  unfold tr, lane_change_transitions.
  destruct (lane_change_state self);
    repeat match goal with
           | |- context [if ?c then _ else _] => destruct c
           end; reflexivity.
Qed.

(** In [off] and [preLaneChange] a reachable planner that is active is not
    reset, provided [CP.steerMaxV] has a first element. *)
Lemma no_abort_timer_zero self active out CP m rest :
  lane_change_timer self = Fin 0 ->
  active = true ->
  CarParams.steerMaxV CP = m :: rest ->
  lane_change_abort self active out CP = Some false.
Proof.
  intros Ht -> Hm. unfold lane_change_abort. rewrite Ht, Hm. cbn.
  rewrite andb_false_r. reflexivity.
Qed.

(** An [update] that returns had a first element in [CP.steerMaxV], or was
    not active, or ran over time. *)
Lemma lane_change_abort_some self sm CP v_ego active out lp lc :
  lane_change_logic params_at_import self sm CP v_ego active out lp = Some lc ->
  exists b, lane_change_abort self active out CP = Some b.
Proof.
  unfold lane_change_logic. intro H. inv_bind H. eauto.
Qed.

(** C5.  In every planner the loop can reach, [ll_prob] is a number between
    0 and 1: it starts at 1.0, is 1.0 whenever [preLaneChange] is entered, is
    faded down and clamped at 0 in [laneChangeStarting], and faded up and
    clamped at 1 in [laneChangeFinishing]. *)
Theorem ll_prob_in_unit_interval self :
  reachable params_at_import LOG_MPC self ->
  in_unit (lane_change_ll_prob self) /\
  (forall CP ul wc params,
     lane_change_ll_prob (init CP ul wc params) = Fin 1) /\
  (forall sm CP params now self',
     update params_at_import self sm CP params now = Some self' ->
     let v_ego := CarState.vEgo (SubMaster.carState sm) in
     let not_reset :=
       lane_change_abort self
         (ControlsState.active (SubMaster.controlsState sm))
         (read_output_scale self sm CP) CP = Some false in
     (lane_change_state self <> LaneChangeState.preLaneChange ->
      lane_change_state self' = LaneChangeState.preLaneChange ->
      (lane_change_ll_prob self' =? Fin 1)%F = true) /\
     (not_reset ->
      lane_change_state self = LaneChangeState.laneChangeStarting ->
      lane_change_ll_prob self'
        = py_max (lane_change_ll_prob self
                  - interp v_ego lane_change_adjust_vel lane_change_adjust
                    * DT_MDL)%F (Fin 0)) /\
     (not_reset ->
      lane_change_state self = LaneChangeState.laneChangeFinishing ->
      lane_change_ll_prob self'
        = py_min (lane_change_ll_prob self + DT_MDL)%F (Fin 1))).
Proof.
  intro Hr. split; [apply (inv_ll_prob _ (reachable_inv _ _ _ Hr)) |].
  split; [reflexivity |].
  intros sm CP params now self' H v_ego not_reset.
  assert (Hr' : reachable params_at_import LOG_MPC self')
    by (eapply reach_update; eassumption).
  split; [| split].
  - intros _ Hs. apply (inv_ll_prob_pre _ (reachable_inv _ _ _ Hr') Hs).
  - intros Ha Hs.
    destruct (update_lane_change _ _ _ _ _ _ _ H) as (lc & Hlc & _ & _ & -> & _).
    destruct (lane_change_logic_transitions _ _ _ _ _ _ _ _ Ha Hlc)
      as (_ & _ & -> & _).
    unfold lane_change_transitions. rewrite Hs. reflexivity.
  - intros Ha Hs.
    destruct (update_lane_change _ _ _ _ _ _ _ H) as (lc & Hlc & _ & _ & -> & _).
    destruct (lane_change_logic_transitions _ _ _ _ _ _ _ _ Ha Hlc)
      as (_ & _ & -> & _).
    unfold lane_change_transitions. rewrite Hs. reflexivity.
Qed.

Lemma abort_false_of_timer_zero self active out CP b :
  lane_change_timer self = Fin 0 ->
  active = true ->
  lane_change_abort self active out CP = Some b ->
  b = false.
Proof.
  intros Ht -> H. unfold lane_change_abort in H. rewrite Ht in H. cbn in H.
  inv_bind H. injection H as <-. apply andb_false_r.
Qed.

Lemma left_blinker_on_inv sm :
  left_blinker_on params_at_import sm = true ->
  ControlsState.active (SubMaster.controlsState sm) = true /\
  CarState.leftBlinker (SubMaster.carState sm) = true /\
  CarState.rightBlinker (SubMaster.carState sm) = false /\
  (CarState.vEgo (SubMaster.carState sm)
   <? LANE_CHANGE_SPEED_MIN params_at_import)%F = false.
Proof.
  unfold left_blinker_on. rewrite !andb_true_iff, !negb_true_iff. tauto.
Qed.

(** The lane-change attributes after an [update] from [off] or
    [preLaneChange] with the system engaged: those of the transition. *)
Lemma update_transitions_idle self sm CP params now self' :
  reachable params_at_import LOG_MPC self ->
  lane_change_state self = LaneChangeState.off \/
  lane_change_state self = LaneChangeState.preLaneChange ->
  ControlsState.active (SubMaster.controlsState sm) = true ->
  update params_at_import self sm CP params now = Some self' ->
  let tr := lane_change_transitions params_at_import self (SubMaster.carState sm)
              (CarState.vEgo (SubMaster.carState sm))
              (parse_model (LP self) (SubMaster.modelV2 sm) sm
                 (CarState.vEgo (SubMaster.carState sm))) in
  lane_change_state self' = lc_state tr /\
  lane_change_direction self' = lc_direction tr /\
  lane_change_ll_prob self' = lc_ll_prob tr /\
  lane_change_wait_timer self' = lc_wait_timer tr /\
  lane_change_timer self' =
    match lc_state tr with
    | LaneChangeState.off | LaneChangeState.preLaneChange => Fin 0
    | _ => (Fin 0 + DT_MDL)%F
    end.
Proof.
  intros Hr Hs Hact H tr.
  pose proof (inv_timer _ (reachable_inv _ _ _ Hr) Hs) as Ht.
  destruct (update_lane_change _ _ _ _ _ _ _ H)
    as (lc & Hlc & -> & -> & -> & -> & -> & _).
  destruct (lane_change_abort_some _ _ _ _ _ _ _ _ Hlc) as (b & Hb).
  pose proof (abort_false_of_timer_zero _ _ _ _ _ Ht Hact Hb). subst b.
  destruct (lane_change_logic_transitions _ _ _ _ _ _ _ _ Hb Hlc)
    as (E1 & E2 & E3 & E4 & E5).
  rewrite Ht in E5. repeat split; assumption.
Qed.

(** C3, as the code has it.  From [off], engaged, with the left blinker
    newly on and the speed not below the minimum, one [update] enters
    [preLaneChange] with [ll_prob = 1.0] and [wait_timer = 0] and leaves the
    direction as it was; the step after that, taken in [preLaneChange] with
    the same inputs, sets the direction to left and [wait_timer] to 0.05. *)
Theorem blinker_enters_pre self sm CP params now self' :
  reachable params_at_import LOG_MPC self ->
  lane_change_state self = LaneChangeState.off ->
  prev_one_blinker self = false ->
  left_blinker_on params_at_import sm = true ->
  update params_at_import self sm CP params now = Some self' ->
  lane_change_state self' = LaneChangeState.preLaneChange /\
  lane_change_direction self' = lane_change_direction self /\
  lane_change_ll_prob self' = Fin 1 /\
  lane_change_wait_timer self' = Fin 0 /\
  (forall sm2 CP2 params2 now2 self2,
     left_blinker_on params_at_import sm2 = true ->
     update params_at_import self' sm2 CP2 params2 now2 = Some self2 ->
     lane_change_direction self2 = LaneChangeDirection.left /\
     (lane_change_wait_timer self2 =? Fin 0.05)%F = true).
Proof.
  intros Hr Hs Hprev Hin H.
  destruct (left_blinker_on_inv _ Hin) as (Hact & Hl & Hrt & Hv).
  destruct (update_transitions_idle _ _ _ _ _ _ Hr (or_introl Hs) Hact H)
    as (E1 & E2 & E3 & E4 & _).
  unfold lane_change_transitions in E1, E2, E3, E4.
  rewrite Hs, Hprev, Hl, Hrt, Hv in E1, E2, E3, E4. cbn in E1, E2, E3, E4.
  split; [assumption |]. split; [assumption |]. split; [assumption |].
  split; [assumption |].
  intros sm2 CP2 params2 now2 self2 Hin2 H2.
  destruct (left_blinker_on_inv _ Hin2) as (Hact2 & Hl2 & Hrt2 & Hv2).
  assert (Hr' : reachable params_at_import LOG_MPC self')
    by (eapply reach_update; eassumption).
  destruct (update_transitions_idle _ _ _ _ _ _ Hr' (or_intror E1) Hact2 H2)
    as (_ & -> & _ & -> & _).
  unfold lane_change_transitions. rewrite E1, E4, Hl2. split; reflexivity.
Qed.

(** [publish] leaves the lane-change attributes of [update] in place. *)
Lemma step_lane_change self f self' plan :
  step params_at_import LOG_MPC self f = Some (self', plan) ->
  exists self1,
    update params_at_import self (f_sm f) (f_CP f) (f_params f) (f_now f)
      = Some self1 /\
    lane_change_state self' = lane_change_state self1 /\
    lane_change_direction self' = lane_change_direction self1 /\
    lane_change_ll_prob self' = lane_change_ll_prob self1 /\
    lane_change_wait_timer self' = lane_change_wait_timer self1 /\
    lane_change_timer self' = lane_change_timer self1 /\
    lane_change_auto_delay self' = lane_change_auto_delay self.
Proof.
  intro H. destruct (step_inv _ _ _ _ _ _ H) as (s1 & live & Hu & Hp).
  destruct (publish_planner _ _ _ _ _ _ Hp) as (e & secs & -> & _).
  destruct (update_lane_change _ _ _ _ _ _ _ Hu)
    as (_ & _ & _ & _ & _ & _ & _ & Ha & _).
  exists s1. cbn. repeat split; auto.
Qed.

Lemma run_cons self f fs s :
  run params_at_import LOG_MPC self (f :: fs) = Some s ->
  exists s1 plan,
    step params_at_import LOG_MPC self f = Some (s1, plan) /\
    run params_at_import LOG_MPC s1 fs = Some s.
Proof.
  cbn [run]. intro H. inv_bind H. destruct x as [s1 plan]. eauto.
Qed.

(** One frame of waiting in [preLaneChange], left blinker on, hands off the
    wheel: the wait timer advances by [DT_MDL], and the lane change starts
    once it exceeds a non-zero automatic delay. *)
Lemma pre_wait_step self f self' plan (w a : Q) :
  reachable params_at_import LOG_MPC self ->
  lane_change_state self = LaneChangeState.preLaneChange ->
  lane_change_wait_timer self = Fin w ->
  lane_change_auto_delay self = Fin a ->
  ~ a == 0 ->
  left_blinker_on params_at_import (f_sm f) = true ->
  hands_off (f_sm f) = true ->
  step params_at_import LOG_MPC self f = Some (self', plan) ->
  lane_change_wait_timer self' = Fin (w + 0.05) /\
  lane_change_auto_delay self' = Fin a /\
  lane_change_ll_prob self' = lane_change_ll_prob self /\
  (a < w + 0.05 ->
   lane_change_state self' = LaneChangeState.laneChangeStarting /\
   lane_change_timer self' = Fin (0 + 0.05)) /\
  (w + 0.05 <= a ->
   lane_change_state self' = LaneChangeState.preLaneChange).
Proof.
  intros Hr Hs Hw Ha Ha0 Hin Hoff H.
  destruct (left_blinker_on_inv _ Hin) as (Hact & Hl & Hrt & Hv).
  unfold hands_off in Hoff. rewrite andb_true_iff, !negb_true_iff in Hoff.
  destruct Hoff as (Hbs & Hsp).
  destruct (step_lane_change _ _ _ _ H)
    as (s1 & Hu & -> & _ & -> & -> & -> & ->).
  destruct (update_transitions_idle _ _ _ _ _ _ Hr (or_intror Hs) Hact Hu)
    as (E1 & _ & E3 & E4 & E5).
  unfold lane_change_transitions in E1, E3, E4, E5.
  rewrite Hs, Hw, Ha, Hl, Hrt, Hv, Hbs, Hsp in E1, E3, E4, E5.
  cbn in E1, E3, E4, E5.
  apply Qeq_bool_false in Ha0. rewrite Ha0 in E1, E5.
  rewrite andb_false_r in E1, E5. cbn in E1, E5.
  rewrite E3, E4.
  split; [reflexivity |]. split; [exact Ha |]. split; [reflexivity |].
  split.
  - intro K. rewrite <- Qlt_bool_true in K. rewrite K in E1, E5.
    split; assumption.
  - intro K. rewrite <- Qlt_bool_false in K. rewrite K in E1. exact E1.
Qed.

Lemma abort_false_of_small_timer self active out CP b (tm : Q) :
  lane_change_timer self = Fin tm ->
  tm <= 1 ->
  active = true ->
  lane_change_abort self active out CP = Some b ->
  b = false.
Proof.
  intros Ht Htm -> H. unfold lane_change_abort in H. rewrite Ht in H.
  cbn in H.
  assert (C1 : Qlt_bool 10 tm = false) by (qprop; lra).
  assert (C2 : Qlt_bool 1 tm = false) by (qprop; lra).
  rewrite C1 in H. inv_bind H. rewrite C2 in H.
  injection H as <-. apply andb_false_r.
Qed.

(** One frame of fading out at 16 m/s, early in the lane change and while
    [ll_prob] is well above zero: [ll_prob] loses 0.17 * 0.05. *)
Lemma fade_step self f self' plan (q tm : Q) :
  lane_change_state self = LaneChangeState.laneChangeStarting ->
  lane_change_ll_prob self = Fin q ->
  lane_change_timer self = Fin tm ->
  tm <= 1 ->
  0.01 <= q - 0.0085 ->
  cruising_16 (f_sm f) = true ->
  step params_at_import LOG_MPC self f = Some (self', plan) ->
  lane_change_state self' = LaneChangeState.laneChangeStarting /\
  exists q' tm',
    lane_change_ll_prob self' = Fin q' /\ q' == q - 0.0085 /\
    lane_change_timer self' = Fin tm' /\ tm' == tm + 0.05.
Proof.
  intros Hs Hq Ht Htm Hq1 Hc H.
  unfold cruising_16 in Hc. rewrite andb_true_iff in Hc.
  destruct Hc as (Hact & Hv).
  destruct (CarState.vEgo (SubMaster.carState (f_sm f))) as [|v] eqn:Ev;
    [discriminate |].
  cbn in Hv. apply Qeq_bool_iff in Hv.
  destruct (step_lane_change _ _ _ _ H)
    as (s1 & Hu & -> & _ & -> & _ & -> & _).
  destruct (update_lane_change _ _ _ _ _ _ _ Hu)
    as (lc & Hlc & -> & _ & -> & _ & -> & _).
  destruct (lane_change_abort_some _ _ _ _ _ _ _ _ Hlc) as (b & Hb).
  pose proof (abort_false_of_small_timer _ _ _ _ _ _ Ht Htm Hact Hb). subst b.
  destruct (lane_change_logic_transitions _ _ _ _ _ _ _ _ Hb Hlc)
    as (E1 & _ & E3 & _ & E5).
  unfold lane_change_transitions in E1, E3, E5.
  rewrite Hs, Hq, Ev in E1, E3, E5.
  destruct (fade_rate_16 v Hv) as (r & Hr & Hr17).
  cbn [lc_state lc_ll_prob] in E1, E3, E5. rewrite Hr in E1, E3, E5.
  assert (Hmax : py_max (Fin q - Fin r * DT_MDL)%F (Fin 0) = Fin (q - r * 0.05)).
  { unfold_float. assert (C : Qlt_bool (q - r * 0.05) 0 = false) by (qprop; lra).
    rewrite C. reflexivity. }
  rewrite Hmax in E1, E3, E5.
  assert (C : (Fin (q - r * 0.05) <? Fin 0.01)%F = false)
    by (unfold_float; qprop; lra).
  rewrite C, andb_false_r in E1, E5.
  split; [exact E1 |].
  exists (q - r * 0.05), (tm + 0.05). rewrite E3, E5, Ht.
  repeat split; try reflexivity. lra.
Qed.

(** Any number of such frames. *)
Lemma fade_run fs : forall self s (q tm : Q),
  lane_change_state self = LaneChangeState.laneChangeStarting ->
  lane_change_ll_prob self = Fin q ->
  lane_change_timer self = Fin tm ->
  tm + 0.05 * inject_Z (Z.of_nat (List.length fs)) <= 1.05 ->
  0.01 <= q - 0.0085 * inject_Z (Z.of_nat (List.length fs)) ->
  Forall (fun f => cruising_16 (f_sm f) = true) fs ->
  run params_at_import LOG_MPC self fs = Some s ->
  lane_change_state s = LaneChangeState.laneChangeStarting /\
  exists q' tm',
    lane_change_ll_prob s = Fin q' /\
    q' == q - 0.0085 * inject_Z (Z.of_nat (List.length fs)) /\
    lane_change_timer s = Fin tm' /\
    tm' == tm + 0.05 * inject_Z (Z.of_nat (List.length fs)).
Proof.
  induction fs as [| f fs IH]; intros self s q tm Hs Hq Ht Htm Hq1 Hall H.
  - cbn in H. injection H as <-. split; [exact Hs |].
    exists q, tm. cbn [List.length Z.of_nat].
    change (inject_Z 0) with 0. repeat split; auto; lra.
  - destruct (run_cons _ _ _ _ H) as (s1 & plan & Hstep & Hrun).
    inversion Hall as [| ? ? Hf Hall']. subst.
    cbn [List.length] in *. rewrite Nat2Z.inj_succ in *.
    unfold Z.succ in *. rewrite inject_Z_plus in *.
    change (inject_Z 1) with 1 in *.
    assert (Hn : 0 <= inject_Z (Z.of_nat (List.length fs))).
    { change 0 with (inject_Z 0). rewrite <- Zle_Qle. lia. }
    destruct (fade_step _ _ _ _ q tm Hs Hq Ht ltac:(lra) ltac:(lra) Hf Hstep)
      as (Hs1 & q1 & tm1 & Hq1' & Eq1 & Ht1 & Etm1).
    destruct (IH s1 s q1 tm1 Hs1 Hq1' Ht1 ltac:(lra) ltac:(lra) Hall' Hrun)
      as (Hs' & q' & tm' & Hq' & Eq' & Ht' & Etm').
    split; [exact Hs' |]. exists q', tm'. repeat split; auto; lra.
Qed.

(** C4, as the code has it.  From [preLaneChange] just entered, with an
    automatic delay of 0.2 s, the left blinker on, no blind spot and no
    driver torque, the state after five frames is [laneChangeStarting] with
    [ll_prob] still 1.0; ten further frames at 16 m/s fade [ll_prob] by
    0.17 * 0.05 each, to 1 - 0.17 * 10 * 0.05 = 0.915 up to the rounding of
    the ten subtractions: [ll_prob] is within 1e-9 of 0.915. *)
Theorem auto_delay_then_fade self fs5 fs10 s5 s15 :
  reachable params_at_import LOG_MPC self ->
  lane_change_state self = LaneChangeState.preLaneChange ->
  (lane_change_wait_timer self =? Fin 0)%F = true ->
  (lane_change_auto_delay self =? Fin 0.2)%F = true ->
  List.length fs5 = 5%nat ->
  Forall (fun f => left_blinker_on params_at_import (f_sm f) = true /\
                   hands_off (f_sm f) = true) fs5 ->
  run params_at_import LOG_MPC self fs5 = Some s5 ->
  List.length fs10 = 10%nat ->
  Forall (fun f => cruising_16 (f_sm f) = true) fs10 ->
  run params_at_import LOG_MPC s5 fs10 = Some s15 ->
  lane_change_state s5 = LaneChangeState.laneChangeStarting /\
  (lane_change_ll_prob s5 =? Fin 1)%F = true /\
  lane_change_state s15 = LaneChangeState.laneChangeStarting /\
  (fabs (lane_change_ll_prob s15 - Fin 0.915) <=? Fin 0.000000001)%F = true.
Proof.
  intros Hr Hs Hw Ha L5 F5 R5 L10 F10 R10.
  pose proof (inv_ll_prob_pre _ (reachable_inv _ _ _ Hr) Hs) as Hll.
  destruct (lane_change_wait_timer self) as [|w] eqn:Ew; [discriminate |].
  destruct (lane_change_auto_delay self) as [|a] eqn:Ea; [discriminate |].
  destruct (lane_change_ll_prob self) as [|q] eqn:Eq; [discriminate |].
  cbn in Hw, Ha, Hll. qprop.
  destruct fs5 as [| f1 [| f2 [| f3 [| f4 [| f5 [| ? ?]]]]]]; try discriminate.
  clear L5.
  inversion F5 as [| ? ? [B1 O1] F5a]; subst.
  inversion F5a as [| ? ? [B2 O2] F5b]; subst.
  inversion F5b as [| ? ? [B3 O3] F5c]; subst.
  inversion F5c as [| ? ? [B4 O4] F5d]; subst.
  inversion F5d as [| ? ? [B5 O5] _]; subst.
  clear F5 F5a F5b F5c F5d.
  assert (Ha0 : ~ a == 0) by lra.
  destruct (run_cons _ _ _ _ R5) as (s1 & p1 & T1 & R5a).
  destruct (run_cons _ _ _ _ R5a) as (s2 & p2 & T2 & R5b).
  destruct (run_cons _ _ _ _ R5b) as (s3 & p3 & T3 & R5c).
  destruct (run_cons _ _ _ _ R5c) as (s4 & p4 & T4 & R5d).
  destruct (run_cons _ _ _ _ R5d) as (s5' & p5 & T5 & R5e).
  cbn in R5e. injection R5e as ->.
  pose proof (step_reachable _ _ _ _ _ _ Hr T1) as Hr1.
  pose proof (step_reachable _ _ _ _ _ _ Hr1 T2) as Hr2.
  pose proof (step_reachable _ _ _ _ _ _ Hr2 T3) as Hr3.
  pose proof (step_reachable _ _ _ _ _ _ Hr3 T4) as Hr4.
  destruct (pre_wait_step _ _ _ _ _ _ Hr Hs Ew Ea Ha0 B1 O1 T1)
    as (W1 & A1 & Q1 & _ & S1). specialize (S1 ltac:(lra)).
  destruct (pre_wait_step _ _ _ _ _ _ Hr1 S1 W1 A1 Ha0 B2 O2 T2)
    as (W2 & A2 & Q2 & _ & S2). specialize (S2 ltac:(lra)).
  destruct (pre_wait_step _ _ _ _ _ _ Hr2 S2 W2 A2 Ha0 B3 O3 T3)
    as (W3 & A3 & Q3 & _ & S3). specialize (S3 ltac:(lra)).
  destruct (pre_wait_step _ _ _ _ _ _ Hr3 S3 W3 A3 Ha0 B4 O4 T4)
    as (W4 & A4 & Q4 & _ & S4). specialize (S4 ltac:(lra)).
  destruct (pre_wait_step _ _ _ _ _ _ Hr4 S4 W4 A4 Ha0 B5 O5 T5)
    as (W5 & A5 & Q5 & S5 & _). destruct (S5 ltac:(lra)) as (S5s & S5t).
  assert (Q : lane_change_ll_prob s5 = Fin q) by congruence.
  split; [exact S5s |]. split; [rewrite Q; cbn; qprop; lra |].
  destruct (fade_run fs10 s5 s15 q (0 + 0.05) S5s Q S5t) as (S15 & q' & tm' & Q' & Eq' & _);
    try assumption;
    try (rewrite L10; change (inject_Z (Z.of_nat 10)) with 10; lra).
  split; [exact S15 |]. rewrite Q'.
  rewrite L10 in Eq'. change (inject_Z (Z.of_nat 10)) with 10 in Eq'.
  unfold fabs, fle, fsub, cmp2, lift2.
  apply Qle_bool_iff. apply Qabs_Qle_condition. split; lra.
Qed.

End LaneChanges.

(* ------------------------------------------------------------------ *)
(** ** The mode arbiter *)

Section Arbiter.

Context {E : Externals}.
Variable params_at_import : Params.t.
Variable LOG_MPC : bool.

Lemma lane_path_fields lp v_ego t path rate_cost buffer at_stopping timer arb :
  lane_path lp v_ego t path rate_cost buffer at_stopping timer = Some arb ->
  arb_d_path_xyz arb = snd (get_d_path lp v_ego t path) /\
  arb_weights arb
    = mpc_set_weights MPC_COST_LAT_PATH MPC_COST_LAT_HEADING rate_cost /\
  arb_status arb = false /\
  arb_buffer arb = buffer /\
  arb_at_stopping arb = at_stopping /\
  arb_timer arb = timer.
Proof.
  unfold lane_path. destruct (get_d_path lp v_ego t path) as [lp' d].
  intro H. injection H as <-. cbn. repeat split.
Qed.

Lemma laneless_path_fields lp v_ego path stds rate_cost buffer at_stopping timer arb :
  laneless_path lp v_ego path stds rate_cost buffer at_stopping timer = Some arb ->
  arb_d_path_xyz arb = path /\
  arb_status arb = true /\
  arb_buffer arb = buffer /\
  arb_at_stopping arb = at_stopping /\
  arb_timer arb = timer.
Proof.
  unfold laneless_path. intro H. repeat inv_bind H.
  injection H as <-. cbn. repeat split.
Qed.

(** The test of [lead_stopping], conjunct by conjunct. *)
Lemma lead_stopping_iff sm v_ego state :
  lead_stopping sm v_ego state = true <->
  let lead := RadarState.leadOne (SubMaster.radarState sm) in
  (LeadData.dRel lead <? Fin 25)%F = true /\
  ((LeadData.vRel lead <? Fin 0)%F = true \/
   ((LeadData.vRel lead >=? Fin 0)%F = true /\ (v_ego <? Fin 5)%F = true)) /\
  (fabs (ControlsState.steeringAngleDesiredDeg (SubMaster.controlsState sm))
   - fabs (CarState.steeringAngleDeg (SubMaster.carState sm)) >? Fin 2)%F = true /\
  state = LaneChangeState.off.
Proof.
  unfold lead_stopping. cbn zeta.
  rewrite !andb_true_iff, orb_true_iff, andb_true_iff.
  assert (S : LaneChangeState.eqb state LaneChangeState.off = true <->
              state = LaneChangeState.off).
  { destruct state; cbn; split; intro K; try discriminate; reflexivity. }
  rewrite S. tauto.
Qed.

(** A difference of absolute values above 2 is a divergence above 2: the
    test of the code implies the test the spec words. *)
Lemma lead_stopping_implies_spec sm v_ego state :
  lead_stopping sm v_ego state = true -> lead_stopping_spec sm v_ego state = true.
Proof.
  unfold lead_stopping, lead_stopping_spec. cbn zeta.
  rewrite !andb_true_iff. intros (((H1 & H2) & H3) & H4).
  repeat split; auto.
  destruct (ControlsState.steeringAngleDesiredDeg _) as [|d]; [discriminate |].
  destruct (CarState.steeringAngleDeg _) as [|m]; [discriminate |].
  unfold_float. qprop.
  pose proof (Qabs_triangle_reverse d m). lra.
Qed.

(** The first two branches: lane lines in use, or [laneless_mode] 0. *)
Lemma arbiter_lane_lines self sm v_ego ul lm state lp path stds t rate_cost :
  ul = true \/ lm = 0%Z ->
  arbiter self sm v_ego ul lm state lp path stds t rate_cost
  = lane_path lp v_ego t path rate_cost (laneless_mode_status_buffer self)
      (laneless_mode_at_stopping self) (laneless_mode_at_stopping_timer self).
Proof.
  unfold arbiter. intros [-> | ->]; [reflexivity |].
  destruct ul; reflexivity.
Qed.

(** The third branch. *)
Lemma arbiter_lead self sm v_ego lm state lp path stds t rate_cost :
  lm <> 0%Z ->
  lead_stopping sm v_ego state = true ->
  arbiter self sm v_ego false lm state lp path stds t rate_cost
  = laneless_path lp v_ego path stds rate_cost
      (laneless_mode_status_buffer self) true 60%Z.
Proof.
  unfold arbiter. intros Hm ->. apply Z.eqb_neq in Hm. rewrite Hm. reflexivity.
Qed.

(** Past the third branch nothing arms the stopping mode, and the fourth
    branch leaves it for the lane path. *)
Lemma arbiter_not_lead self sm v_ego lm state lp path stds t rate_cost arb :
  lm <> 0%Z ->
  lead_stopping sm v_ego state = false ->
  arbiter self sm v_ego false lm state lp path stds t rate_cost = Some arb ->
  arb_timer arb = laneless_mode_at_stopping_timer self /\
  (arb_at_stopping arb = true -> laneless_mode_at_stopping self = true) /\
  (laneless_mode_at_stopping self = true ->
   (v_ego <? Fin 0.5)%F = true \/ (laneless_mode_at_stopping_timer self <= 0)%Z ->
   arb_d_path_xyz arb = snd (get_d_path lp v_ego t path) /\
   arb_status arb = false /\
   arb_at_stopping arb = false).
Proof.
  unfold arbiter. intros Hm -> H. apply Z.eqb_neq in Hm. rewrite Hm in H.
  destruct (laneless_mode_at_stopping self &&
            ((v_ego <? Fin 0.5)%F || (laneless_mode_at_stopping_timer self <=? 0)%Z))
    eqn:C4.
  - destruct (lane_path_fields _ _ _ _ _ _ _ _ _ H) as (D & _ & S & _ & A & T).
    split; [exact T |]. split; [rewrite A; discriminate |].
    intros _ _. auto.
  - assert (K : arb_timer arb = laneless_mode_at_stopping_timer self /\
                arb_at_stopping arb = laneless_mode_at_stopping self).
    { repeat match type of H with
             | (if ?c then _ else _) = _ => destruct c
             end;
        first [ destruct (lane_path_fields _ _ _ _ _ _ _ _ _ H)
                  as (_ & _ & _ & _ & A & T)
              | destruct (laneless_path_fields _ _ _ _ _ _ _ _ _ H)
                  as (_ & _ & _ & A & T) ];
        split; assumption. }
    destruct K as (T & A). split; [exact T |]. split; [rewrite A; auto |].
    intros Hs Hv. exfalso. rewrite Hs in C4. cbn in C4.
    apply orb_false_iff in C4. destruct C4 as (C4a & C4b).
    destruct Hv as [Hv | Hv]; [congruence |].
    apply Z.leb_gt in C4b. lia.
Qed.

(** C2, as the code has it.  In every [update] that reaches the lead-vehicle
    branch (lane lines not in use, [laneless_mode] not 0), the branch is
    taken exactly when the lead is closer than 25 m, is closing in or is
    stopped ahead of an ego slower than 5 m/s, the absolute desired steering
    angle exceeds the absolute measured one by more than 2 degrees, and the
    lane-change state is off.  That test is stronger than a divergence of
    the two angles by more than 2 degrees. *)
Theorem lead_branch_condition self sm CP params now self' :
  update params_at_import self sm CP params now = Some self' ->
  use_lanelines self' = false ->
  laneless_mode self' <> 0%Z ->
  let v_ego := CarState.vEgo (SubMaster.carState sm) in
  let lead := RadarState.leadOne (SubMaster.radarState sm) in
  let taken := lead_stopping sm v_ego (lane_change_state self') in
  (taken = true <->
   (LeadData.dRel lead <? Fin 25)%F = true /\
   ((LeadData.vRel lead <? Fin 0)%F = true \/
    ((LeadData.vRel lead >=? Fin 0)%F = true /\ (v_ego <? Fin 5)%F = true)) /\
   (fabs (ControlsState.steeringAngleDesiredDeg (SubMaster.controlsState sm))
    - fabs (CarState.steeringAngleDeg (SubMaster.carState sm)) >? Fin 2)%F = true /\
   lane_change_state self' = LaneChangeState.off) /\
  (taken = true ->
   laneless_mode_status self' = true /\
   laneless_mode_at_stopping self' = true /\
   laneless_mode_at_stopping_timer self' = 59%Z) /\
  (taken = false ->
   laneless_mode_at_stopping_timer self'
     = tick_down (laneless_mode_at_stopping_timer self) /\
   (laneless_mode_at_stopping self' = true ->
    laneless_mode_at_stopping self = true)) /\
  (taken = true ->
   lead_stopping_spec sm v_ego (lane_change_state self') = true).
Proof.
  intros H Hul Hm v_ego lead taken.
  destruct (update_arbiter _ _ _ _ _ _ _ H)
    as (lp & path & stds & t & rc & arb & Ha & _ & _ & S & _ & A & T & _).
  rewrite Hul in Ha.
  split; [apply lead_stopping_iff |]. split; [| split].
  - intro Ht. unfold taken in Ht. rewrite (arbiter_lead _ _ _ _ _ _ _ _ _ _ Hm Ht) in Ha.
    destruct (laneless_path_fields _ _ _ _ _ _ _ _ _ Ha) as (_ & S' & _ & A' & T').
    rewrite S, A, T, S', A', T'. repeat split.
  - intro Ht. unfold taken in Ht.
    destruct (arbiter_not_lead _ _ _ _ _ _ _ _ _ _ _ Hm Ht Ha) as (T' & A' & _).
    rewrite T, A, T'. split; [reflexivity | exact A'].
  - apply lead_stopping_implies_spec.
Qed.

(** C1, as the code has it.  With lane lines not in use: when
    [laneless_mode] is 0 the arbiter takes the lane path and arms nothing;
    when it is not 0 and the lead-vehicle test holds, the arbiter takes the
    raw model path, sets [at_stopping] and sets [stopping_ticks] to 60,
    which the decrement at the end of the step leaves at 59; and in a step
    where the test does not hold while [at_stopping] is set, with the ego
    slower than 0.5 m/s or the countdown at 0, the arbiter returns to the
    lane path and clears [at_stopping].  Without the test the countdown
    loses one tick per step. *)
Theorem stopping_laneless_kick_in self sm CP params now self' :
  update params_at_import self sm CP params now = Some self' ->
  use_lanelines self' = false ->
  let v_ego := CarState.vEgo (SubMaster.carState sm) in
  let taken := lead_stopping sm v_ego (lane_change_state self') in
  exists lp stds t rate_cost arb,
    arbiter self sm v_ego false (laneless_mode self') (lane_change_state self')
      lp (path_xyz self') stds t rate_cost = Some arb /\
    laneless_mode_status self' = arb_status arb /\
    laneless_mode_at_stopping self' = arb_at_stopping arb /\
    laneless_mode_at_stopping_timer self' = tick_down (arb_timer arb) /\
    (laneless_mode self' = 0%Z ->
     arb_d_path_xyz arb = snd (get_d_path lp v_ego t (path_xyz self')) /\
     arb_status arb = false /\
     arb_at_stopping arb = laneless_mode_at_stopping self /\
     arb_timer arb = laneless_mode_at_stopping_timer self) /\
    (laneless_mode self' <> 0%Z -> taken = true ->
     arb_d_path_xyz arb = path_xyz self' /\
     arb_status arb = true /\
     arb_at_stopping arb = true /\
     arb_timer arb = 60%Z /\
     laneless_mode_at_stopping_timer self' = 59%Z) /\
    (laneless_mode self' <> 0%Z -> taken = false ->
     arb_timer arb = laneless_mode_at_stopping_timer self /\
     (laneless_mode_at_stopping self = true ->
      (v_ego <? Fin 0.5)%F = true \/
      (laneless_mode_at_stopping_timer self <= 0)%Z ->
      arb_d_path_xyz arb = snd (get_d_path lp v_ego t (path_xyz self')) /\
      arb_status arb = false /\
      arb_at_stopping arb = false)).
Proof.
  intros H Hul v_ego taken.
  destruct (update_arbiter _ _ _ _ _ _ _ H)
    as (lp & path & stds & t & rc & arb & Ha & P & _ & S & _ & A & T & _).
  rewrite Hul in Ha. subst path.
  exists lp, stds, t, rc, arb.
  split; [exact Ha |]. split; [exact S |]. split; [exact A |].
  split; [exact T |]. split; [| split].
  - intro Hm. rewrite Hm in Ha.
    rewrite (arbiter_lane_lines _ _ _ _ _ _ _ _ _ _ _ (or_intror eq_refl)) in Ha.
    destruct (lane_path_fields _ _ _ _ _ _ _ _ _ Ha) as (D & _ & S' & _ & A' & T').
    auto.
  - intros Hm Ht. unfold taken in Ht.
    rewrite (arbiter_lead _ _ _ _ _ _ _ _ _ _ Hm Ht) in Ha.
    destruct (laneless_path_fields _ _ _ _ _ _ _ _ _ Ha) as (D & S' & _ & A' & T').
    rewrite T, T'. repeat split; auto.
  - intros Hm Ht. unfold taken in Ht.
    destruct (arbiter_not_lead _ _ _ _ _ _ _ _ _ _ _ Hm Ht Ha) as (T' & _ & R).
    split; [exact T' | exact R].
Qed.

End Arbiter.

(* ------------------------------------------------------------------ *)
(** ** The parameters polled while the planner runs *)

Section Polling.

Context {E : Externals}.
Variable params_at_import : Params.t.
Variable LOG_MPC : bool.

Lemma run_reachable fs : forall self s,
  reachable params_at_import LOG_MPC self ->
  run params_at_import LOG_MPC self fs = Some s ->
  reachable params_at_import LOG_MPC s.
Proof.
  induction fs as [| f fs IH]; intros self s Hr H.
  - cbn in H. injection H as <-. exact Hr.
  - destruct (run_cons _ _ _ _ _ _ H) as (s1 & plan & Hs & Hrun).
    apply (IH s1 s); [| exact Hrun].
    eapply step_reachable; eassumption.
Qed.

(** C8, as the code has it.  While the planner runs, [update] reads the
    parameter store for [EndToEndToggle] and [LanelessMode] only, once the
    accumulated frame time exceeds one second; [OpkrLaneChangeSpeed] is read
    when the module is loaded, into [LANE_CHANGE_SPEED_MIN], and a changed
    value has no effect on a running planner. *)
Theorem lane_change_speed_read_once self sm CP now :
  (forall p1 p2,
     Params.EndToEndToggle p1 = Params.EndToEndToggle p2 ->
     Params.LanelessMode p1 = Params.LanelessMode p2 ->
     update params_at_import self sm CP p1 now
     = update params_at_import self sm CP p2 now) /\
  (forall params self',
     update params_at_import self sm CP params now = Some self' ->
     ((second self + DT_MDL >? Fin 1)%F = true ->
      use_lanelines self' = negb (Params.EndToEndToggle params) /\
      laneless_mode self' = Params.LanelessMode params /\
      second self' = Fin 0) /\
     ((second self + DT_MDL >? Fin 1)%F = false ->
      use_lanelines self' = use_lanelines self /\
      laneless_mode self' = laneless_mode self /\
      second self' = (second self + DT_MDL)%F)) /\
  LANE_CHANGE_SPEED_MIN params_at_import
  = Fin (inject_Z (Params.OpkrLaneChangeSpeed params_at_import) * KPH_TO_MS).
Proof.
  split; [| split; [| reflexivity]].
  - intros p1 p2 H1 H2.
    assert (P : poll_params self p1 = poll_params self p2).
    { unfold poll_params. rewrite H1, H2. reflexivity. }
    unfold update. rewrite P. reflexivity.
  - intros params self' H.
    destruct (update_arbiter _ _ _ _ _ _ _ H)
      as (_ & _ & _ & _ & _ & _ & _ & _ & P & _).
    unfold poll_params in P.
    split; intro C; rewrite C in P; injection P as -> -> ->; repeat split.
Qed.

End Polling.

(* ------------------------------------------------------------------ *)
(** ** The direction after a lane change *)

Section Direction.

Context {E : Externals}.
Variable params_at_import : Params.t.

(** Leaving [laneChangeFinishing] for [off] keeps the direction. *)
Lemma finishing_to_off_keeps_direction self sm CP params now self' :
  update params_at_import self sm CP params now = Some self' ->
  lane_change_abort self (ControlsState.active (SubMaster.controlsState sm))
    (read_output_scale self sm CP) CP = Some false ->
  lane_change_state self = LaneChangeState.laneChangeFinishing ->
  xorb (CarState.leftBlinker (SubMaster.carState sm))
       (CarState.rightBlinker (SubMaster.carState sm)) = false ->
  (py_min (lane_change_ll_prob self + DT_MDL)%F (Fin 1) >? Fin 0.99)%F = true ->
  lane_change_state self' = LaneChangeState.off /\
  lane_change_direction self' = lane_change_direction self.
Proof.
  intros H Ha Hs Hb Hll.
  destruct (update_lane_change _ _ _ _ _ _ _ H) as (lc & Hlc & -> & -> & _).
  destruct (lane_change_logic_transitions _ _ _ _ _ _ _ _ _ Ha Hlc)
    as (-> & -> & _).
  unfold lane_change_transitions. rewrite Hs, Hb. cbn [lc_state lc_direction].
  rewrite Hll. cbn. split; reflexivity.
Qed.

(** The direction turns to none by the forced reset, or in [preLaneChange]
    with both blinkers off. *)
Lemma direction_reset_cases self sm CP params now self' :
  update params_at_import self sm CP params now = Some self' ->
  lane_change_direction self <> LaneChangeDirection.none ->
  lane_change_direction self' = LaneChangeDirection.none ->
  lane_change_abort self (ControlsState.active (SubMaster.controlsState sm))
    (read_output_scale self sm CP) CP = Some true \/
  (lane_change_state self = LaneChangeState.preLaneChange /\
   CarState.leftBlinker (SubMaster.carState sm) = false /\
   CarState.rightBlinker (SubMaster.carState sm) = false).
Proof.
  intros H Hd Hn.
  destruct (update_lane_change _ _ _ _ _ _ _ H) as (lc & Hlc & _ & Ed & _).
  rewrite Ed in Hn.
  destruct (lane_change_abort_some _ _ _ _ _ _ _ _ _ Hlc) as ([|] & Hb);
    [left; exact Hb | right].
  destruct (lane_change_logic_transitions _ _ _ _ _ _ _ _ _ Hb Hlc)
    as (_ & Ed' & _).
  rewrite Ed' in Hn. unfold lane_change_transitions in Hn.
  destruct (lane_change_state self) eqn:Hs.
  - exfalso. destruct (_ && _ && _) in Hn; cbn in Hn; contradiction.
  - cbn in Hn.
    destruct (CarState.leftBlinker _); [discriminate |].
    destruct (CarState.rightBlinker _); [discriminate |]. auto.
  - exfalso. cbn in Hn. contradiction.
  - exfalso. cbn in Hn. contradiction.
Qed.

End Direction.

(* ------------------------------------------------------------------ *)
(** ** More invariants of the planner loop *)

Section MoreInvariants.

Context {E : Externals}.
Variable params_at_import : Params.t.
Variable LOG_MPC : bool.

Ltac update_inv H :=
  unfold update in H;
  let sec := fresh "sec" in
  let ul := fresh "ul" in
  let lm := fresh "lm" in
  let Hp := fresh "Hpoll" in
  destruct (poll_params _ _) as [[sec ul] lm] eqn:Hp;
  inv_bind H;
  match goal with
  | x : (Path * list PyFloat * list PyFloat * Path)%type |- _ =>
      let path := fresh "path" in
      let t := fresh "t" in
      let yaw := fresh "yaw" in
      let stds := fresh "stds" in
      destruct x as [[[path t] yaw] stds]
  end;
  inv_bind H; inv_bind H; inv_bind H; inv_bind H;
  injection H as H; subst.

(** The model trajectory, the solver run and the attributes copied from the
    messages, as one [update] leaves them. *)
Lemma update_model self sm CP params now self' :
  update params_at_import self sm CP params now = Some self' ->
  read_model self (SubMaster.modelV2 sm)
    = Some (path_xyz self', t_idxs self', plan_yaw self', path_xyz_stds self') /\
  (exists arb run,
     mpc_step (libmpc self ++ [arb_weights arb]) (cur_state self)
       (CarState.vEgo (SubMaster.carState sm)) (t_idxs self')
       (arb_d_path_xyz arb) (path_xyz self') (plan_yaw self') = Some run /\
     (exists a b, arb_weights arb = mpc_set_weights a b (steer_rate_cost self')) /\
     mpc_solution self' = run_solution run /\
     y_pts self' = run_y_pts run /\
     libmpc self'
       = (libmpc self ++ [arb_weights arb; run_call run])
         ++ (if mpc_nans (mpc_solution self') then [mpc_init] else []) /\
     cur_state self'
       = if mpc_nans (mpc_solution self')
         then zero_state (ControlsState.curvature (SubMaster.controlsState sm))
         else run_cur_state run) /\
  standstill_elapsed_time self' = standstill_elapsed_time self /\
  stand_still self' = CarState.standStill (SubMaster.carState sm) /\
  output_scale self' = read_output_scale self sm CP /\
  steer_actuator_delay_to_send self' = CarParams.steerActuatorDelay CP.
Proof.
  intro H. update_inv H. cbn [path_xyz t_idxs plan_yaw path_xyz_stds
    libmpc mpc_solution y_pts cur_state standstill_elapsed_time stand_still
    output_scale steer_actuator_delay_to_send steer_rate_cost].
  split; [first [assumption | reflexivity] |]. split; [| repeat split].
  match goal with
  | Ha : arbiter _ _ _ _ _ _ _ _ _ _ _ = Some ?arb,
    Hr : mpc_step _ _ _ _ _ _ _ = Some ?run |- _ =>
      exists arb, run; split; [exact Hr |];
      assert (W : exists a b, arb_weights arb = mpc_set_weights a b
                  (interp (CarState.vEgo (SubMaster.carState sm))
                     [Fin 1; Fin 8; Fin 15]
                     [Fin 1; Fin 0.8; CarParams.steerRateCost CP]))
  end.
  { match goal with
    | Ha : arbiter _ _ _ _ _ _ _ _ _ _ _ = Some _ |- _ =>
        unfold arbiter in Ha;
        repeat match type of Ha with
               | (if ?c then _ else _) = _ => destruct c
               end;
        first [ unfold lane_path in Ha;
                destruct (get_d_path _ _ _ _) in Ha;
                injection Ha as <-; cbn; eauto
              | unfold laneless_path in Ha; repeat inv_bind Ha;
                injection Ha as <-; cbn; eauto ]
    end. }
  destruct W as (a & b & W).
  split; [exists a, b; exact W |].
  split; [reflexivity |]. split; [reflexivity |].
  split; [| reflexivity].
  destruct (mpc_nans _); rewrite <- !app_assoc; reflexivity.
Qed.

Lemma lane_change_logic_timer self sm CP v_ego active out lp lc (tm : Q) :
  lane_change_timer self = Fin tm ->
  0 <= tm ->
  lane_change_logic params_at_import self sm CP v_ego active out lp = Some lc ->
  exists tm', lc_timer lc = Fin tm' /\ 0 <= tm' <= 10.05 /\
    (lc_state lc = LaneChangeState.laneChangeStarting \/
     lc_state lc = LaneChangeState.laneChangeFinishing -> 0 < tm').
Proof.
  intros Ht Htm H.
  destruct (lane_change_abort_some _ _ _ _ _ _ _ _ _ H) as (b & Hb).
  destruct b.
  - unfold lane_change_logic in H. rewrite Hb in H. cbn in H.
    injection H as <-. cbn. exists 0.
    split; [reflexivity |]. split; [lra |]. intros [K | K]; discriminate.
  - destruct (lane_change_logic_transitions _ _ _ _ _ _ _ _ _ Hb H)
      as (E1 & _ & _ & _ & E5).
    rewrite E5, E1.
    assert (Hle : tm <= 10).
    { unfold lane_change_abort in Hb. destruct active; [| discriminate].
      cbn in Hb. rewrite Ht in Hb. cbn in Hb.
      destruct (Qlt_bool 10 tm) eqn:C; [discriminate |]. qprop. exact C. }
    rewrite Ht. clear E1 E5.
    destruct (lc_state (lane_change_transitions _ _ _ _ _)); cbn.
    + exists 0. split; [reflexivity |]. split; [lra |].
      intros [K | K]; discriminate.
    + exists 0. split; [reflexivity |]. split; [lra |].
      intros [K | K]; discriminate.
    + exists (tm + 0.05). split; [reflexivity |]. split; [lra |]. intros _. lra.
    + exists (tm + 0.05). split; [reflexivity |]. split; [lra |]. intros _. lra.
Qed.

Lemma arbiter_timer self sm v_ego ul lm state lp path stds t rate_cost arb :
  arbiter self sm v_ego ul lm state lp path stds t rate_cost = Some arb ->
  arb_timer arb = laneless_mode_at_stopping_timer self \/ arb_timer arb = 60%Z.
Proof.
  unfold arbiter. intro H.
  repeat match type of H with
         | (if ?c then _ else _) = _ => destruct c
         end;
    first [ destruct (lane_path_fields _ _ _ _ _ _ _ _ _ H)
              as (_ & _ & _ & _ & _ & T)
          | destruct (laneless_path_fields _ _ _ _ _ _ _ _ _ H)
              as (_ & _ & _ & _ & T) ];
    rewrite T; auto.
Qed.

Lemma column_stack_length a b c p :
  column_stack a b c = Some p -> List.length p = List.length a.
Proof.
  revert b c p. induction a as [| u a IH]; intros [| v b] [| w c] p H;
    cbn in H; try discriminate.
  - injection H as <-. reflexivity.
  - destruct (column_stack a b c) as [r|] eqn:R; [| discriminate].
    injection H as <-. cbn. f_equal. eapply IH. eassumption.
Qed.

Lemma read_model_rows self md path t yaw stds :
  List.length (path_xyz self) = TRAJECTORY_SIZE ->
  read_model self md = Some (path, t, yaw, stds) ->
  List.length path = TRAJECTORY_SIZE.
Proof.
  intros Hl H. unfold read_model in H.
  destruct ((List.length (XYZTData.x (ModelV2.position md)) =? TRAJECTORY_SIZE)%nat &&
            (List.length (XYZTData.x (ModelV2.orientation md)) =? TRAJECTORY_SIZE)%nat)
    eqn:C.
  - destruct (column_stack _ _ _) as [p|] eqn:S in H; [| discriminate].
    cbn [bind] in H. inv_bind H. injection H as Hp _ _ _. subst p.
    apply andb_true_iff in C. destruct C as (C & _).
    apply Nat.eqb_eq in C. rewrite <- C. eapply column_stack_length. eassumption.
  - cbn [bind] in H. inv_bind H. injection H as Hp _ _ _. subst path. exact Hl.
Qed.

Lemma inv_more_init CP ul wc params : planner_inv_more (init CP ul wc params).
Proof.
  constructor; cbn.
  - exists 0. split; [reflexivity |]. split; [lra |]. intros [K | K]; discriminate.
  - reflexivity.
  - lia.
  - apply repeat_length.
  - repeat split.
  - exists 0. split; [reflexivity | lra].
  - exists 0. split; [reflexivity | lra].
Qed.

Lemma inv_more_update self sm CP params now self' :
  planner_inv_more self ->
  update params_at_import self sm CP params now = Some self' ->
  planner_inv_more self'.
Proof.
  intros [(tm & Ht & Htm & _) Hd Hk Hrows Hseed (e & He & He0) (q & Hq & Hq01)] H.
  destruct (update_lane_change _ _ _ _ _ _ _ H)
    as (lc & Hlc & E1 & _ & _ & _ & E5 & _ & _ & Ed).
  destruct (update_arbiter _ _ _ _ _ _ _ H)
    as (lp & path & stds & t & rc & arb & Ha & _ & P & _ & _ & _ & T & _).
  destruct (update_model _ _ _ _ _ _ H)
    as (Hm & (arb' & run & Hrun & _ & _ & _ & _ & Hcs) & Hst & _).
  constructor.
  - rewrite E5, E1.
    apply (lane_change_logic_timer _ _ _ _ _ _ _ _ _ Ht (proj1 Htm) Hlc).
  - exact Ed.
  - rewrite T. unfold tick_down.
    destruct (arbiter_timer _ _ _ _ _ _ _ _ _ _ _ _ Ha) as [K | K]; rewrite K.
    + destruct (Z.gtb_spec (laneless_mode_at_stopping_timer self) 0); lia.
    + cbn. lia.
  - eapply read_model_rows; eassumption.
  - rewrite Hcs. destruct (mpc_nans _); [repeat split |].
    unfold mpc_step in Hrun. repeat inv_bind Hrun.
    injection Hrun as <-. repeat split.
  - exists e. rewrite Hst. split; assumption.
  - unfold poll_params in P. rewrite Hq in P. unfold_float.
    destruct (Qlt_bool 1 (q + 0.05)) eqn:C; injection P as -> _ _.
    + exists 0. split; [reflexivity | lra].
    + exists (q + 0.05). split; [reflexivity |]. qprop. lra.
Qed.

Lemma inv_more_publish self sm self' plan live :
  planner_inv_more self ->
  publish LOG_MPC self sm = Some (self', plan, live) ->
  planner_inv_more self'.
Proof.
  intros [I1 I2 I3 I4 I5 (e & He & He0) I7] H.
  unfold publish in H. inv_bind H. injection H as <- _ _.
  constructor; cbn; auto.
  destruct (stand_still self).
  - rewrite He. unfold_float. exists (e + 0.05). split; [reflexivity | lra].
  - exists 0. split; [reflexivity | lra].
Qed.

Lemma reachable_inv_more self :
  reachable params_at_import LOG_MPC self -> planner_inv_more self.
Proof.
  induction 1.
  - apply inv_more_init.
  - eapply inv_more_update; eassumption.
  - eapply inv_more_publish; eassumption.
Qed.

End MoreInvariants.

(* ------------------------------------------------------------------ *)
(** ** Further properties of the lane-change state machine *)

Section LaneChangeMore.

Context {E : Externals}.
Variable params_at_import : Params.t.
Variable LOG_MPC : bool.

(** X1.  In every planner the loop can reach, the lane-change timer is zero
    in [off] and [preLaneChange], positive during a lane change, and never
    more than one frame above [LANE_CHANGE_TIME_MAX]. *)
Theorem lane_change_timer_tracks_state self :
  reachable params_at_import LOG_MPC self ->
  exists tm,
    lane_change_timer self = Fin tm /\
    0 <= tm <= 10.05 /\
    (lane_change_state self = LaneChangeState.off \/
     lane_change_state self = LaneChangeState.preLaneChange -> tm == 0) /\
    (lane_change_state self = LaneChangeState.laneChangeStarting \/
     lane_change_state self = LaneChangeState.laneChangeFinishing -> 0 < tm).
Proof.
  intro Hr.
  destruct (inv_timer_range _ (reachable_inv_more _ _ _ Hr)) as (tm & Ht & Hb & Hp).
  exists tm. split; [exact Ht |]. split; [exact Hb |]. split; [| exact Hp].
  intro Hs. pose proof (inv_timer _ (reachable_inv _ _ _ Hr) Hs) as Hz.
  rewrite Ht in Hz. injection Hz as ->. reflexivity.
Qed.

(** X2.  In every planner the loop can reach, a desire other than none
    means a lane change under way: the state is [laneChangeStarting] or
    [laneChangeFinishing], the direction is not none and the timer runs. *)
Theorem desire_only_during_lane_change self :
  reachable params_at_import LOG_MPC self ->
  desire self <> Desire.none ->
  (lane_change_state self = LaneChangeState.laneChangeStarting \/
   lane_change_state self = LaneChangeState.laneChangeFinishing) /\
  lane_change_direction self <> LaneChangeDirection.none /\
  (desire self = Desire.laneChangeLeft <->
   lane_change_direction self = LaneChangeDirection.left) /\
  exists tm, lane_change_timer self = Fin tm /\ 0 < tm <= 10.05.
Proof.
  intros Hr Hd.
  pose proof (reachable_inv_more _ _ _ Hr) as I.
  destruct (inv_timer_range _ I) as (tm & Ht & Hb & Hp).
  pose proof (inv_desire _ I) as D. rewrite D in Hd |- *.
  destruct (lane_change_direction self), (lane_change_state self);
    cbn in Hd |- *; try contradiction;
    (split; [auto |]); (split; [discriminate |]);
    (split; [split; intro K; first [reflexivity | discriminate] |]);
    exists tm; (split; [exact Ht |]); (split; [apply Hp; auto | lra]).
Qed.

(** X3.  Whenever the system is not engaged, the timer is over
    [LANE_CHANGE_TIME_MAX], or the lateral controller saturates with the
    timer over 1 s, [update] turns the lane change off whatever the state:
    state [off], direction none, desire none, timer 0; [ll_prob] and the
    waiting time are left as they were.  A disengaged system never reads
    [CP.steerMaxV]. *)
Theorem forced_reset_turns_lane_change_off self sm CP params now self' :
  update params_at_import self sm CP params now = Some self' ->
  ControlsState.active (SubMaster.controlsState sm) = false \/
  (lane_change_timer self >? LANE_CHANGE_TIME_MAX)%F = true \/
  (exists m rest,
     CarParams.steerMaxV CP = m :: rest /\
     (fabs (read_output_scale self sm CP) >=? m - Fin 0.15)%F = true /\
     (lane_change_timer self >? Fin 1)%F = true) ->
  lane_change_state self' = LaneChangeState.off /\
  lane_change_direction self' = LaneChangeDirection.none /\
  desire self' = Desire.none /\
  lane_change_timer self' = Fin 0 /\
  lane_change_ll_prob self' = lane_change_ll_prob self /\
  lane_change_wait_timer self' = lane_change_wait_timer self.
Proof.
  intros H Hc.
  destruct (update_lane_change _ _ _ _ _ _ _ H)
    as (lc & Hlc & E1 & E2 & E3 & E4 & E5 & _ & _ & Ed).
  assert (Hb : lane_change_abort self
                 (ControlsState.active (SubMaster.controlsState sm))
                 (read_output_scale self sm CP) CP = Some true).
  { unfold lane_change_abort.
    destruct (ControlsState.active _) eqn:Ha; [| reflexivity]. cbn [negb].
    destruct (_ >? LANE_CHANGE_TIME_MAX)%F eqn:Hmx; [reflexivity |].
    destruct Hc as [K | [K | (m & rest & Hm & Ho & Ht)]];
      [discriminate | congruence |].
    rewrite Hm. cbn [nth_error bind]. rewrite Ho, Ht. reflexivity. }
  unfold lane_change_logic in Hlc. rewrite Hb in Hlc. cbn in Hlc.
  injection Hlc as <-. cbn in E1, E2, E3, E4, E5.
  rewrite Ed, E1, E2. repeat split; assumption.
Qed.

(** [publish] keeps everything but the standstill time. *)
Lemma step_fields self f self' plan :
  step params_at_import LOG_MPC self f = Some (self', plan) ->
  exists self1,
    update params_at_import self (f_sm f) (f_CP f) (f_params f) (f_now f)
      = Some self1 /\
    lane_change_state self' = lane_change_state self1 /\
    lane_change_direction self' = lane_change_direction self1 /\
    prev_one_blinker self' = prev_one_blinker self1 /\
    lane_change_auto_delay self' = lane_change_auto_delay self1 /\
    lane_change_wait_timer self' = lane_change_wait_timer self1.
Proof.
  intro H. destruct (step_inv _ _ _ _ _ _ H) as (s1 & live & Hu & Hp).
  destruct (publish_planner _ _ _ _ _ _ Hp) as (e & secs & -> & _).
  exists s1. cbn. repeat split; auto.
Qed.

Lemma off_without_edge_stays_off self sm CP params now self' :
  lane_change_state self = LaneChangeState.off ->
  prev_one_blinker self = true ->
  update params_at_import self sm CP params now = Some self' ->
  lane_change_state self' = LaneChangeState.off /\
  prev_one_blinker self' = one_blinker_on sm.
Proof.
  intros Hs Hp H.
  destruct (update_lane_change _ _ _ _ _ _ _ H)
    as (lc & Hlc & E1 & _ & _ & _ & _ & _ & Eb & _).
  split; [| exact Eb]. rewrite E1.
  unfold lane_change_logic in Hlc. inv_bind Hlc. injection Hlc as <-. cbn.
  destruct x; [reflexivity |].
  unfold lane_change_transitions. rewrite Hs, Hp.
  rewrite andb_false_r. reflexivity.
Qed.

(** X4.  A lane change needs a new blinker edge: from [off] with a blinker
    already on in the previous frame, the state stays [off] for as long as
    exactly one blinker stays on, whatever else the frames carry. *)
Theorem no_lane_change_without_new_blinker fs : forall self s,
  lane_change_state self = LaneChangeState.off ->
  prev_one_blinker self = true ->
  Forall (fun f => one_blinker_on (f_sm f) = true) fs ->
  run params_at_import LOG_MPC self fs = Some s ->
  lane_change_state s = LaneChangeState.off /\
  prev_one_blinker s = true.
Proof.
  induction fs as [| f fs IH]; intros self s Hs Hp Hall H.
  - cbn in H. injection H as <-. auto.
  - destruct (run_cons _ _ _ _ _ _ H) as (s1 & plan & Hstep & Hrun).
    inversion Hall as [| ? ? Hf Hall']. subst.
    destruct (step_fields _ _ _ _ Hstep) as (u & Hu & E1 & _ & E3 & _).
    destruct (off_without_edge_stays_off _ _ _ _ _ _ Hs Hp Hu) as (S1 & P1).
    apply (IH s1 s); try assumption; congruence.
Qed.

Lemma pre_step_blocked self sm CP params now self' :
  reachable params_at_import LOG_MPC self ->
  lane_change_state self = LaneChangeState.preLaneChange ->
  left_blinker_on params_at_import sm = true ->
  CarState.leftBlindspot (SubMaster.carState sm) = true \/
  (CarState.steeringPressed (SubMaster.carState sm) = false /\
   truthy (lane_change_auto_delay self) = false) ->
  update params_at_import self sm CP params now = Some self' ->
  lane_change_state self' = LaneChangeState.preLaneChange /\
  lane_change_direction self' = LaneChangeDirection.left.
Proof.
  intros Hr Hs Hin Hc H.
  destruct (left_blinker_on_inv _ _ Hin) as (Hact & Hl & Hrt & Hv).
  destruct (update_transitions_idle _ _ _ _ _ _ _ _ Hr (or_intror Hs) Hact H)
    as (E1 & E2 & _).
  rewrite E1, E2. unfold lane_change_transitions.
  rewrite Hs, Hl, Hrt, Hv. cbn.
  destruct Hc as [Hb | (Hp & Ha)].
  - rewrite Hb. cbn. split; reflexivity.
  - rewrite Hp, Ha. cbn. rewrite andb_false_r. split; reflexivity.
Qed.

(** X5.  A vehicle in the blind spot of the blinker side blocks the lane
    change: in [preLaneChange], engaged, with the left blinker on at
    lane-change speed and the left blind spot occupied, the state stays
    [preLaneChange] for any number of frames, whatever the driver torque and
    the automatic delay. *)
Theorem blind_spot_blocks_lane_change fs : forall self s,
  reachable params_at_import LOG_MPC self ->
  lane_change_state self = LaneChangeState.preLaneChange ->
  Forall (fun f => left_blinker_on params_at_import (f_sm f) = true /\
                   CarState.leftBlindspot (SubMaster.carState (f_sm f)) = true) fs ->
  run params_at_import LOG_MPC self fs = Some s ->
  lane_change_state s = LaneChangeState.preLaneChange.
Proof.
  induction fs as [| f fs IH]; intros self s Hr Hs Hall H.
  - cbn in H. injection H as <-. exact Hs.
  - destruct (run_cons _ _ _ _ _ _ H) as (s1 & plan & Hstep & Hrun).
    inversion Hall as [| ? ? [Hf Hb] Hall']. subst.
    destruct (step_fields _ _ _ _ Hstep) as (u & Hu & E1 & _).
    destruct (pre_step_blocked _ _ _ _ _ _ Hr Hs Hf (or_introl Hb) Hu) as (S1 & _).
    apply (IH s1 s); try assumption; [| congruence].
    eapply step_reachable; eassumption.
Qed.

(** X6.  Driver torque towards the blinker side starts the lane change at
    once: in [preLaneChange], engaged, with the left blinker on at
    lane-change speed, the wheel pressed with positive torque and the left
    blind spot free, one [update] enters [laneChangeStarting] to the left and
    starts the timer, whatever the automatic delay. *)
Theorem driver_torque_starts_lane_change self sm CP params now self' :
  reachable params_at_import LOG_MPC self ->
  lane_change_state self = LaneChangeState.preLaneChange ->
  left_blinker_on params_at_import sm = true ->
  CarState.leftBlindspot (SubMaster.carState sm) = false ->
  CarState.steeringPressed (SubMaster.carState sm) = true ->
  (CarState.steeringTorque (SubMaster.carState sm) >? Fin 0)%F = true ->
  update params_at_import self sm CP params now = Some self' ->
  lane_change_state self' = LaneChangeState.laneChangeStarting /\
  lane_change_direction self' = LaneChangeDirection.left /\
  desire self' = Desire.laneChangeLeft /\
  (lane_change_timer self' =? Fin 0.05)%F = true /\
  lane_change_ll_prob self' = lane_change_ll_prob self.
Proof.
  intros Hr Hs Hin Hb Hp Ht H.
  destruct (left_blinker_on_inv _ _ Hin) as (Hact & Hl & Hrt & Hv).
  destruct (update_transitions_idle _ _ _ _ _ _ _ _ Hr (or_intror Hs) Hact H)
    as (E1 & E2 & E3 & _ & E5).
  destruct (update_lane_change _ _ _ _ _ _ _ H)
    as (_ & _ & _ & _ & _ & _ & _ & _ & _ & Ed).
  unfold lane_change_transitions in E1, E2, E3, E5.
  rewrite Hs, Hl, Hrt, Hv, Hb, Hp, Ht in E1, E2, E3, E5.
  cbn in E1, E2, E3, E5. rewrite andb_false_r in E1, E5. cbn in E1, E5.
  rewrite Ed, E1, E2, E3, E5. repeat split.
Qed.

(** X7.  An automatic delay of zero switches the automatic start off: in
    [preLaneChange] with the blinker on and no hand on the wheel, the state
    stays [preLaneChange] for any number of frames. *)
Theorem zero_auto_delay_waits_for_torque fs : forall self s,
  reachable params_at_import LOG_MPC self ->
  lane_change_state self = LaneChangeState.preLaneChange ->
  truthy (lane_change_auto_delay self) = false ->
  Forall (fun f => left_blinker_on params_at_import (f_sm f) = true /\
                   CarState.steeringPressed (SubMaster.carState (f_sm f)) = false) fs ->
  run params_at_import LOG_MPC self fs = Some s ->
  lane_change_state s = LaneChangeState.preLaneChange.
Proof.
  induction fs as [| f fs IH]; intros self s Hr Hs Ha Hall H.
  - cbn in H. injection H as <-. exact Hs.
  - destruct (run_cons _ _ _ _ _ _ H) as (s1 & plan & Hstep & Hrun).
    inversion Hall as [| ? ? [Hf Hp] Hall']. subst.
    destruct (step_fields _ _ _ _ Hstep) as (u & Hu & E1 & _ & _ & E4 & _).
    destruct (pre_step_blocked _ _ _ _ _ _ Hr Hs Hf (or_intror (conj Hp Ha)) Hu)
      as (S1 & _).
    destruct (update_lane_change _ _ _ _ _ _ _ Hu)
      as (_ & _ & _ & _ & _ & _ & _ & Ea & _).
    apply (IH s1 s); try assumption; [| congruence | congruence].
    eapply step_reachable; eassumption.
Qed.

End LaneChangeMore.

(* ------------------------------------------------------------------ *)
(** ** Further properties of the arbiter, the solver run and [publish] *)

Section PlannerMore.

Context {E : Externals}.
Variable params_at_import : Params.t.
Variable LOG_MPC : bool.

(** X8.  In every planner the loop can reach, the stopping countdown is
    between 0 and 59: it is armed at 60 and decremented in the same step, and
    never goes below zero. *)
Theorem stopping_countdown_bounded self :
  reachable params_at_import LOG_MPC self ->
  (0 <= laneless_mode_at_stopping_timer self <= 59)%Z.
Proof.
  intro Hr. apply (inv_ticks _ (reachable_inv_more _ _ _ Hr)).
Qed.

(** X9.  In every planner the loop can reach, the model path has
    [TRAJECTORY_SIZE] rows: a frame is taken only when its position and
    orientation have that many points. *)
Theorem model_path_keeps_trajectory_size self :
  reachable params_at_import LOG_MPC self ->
  List.length (path_xyz self) = TRAJECTORY_SIZE.
Proof.
  intro Hr. apply (inv_path_rows _ (reachable_inv_more _ _ _ Hr)).
Qed.

(** X10.  A model frame whose position or orientation does not have
    [TRAJECTORY_SIZE] points is ignored: path, time grid and yaw plan stay as
    they were. *)
Theorem short_model_frame_is_ignored self sm CP params now self' :
  List.length (XYZTData.x (ModelV2.position (SubMaster.modelV2 sm)))
    <> TRAJECTORY_SIZE \/
  List.length (XYZTData.x (ModelV2.orientation (SubMaster.modelV2 sm)))
    <> TRAJECTORY_SIZE ->
  update params_at_import self sm CP params now = Some self' ->
  path_xyz self' = path_xyz self /\
  t_idxs self' = t_idxs self /\
  plan_yaw self' = plan_yaw self.
Proof.
  intros Hlen H.
  destruct (update_model _ _ _ _ _ _ _ H) as (Hm & _).
  unfold read_model in Hm.
  assert (C : (List.length (XYZTData.x (ModelV2.position (SubMaster.modelV2 sm)))
                 =? TRAJECTORY_SIZE)%nat &&
              (List.length (XYZTData.x (ModelV2.orientation (SubMaster.modelV2 sm)))
                 =? TRAJECTORY_SIZE)%nat = false).
  { apply andb_false_iff. destruct Hlen as [K | K]; [left | right];
      apply Nat.eqb_neq; exact K. }
  rewrite C in Hm. cbn [bind] in Hm. inv_bind Hm.
  injection Hm as <- <- <- _. repeat split.
Qed.

(** Whatever branch the arbiter takes, it is one of two shapes. *)
Lemma arbiter_target self sm v_ego ul lm state lp path stds t rate_cost arb :
  arbiter self sm v_ego ul lm state lp path stds t rate_cost = Some arb ->
  (arb_status arb = false /\
   arb_d_path_xyz arb = snd (get_d_path lp v_ego t path) /\
   arb_weights arb
     = mpc_set_weights MPC_COST_LAT_PATH MPC_COST_LAT_HEADING rate_cost) \/
  (arb_status arb = true /\
   arb_d_path_xyz arb = path /\
   exists a b,
     at_0_1 path = Some a /\ at_0_1 stds = Some b /\
     arb_weights arb
       = mpc_set_weights (np_clip_abs_div a b * MPC_COST_LAT_PATH)%F
           (interp v_ego [Fin 5; Fin 10] [MPC_COST_LAT_HEADING; Fin 0])
           rate_cost).
Proof.
  unfold arbiter. intro H.
  repeat match type of H with
         | (if ?c then _ else _) = _ => destruct c
         end;
    first [ left; destruct (lane_path_fields _ _ _ _ _ _ _ _ _ H)
                    as (D & W & S & _); auto
          | right; destruct (laneless_path_fields _ _ _ _ _ _ _ _ _ H)
                     as (D & S & _);
            split; [exact S |]; split; [exact D |];
            unfold laneless_path in H; repeat inv_bind H;
            injection H as <-; cbn; eauto ].
Qed.

Ltac update_inv H :=
  unfold update in H;
  let sec := fresh "sec" in
  let ul := fresh "ul" in
  let lm := fresh "lm" in
  let Hp := fresh "Hpoll" in
  destruct (poll_params _ _) as [[sec ul] lm] eqn:Hp;
  inv_bind H;
  match goal with
  | x : (Path * list PyFloat * list PyFloat * Path)%type |- _ =>
      let path := fresh "path" in
      let t := fresh "t" in
      let yaw := fresh "yaw" in
      let stds := fresh "stds" in
      destruct x as [[[path t] yaw] stds]
  end;
  inv_bind H; inv_bind H; inv_bind H; inv_bind H;
  injection H as H; subst.

(** X11.  The published laneless flag tells which path the solver tracks:
    when [laneless_mode_status] is false after an [update], the target was
    the lane planner's path with the weights [PATH] and [HEADING]; when it
    is true, the target was the raw model path with the path weight scaled
    by the first point's offset over its deviation and the heading weight
    faded out between 5 and 10 m/s.  Either way the weights went to the
    solver with the steer-rate cost of this step. *)
Theorem laneless_status_matches_target self sm CP params now self' :
  update params_at_import self sm CP params now = Some self' ->
  let v_ego := CarState.vEgo (SubMaster.carState sm) in
  exists lp arb,
    arbiter self sm v_ego (use_lanelines self') (laneless_mode self')
      (lane_change_state self') lp (path_xyz self') (path_xyz_stds self')
      (t_idxs self') (steer_rate_cost self') = Some arb /\
    laneless_mode_status self' = arb_status arb /\
    In (arb_weights arb) (libmpc self') /\
    (laneless_mode_status self' = false ->
     arb_d_path_xyz arb
       = snd (get_d_path lp v_ego (t_idxs self') (path_xyz self')) /\
     arb_weights arb
       = mpc_set_weights MPC_COST_LAT_PATH MPC_COST_LAT_HEADING
           (steer_rate_cost self')) /\
    (laneless_mode_status self' = true ->
     arb_d_path_xyz arb = path_xyz self' /\
     exists a b,
       at_0_1 (path_xyz self') = Some a /\
       at_0_1 (path_xyz_stds self') = Some b /\
       arb_weights arb
         = mpc_set_weights (np_clip_abs_div a b * MPC_COST_LAT_PATH)%F
             (interp v_ego [Fin 5; Fin 10] [MPC_COST_LAT_HEADING; Fin 0])
             (steer_rate_cost self')).
Proof.
  intros H v_ego. update_inv H.
  match goal with
  | Ha : arbiter _ _ _ _ _ _ ?lp _ _ _ _ = Some ?arb |- _ =>
      exists lp, arb; cbn [use_lanelines laneless_mode lane_change_state
        path_xyz path_xyz_stds t_idxs steer_rate_cost laneless_mode_status
        libmpc];
      split; [exact Ha |]; split; [reflexivity |];
      destruct (arbiter_target _ _ _ _ _ _ _ _ _ _ _ _ Ha)
        as [(S & D & W) | (S & D & W)]
  end.
  - split; [destruct (mpc_nans _); rewrite !in_app_iff; cbn; tauto |].
    split; [auto | intro K; congruence].
  - split; [destruct (mpc_nans _); rewrite !in_app_iff; cbn; tauto |].
    split; [intro K; congruence | auto].
Qed.

(** X12.  Each [update] of a reachable planner makes two calls to the
    solver, in this order: the weights, with the steer-rate cost of this
    step, then the run, seeded with the state kept from the step before (at
    the origin) and fed [MPC_N + 1] lateral offsets and headings; a third
    call, the re-initialisation, follows exactly when the solution has a NaN
    curvature.  The offsets are those published as the path points. *)
Theorem solver_calls_per_update self sm CP params now self' :
  reachable params_at_import LOG_MPC self ->
  update params_at_import self sm CP params now = Some self' ->
  let v_ego := CarState.vEgo (SubMaster.carState sm) in
  exists a b ys hs,
    libmpc self'
      = (libmpc self
         ++ [mpc_set_weights a b (steer_rate_cost self');
             mpc_run (cur_state self) v_ego CAR_ROTATION_RADIUS ys hs])
        ++ (if mpc_nans (mpc_solution self') then [mpc_init] else []) /\
    mpc_solution self'
      = run_mpc (libmpc self ++ [mpc_set_weights a b (steer_rate_cost self')])
          (cur_state self) v_ego CAR_ROTATION_RADIUS ys hs /\
    List.length ys = S MPC_N /\
    List.length hs = S MPC_N /\
    y_pts self' = ys /\
    MpcState.x (cur_state self) = Fin 0 /\
    MpcState.y (cur_state self) = Fin 0 /\
    MpcState.psi (cur_state self) = Fin 0.
Proof.
  intros Hr H v_ego.
  destruct (inv_seed _ (reachable_inv_more _ _ _ Hr)) as (S1 & S2 & S3).
  destruct (update_model _ _ _ _ _ _ _ H)
    as (_ & (arb & run & Hrun & (a & b & W) & Hsol & Hy & Hl & _) & _).
  unfold mpc_step in Hrun. repeat inv_bind Hrun.
  injection Hrun as <-. cbn in Hsol, Hy, Hl.
  exists a, b, x, x0. rewrite W in Hl, Hsol.
  unfold assert in *.
  repeat match goal with
         | K : (if ?c then _ else _) = Some _ |- _ =>
             destruct c eqn:?; [| discriminate K]
         end.
  repeat match goal with
         | K : (_ =? _)%nat = true |- _ => apply Nat.eqb_eq in K
         end.
  repeat split; assumption.
Qed.

(** X13.  A steering actuator delay of zero makes [update] raise whenever
    the ego speed is a number: a call that gets as far as the delay
    compensation divides by zero there ([ZeroDivisionError]).  The time grids
    in use start at or after zero, so that the interpolated heading is the
    solution's first entry, a plain float. *)
Theorem zero_actuator_delay_raises self sm CP params now (v d : Q) :
  starts_at_or_after_zero (t_idxs self) = true ->
  starts_at_or_after_zero
    (XYZTData.t_ (ModelV2.position (SubMaster.modelV2 sm))) = true ->
  CarState.vEgo (SubMaster.carState sm) = Fin v ->
  CarParams.steerActuatorDelay CP = Fin d ->
  d == 0 ->
  update params_at_import self sm CP params now = None.
Proof.
  intros _ _ Hv Hd Hd0.
  destruct (update params_at_import self sm CP params now) as [self'|] eqn:H;
    [exfalso | reflexivity].
  destruct (update_curvature _ _ _ _ _ _ _ H) as (t & cv & Hcv & _).
  unfold curvature_step in Hcv. rewrite Hv, Hd in Hcv.
  inv_bind Hcv. inv_bind Hcv.
  assert (T : forall psi, truediv psi (py_max (Fin v) (Fin 0.1) * Fin d)%F = None).
  { intro psi. unfold py_max, fgt, flt, fmul, cmp2, lift2.
    destruct (Qlt_bool v 0.1); unfold truediv;
      match goal with
      | |- (if Qeq_bool ?z 0 then _ else _) = _ =>
          assert (Z : Qeq_bool z 0 = true)
            by (apply Qeq_bool_iff; rewrite Hd0; ring);
          rewrite Z; reflexivity
      end. }
  rewrite T in Hcv. discriminate Hcv.
Qed.

(** X14.  With an empty [CP.steerMaxV], [update] raises ([IndexError])
    exactly on the path that reads it: engaged, with the lane-change timer
    not over [LANE_CHANGE_TIME_MAX].  A disengaged system, or one whose timer
    ran over, is reset without the read. *)
Theorem empty_steer_max_raises_when_engaged self sm CP params now :
  CarParams.steerMaxV CP = [] ->
  let active := ControlsState.active (SubMaster.controlsState sm) in
  let over := (lane_change_timer self >? LANE_CHANGE_TIME_MAX)%F in
  lane_change_abort self active (read_output_scale self sm CP) CP
    = (if negb active || over then Some true else None) /\
  (active = true -> over = false ->
   update params_at_import self sm CP params now = None).
Proof.
  intros Hm active over.
  assert (A : lane_change_abort self active (read_output_scale self sm CP) CP
              = (if negb active || over then Some true else None)).
  { unfold lane_change_abort. fold active. fold over. rewrite Hm.
    destruct active; cbn; [| reflexivity]. destruct over; reflexivity. }
  split; [exact A |]. intros Ha Ho.
  destruct (update params_at_import self sm CP params now) as [self'|] eqn:H;
    [exfalso | reflexivity].
  destruct (update_lane_change _ _ _ _ _ _ _ H) as (lc & Hlc & _).
  destruct (lane_change_abort_some _ _ _ _ _ _ _ _ _ Hlc) as (b & Hb).
  fold active in Hb. rewrite A, Ha, Ho in Hb. discriminate Hb.
Qed.

(** In auto mode, past the lead-vehicle and stopping branches, the laneless
    status is decided by the lane confidence with hysteresis, and the buffer
    remembers it. *)
Lemma arbiter_auto_mode self sm v_ego state lp path stds t rate_cost arb :
  arbiter self sm v_ego false 2 state lp path stds t rate_cost = Some arb ->
  lead_stopping sm v_ego state = false ->
  laneless_mode_at_stopping self = false ->
  arb_status arb
    = LaneChangeState.eqb state LaneChangeState.off &&
      ((lane_confidence lp <? Fin 0.2)%F ||
       (laneless_mode_status_buffer self &&
        negb (lane_confidence lp >? Fin 0.4)%F)) /\
  arb_buffer arb = arb_status arb.
Proof.
  unfold arbiter, lane_confidence. intros H Hl Hs.
  rewrite Hl, Hs in H.
  set (c := ((LanePlanner.lll_prob lp + LanePlanner.rll_prob lp) / Fin 2)%F) in *.
  destruct (c <? Fin 0.2)%F; destruct (c >? Fin 0.4)%F;
    destruct (LaneChangeState.eqb state LaneChangeState.off);
    destruct (laneless_mode_status_buffer self); cbn in H |- *;
    first [ destruct (lane_path_fields _ _ _ _ _ _ _ _ _ H)
              as (_ & _ & S & B & _)
          | destruct (laneless_path_fields _ _ _ _ _ _ _ _ _ H)
              as (_ & S & B & _) ];
    rewrite S, B; split; reflexivity.
Qed.

(** X15.  The auto mode ([laneless_mode = 2]) switches with hysteresis.  In
    an [update] with lane lines not in use, no lead-vehicle kick-in and no
    stopping mode pending, the planner goes laneless exactly when the
    lane-change state is off and the mean lane-line probability is below
    0.2, or it was laneless already and the mean is not above 0.4; the
    buffer records the outcome. *)
Theorem laneless_auto_mode_hysteresis self sm CP params now self' :
  update params_at_import self sm CP params now = Some self' ->
  use_lanelines self' = false ->
  laneless_mode self' = 2%Z ->
  let v_ego := CarState.vEgo (SubMaster.carState sm) in
  let c := lane_confidence
             (parse_model (LP self) (SubMaster.modelV2 sm) sm v_ego) in
  lead_stopping sm v_ego (lane_change_state self') = false ->
  laneless_mode_at_stopping self = false ->
  laneless_mode_status self'
    = LaneChangeState.eqb (lane_change_state self') LaneChangeState.off &&
      ((c <? Fin 0.2)%F ||
       (laneless_mode_status_buffer self && negb (c >? Fin 0.4)%F)) /\
  laneless_mode_status_buffer self' = laneless_mode_status self'.
Proof.
  intros H Hul Hm v_ego c Hlead Hstop. update_inv H.
  cbn [use_lanelines laneless_mode lane_change_state laneless_mode_status
       laneless_mode_status_buffer] in *.
  subst.
  match goal with
  | Ha : arbiter _ _ _ _ _ _ _ _ _ _ _ = Some _ |- _ =>
      destruct (arbiter_auto_mode _ _ _ _ _ _ _ _ _ _ Ha Hlead Hstop) as (S & B)
  end.
  rewrite B, S. split; [| reflexivity].
  match goal with
  | |- context [lc_state ?x] =>
      destruct (lc_state x) eqn:Es; cbn [LaneChangeState.eqb andb];
        try reflexivity;
        unfold fade_lanes; destruct (lc_direction x); reflexivity
  end.
Qed.

(** [int] of a non-negative number is its integer part. *)
Lemma py_int_floor (x : Q) :
  0 <= x ->
  exists s, py_int (Fin x) = Some s /\ (0 <= s)%Z /\
            inject_Z s <= x < inject_Z s + 1.
Proof.
  intro Hx. destruct x as [n d]. cbn [py_int Qnum Qden].
  assert (Hn : (0 <= n)%Z).
  { unfold Qle in Hx. cbn in Hx. lia. }
  exists (Z.quot n (Zpos d)). split; [reflexivity |].
  rewrite Z.quot_div_nonneg by lia.
  pose proof (Z.div_mod n (Zpos d) ltac:(lia)) as Hdm.
  pose proof (Z.mod_pos_bound n (Zpos d) ltac:(lia)) as Hmod.
  split; [apply Z.div_pos; lia |].
  unfold Qle, Qlt, Qplus, inject_Z. cbn [Qnum Qden].
  split; nia.
Qed.

(** X16.  [publish] never raises on a planner the loop can reach: the
    standstill time is a non-negative number, reset to zero as soon as the
    car is not standing still and advanced by [DT_MDL] otherwise, and the
    message carries its integer part.  The [liveMpc] message is sent exactly
    when [LOG_MPC] is set. *)
Theorem publish_counts_standstill self sm :
  reachable params_at_import LOG_MPC self ->
  exists self' plan live e,
    publish LOG_MPC self sm = Some (self', plan, live) /\
    standstill_elapsed_time self' = Fin e /\
    (0 <= LateralPlan.standstillElapsedTime plan)%Z /\
    inject_Z (LateralPlan.standstillElapsedTime plan) <= e
      < inject_Z (LateralPlan.standstillElapsedTime plan) + 1 /\
    (stand_still self = false ->
     e == 0 /\ LateralPlan.standstillElapsedTime plan = 0%Z) /\
    (stand_still self = true ->
     standstill_elapsed_time self'
       = (standstill_elapsed_time self + DT_MDL)%F) /\
    (live = None <-> LOG_MPC = false).
Proof.
  intro Hr.
  destruct (inv_standstill _ (reachable_inv_more _ _ _ Hr)) as (e0 & He0 & Hpos).
  unfold publish. rewrite He0. unfold_float.
  destruct (stand_still self) eqn:Hs.
  - destruct (py_int_floor (e0 + 0.05) ltac:(lra)) as (s & Hi & Hs0 & Hb).
    rewrite Hi. cbn [bind].
    do 3 eexists. exists (e0 + 0.05). split; [reflexivity |].
    cbn [LateralPlan.standstillElapsedTime plan_message
         standstill_elapsed_time with_standstill_elapsed_time].
    split; [reflexivity |]. split; [exact Hs0 |]. split; [exact Hb |].
    split; [discriminate |]. split; [reflexivity |].
    destruct LOG_MPC; split; intro K; first [reflexivity | discriminate].
  - cbn [py_int bind Qnum Qden].
    do 3 eexists. exists 0. split; [reflexivity |].
    cbn [LateralPlan.standstillElapsedTime plan_message
         standstill_elapsed_time with_standstill_elapsed_time].
    change (Z.quot 0 1) with 0%Z. change (inject_Z 0) with 0.
    split; [reflexivity |]. split; [lia |]. split; [lra |].
    split; [intros _; split; reflexivity |]. split; [discriminate |].
    destruct LOG_MPC; split; intro K; first [reflexivity | discriminate].
Qed.

End PlannerMore.

(* ------------------------------------------------------------------ *)
(** ** Scenarios *)

#[local] Existing Instance Demo.externals.

(** A concrete computation that returned, with its value. *)
Ltac computed U :=
  let V := fresh "V" in
  pose proof U as V; vm_compute in V; injection V; clear V; intros; subst.

(** C10, as the code has it.  When the state machine leaves
    [laneChangeFinishing] for [off] because [ll_prob] exceeds 0.99 without a
    blinker, [lane_change_direction] is left unchanged; it is reset to none
    by the forced reset (not active, timer over 10 s, or output saturation
    with the timer over 1 s) and, in [preLaneChange], when neither blinker is
    on.  The published state and direction are those of the planner, so a
    published frame can carry [off] together with a direction left: the
    last frame of a complete lane change does. *)
Theorem direction_kept_after_finishing :
  (forall (E : Externals) params_at_import self sm CP params now self',
     update params_at_import self sm CP params now = Some self' ->
     let reset :=
       lane_change_abort self
         (ControlsState.active (SubMaster.controlsState sm))
         (read_output_scale self sm CP) CP in
     (reset = Some false ->
      lane_change_state self = LaneChangeState.laneChangeFinishing ->
      xorb (CarState.leftBlinker (SubMaster.carState sm))
           (CarState.rightBlinker (SubMaster.carState sm)) = false ->
      (py_min (lane_change_ll_prob self + DT_MDL)%F (Fin 1) >? Fin 0.99)%F = true ->
      lane_change_state self' = LaneChangeState.off /\
      lane_change_direction self' = lane_change_direction self) /\
     (lane_change_direction self <> LaneChangeDirection.none ->
      lane_change_direction self' = LaneChangeDirection.none ->
      reset = Some true \/
      (lane_change_state self = LaneChangeState.preLaneChange /\
       CarState.leftBlinker (SubMaster.carState sm) = false /\
       CarState.rightBlinker (SubMaster.carState sm) = false)) /\
     (forall LOG_MPC sm2 self2 plan live,
        publish LOG_MPC self' sm2 = Some (self2, plan, live) ->
        LateralPlan.laneChangeState plan = lane_change_state self' /\
        LateralPlan.laneChangeDirection plan = lane_change_direction self')) /\
  (exists (E : Externals) params_at_import LOG_MPC self f self' plan,
     reachable params_at_import LOG_MPC self /\
     lane_change_state self = LaneChangeState.laneChangeFinishing /\
     step params_at_import LOG_MPC self f = Some (self', plan) /\
     LateralPlan.laneChangeState plan = LaneChangeState.off /\
     LateralPlan.laneChangeDirection plan = LaneChangeDirection.left).
Proof.
  split.
  - intros E params_at_import self sm CP params now self' H reset.
    split; [| split].
    + apply finishing_to_off_keeps_direction with (1 := H).
    + apply direction_reset_cases with (1 := H).
    + intros LOG_MPC sm2 self2 plan live Hp.
      destruct (publish_planner _ _ _ _ _ _ Hp) as (e & secs & -> & ->).
      split; reflexivity.
  - set (p := Scenario.params 1 1).
    destruct (run p false (Scenario.fresh p) Scenario.lane_change)
      as [s|] eqn:R; [| vm_compute in R; discriminate R].
    exists Demo.externals, p, false, s, Scenario.last_fade_in.
    assert (Hr : reachable p false s).
    { apply (run_reachable p false _ _ _ (reach_init p false _ _ _ _) R). }
    computed R.
    destruct (step p false _ Scenario.last_fade_in) as [[s' plan]|] eqn:T;
      [| vm_compute in T; discriminate T].
    exists s', plan. computed T.
    split; [exact Hr |]. repeat split.
Qed.

(** *** Where the code departs from the claims as worded *)

(** C1 as worded fails.  With [laneless_mode = 0], lane lines not in use,
    the lead 10 m ahead closing in at 2 m/s, the desired steering angle 3
    degrees off the measured one and the lane-change state off, one [update]
    takes the lane path: the laneless status is false, [at_stopping] is
    false and [stopping_ticks] is 0. *)
Lemma laneless_mode_0_keeps_lane_path :
  let p := Scenario.params 0 1 in
  let f := Scenario.lead_close p (Fin 3) (Fin 0) in
  exists self',
    update p (Scenario.fresh p) (f_sm f) (f_CP f) (f_params f) (f_now f)
      = Some self' /\
    lane_change_state self' = LaneChangeState.off /\
    use_lanelines self' = false /\
    laneless_mode self' = 0%Z /\
    lead_stopping_spec (f_sm f) (Fin 10) (lane_change_state self') = true /\
    lead_stopping (f_sm f) (Fin 10) (lane_change_state self') = true /\
    laneless_mode_status self' = false /\
    laneless_mode_at_stopping self' = false /\
    laneless_mode_at_stopping_timer self' = 0%Z.
Proof.
  intros p f.
  destruct (update p (Scenario.fresh p) (f_sm f) (f_CP f) (f_params f) (f_now f))
    as [self'|] eqn:U; [| vm_compute in U; discriminate U].
  exists self'. computed U. repeat split.
Qed.

(** C2 as worded fails.  With a desired steering angle of 3 degrees and a
    measured one of -3 degrees the two diverge by 6 degrees, yet the test of
    the code is false and the branch is not taken. *)
Lemma diverging_angles_not_taken :
  let p := Scenario.params 2 1 in
  let f := Scenario.lead_close p (Fin 3) (Fin (-3)) in
  exists self',
    update p (Scenario.fresh p) (f_sm f) (f_CP f) (f_params f) (f_now f)
      = Some self' /\
    use_lanelines self' = false /\
    laneless_mode self' = 2%Z /\
    lead_stopping_spec (f_sm f) (Fin 10) (lane_change_state self') = true /\
    lead_stopping (f_sm f) (Fin 10) (lane_change_state self') = false /\
    laneless_mode_status self' = false /\
    laneless_mode_at_stopping self' = false.
Proof.
  intros p f.
  destruct (update p (Scenario.fresh p) (f_sm f) (f_CP f) (f_params f) (f_now f))
    as [self'|] eqn:U; [| vm_compute in U; discriminate U].
  exists self'. computed U. repeat split.
Qed.

(** C3 as worded fails.  After the one [update] of scenario 2 the state is
    [preLaneChange], but the direction is still none and the wait timer is 0,
    not 0.05. *)
Lemma first_blinker_frame_keeps_direction :
  let p := Scenario.params 1 1 in
  let f := Scenario.blinker p in
  exists self',
    update p (Scenario.fresh p) (f_sm f) (f_CP f) (f_params f) (f_now f)
      = Some self' /\
    lane_change_state self' = LaneChangeState.preLaneChange /\
    lane_change_direction self' = LaneChangeDirection.none /\
    lane_change_ll_prob self' = Fin 1 /\
    lane_change_wait_timer self' = Fin 0 /\
    (lane_change_wait_timer self' =? Fin 0.05)%F = false.
Proof.
  intros p f.
  destruct (update p (Scenario.fresh p) (f_sm f) (f_CP f) (f_params f) (f_now f))
    as [self'|] eqn:U; [| vm_compute in U; discriminate U].
  exists self'. computed U. repeat split.
Qed.

(** C4 as worded fails.  After scenario 2, five frames of waiting and ten
    frames at 16 m/s, [ll_prob] is within 1e-9 of 0.915, and not 0.15. *)
Lemma fade_at_16_is_not_0_15 :
  let p := Scenario.params 1 1 in
  exists s,
    run p false (Scenario.fresh p) Scenario.auto_delay = Some s /\
    lane_change_state s = LaneChangeState.laneChangeStarting /\
    (lane_change_ll_prob s =? Fin 0.15)%F = false /\
    (fabs (lane_change_ll_prob s - Fin 0.915) <=? Fin 0.000000001)%F = true.
Proof.
  intro p.
  destruct (run p false (Scenario.fresh p) Scenario.auto_delay)
    as [s|] eqn:R; [| vm_compute in R; discriminate R].
  exists s. computed R. repeat split.
Qed.

(** C8 as worded fails.  A planner loaded with [OpkrLaneChangeSpeed] at
    60 km/h runs 22 frames with the store lowered to 30 km/h; the poll of the
    21st frame has reset the accumulated time, yet the left blinker at
    10 m/s, above 30 km/h, does not start a lane change, as it does in a
    planner loaded at 30 km/h. *)
Lemma lowered_speed_not_in_effect :
  let p := Scenario.params 1 1 in
  exists s s30,
    run Scenario.loaded_at_60 false (Scenario.fresh Scenario.loaded_at_60)
        Scenario.lowered_to_30 = Some s /\
    (second s =? Fin 0.05)%F = true /\
    (Fin 10 <? LANE_CHANGE_SPEED_MIN p)%F = false /\
    lane_change_state s = LaneChangeState.off /\
    run p false (Scenario.fresh Scenario.loaded_at_60)
        Scenario.lowered_to_30 = Some s30 /\
    lane_change_state s30 = LaneChangeState.preLaneChange.
Proof.
  intro p.
  destruct (run Scenario.loaded_at_60 false
              (Scenario.fresh Scenario.loaded_at_60) Scenario.lowered_to_30)
    as [s|] eqn:R; [| vm_compute in R; discriminate R].
  destruct (run p false (Scenario.fresh Scenario.loaded_at_60)
              Scenario.lowered_to_30)
    as [s30|] eqn:R30; [| vm_compute in R30; discriminate R30].
  exists s, s30. computed R. computed R30. repeat split.
Qed.

(** C10 as worded fails in its parenthesis.  In [preLaneChange] with the
    direction left, a frame without blinker sets the direction to none
    although the forced reset does not apply. *)
Lemma no_blinker_in_pre_resets_direction :
  let p := Scenario.params 1 0 in
  let f := Demo.driving (Fin 20) false false p in
  exists s s',
    run p false (Scenario.fresh p) [Scenario.blinker p; Scenario.blinker p]
      = Some s /\
    lane_change_state s = LaneChangeState.preLaneChange /\
    lane_change_direction s = LaneChangeDirection.left /\
    lane_change_abort s (ControlsState.active (SubMaster.controlsState (f_sm f)))
      (read_output_scale s (f_sm f) (f_CP f)) (f_CP f) = Some false /\
    update p s (f_sm f) (f_CP f) (f_params f) (f_now f) = Some s' /\
    lane_change_direction s' = LaneChangeDirection.none.
Proof.
  intros p f.
  destruct (run p false (Scenario.fresh p)
              [Scenario.blinker p; Scenario.blinker p])
    as [s|] eqn:R; [| vm_compute in R; discriminate R].
  exists s. computed R.
  match goal with
  | |- exists s', _ /\ _ /\ _ /\ _ /\ update ?a ?b ?c ?d ?e ?g = _ /\ _ =>
      destruct (update a b c d e g) as [s'|] eqn:U;
        [| vm_compute in U; discriminate U]
  end.
  exists s'. computed U. repeat split.
Qed.

(** *** The theorems at work on the scenarios *)

(** A fact about the value a concrete computation returned. *)
Ltac by_value U :=
  let V := fresh "V" in
  pose proof U as V; vm_compute in V; injection V as V; rewrite <- V;
  vm_compute; first [reflexivity | discriminate].

Lemma stopping_laneless_kick_in_witness :
  let p := Scenario.params 2 1 in
  let f := Scenario.lead_close p (Fin 3) (Fin 0) in
  exists self',
    update p (Scenario.fresh p) (f_sm f) (f_CP f) (f_params f) (f_now f)
      = Some self' /\
    use_lanelines self' = false /\
    laneless_mode_status self' = true /\
    laneless_mode_at_stopping self' = true /\
    laneless_mode_at_stopping_timer self' = 59%Z.
Proof.
  intros p f.
  destruct (update p (Scenario.fresh p) (f_sm f) (f_CP f) (f_params f) (f_now f))
    as [self'|] eqn:U; [| vm_compute in U; discriminate U].
  exists self'. split; [reflexivity |].
  assert (Hul : use_lanelines self' = false) by by_value U.
  assert (Hm : laneless_mode self' <> 0%Z) by by_value U.
  assert (Ht : lead_stopping (f_sm f) (CarState.vEgo (SubMaster.carState (f_sm f)))
                 (lane_change_state self') = true) by by_value U.
  destruct (stopping_laneless_kick_in p _ _ _ _ _ _ U Hul)
    as (lp & stds & t & rc & arb & Ha & S & A & T & _ & K & _).
  destruct (K Hm Ht) as (_ & S' & A' & _ & T').
  rewrite S, A, S', A'. repeat split; assumption.
Defined.

Lemma lead_branch_condition_witness :
  let p := Scenario.params 2 1 in
  let f := Scenario.lead_close p (Fin 3) (Fin 0) in
  exists self',
    update p (Scenario.fresh p) (f_sm f) (f_CP f) (f_params f) (f_now f)
      = Some self' /\
    use_lanelines self' = false /\
    laneless_mode self' <> 0%Z /\
    lead_stopping (f_sm f) (Fin 10) (lane_change_state self') = true /\
    laneless_mode_at_stopping self' = true /\
    laneless_mode_at_stopping_timer self' = 59%Z.
Proof.
  intros p f.
  destruct (update p (Scenario.fresh p) (f_sm f) (f_CP f) (f_params f) (f_now f))
    as [self'|] eqn:U; [| vm_compute in U; discriminate U].
  exists self'. split; [reflexivity |].
  assert (Hul : use_lanelines self' = false) by by_value U.
  assert (Hm : laneless_mode self' <> 0%Z) by by_value U.
  assert (Ht : lead_stopping (f_sm f) (Fin 10) (lane_change_state self') = true)
    by by_value U.
  destruct (lead_branch_condition p _ _ _ _ _ _ U Hul Hm) as (_ & K & _).
  destruct (K Ht) as (_ & A & T).
  repeat split; assumption.
Defined.

Lemma blinker_enters_pre_witness :
  let p := Scenario.params 1 1 in
  let f := Scenario.blinker p in
  exists self',
    reachable p false (Scenario.fresh p) /\
    left_blinker_on p (f_sm f) = true /\
    update p (Scenario.fresh p) (f_sm f) (f_CP f) (f_params f) (f_now f)
      = Some self' /\
    lane_change_state self' = LaneChangeState.preLaneChange /\
    lane_change_direction self' = lane_change_direction (Scenario.fresh p) /\
    lane_change_ll_prob self' = Fin 1 /\
    lane_change_wait_timer self' = Fin 0.
Proof.
  intros p f.
  destruct (update p (Scenario.fresh p) (f_sm f) (f_CP f) (f_params f) (f_now f))
    as [self'|] eqn:U; [| vm_compute in U; discriminate U].
  exists self'.
  assert (Hr : reachable p false (Scenario.fresh p)) by apply reach_init.
  assert (Hin : left_blinker_on p (f_sm f) = true) by (vm_compute; reflexivity).
  split; [exact Hr |]. split; [exact Hin |]. split; [reflexivity |].
  destruct (blinker_enters_pre p false _ _ _ _ _ _ Hr eq_refl eq_refl Hin U)
    as (A & B & C & D & _).
  repeat split; assumption.
Defined.

Lemma auto_delay_then_fade_witness :
  let p := Scenario.params 1 1 in
  exists s1 s5 s15,
    run p false (Scenario.fresh p) [Scenario.blinker p] = Some s1 /\
    run p false s1 (repeat (Scenario.blinker p) 5) = Some s5 /\
    run p false s5 (repeat (Demo.driving (Fin 16) true false p) 10) = Some s15 /\
    lane_change_state s5 = LaneChangeState.laneChangeStarting /\
    (fabs (lane_change_ll_prob s15 - Fin 0.915) <=? Fin 0.000000001)%F = true.
Proof.
  intro p.
  destruct (run p false (Scenario.fresh p) [Scenario.blinker p])
    as [s1|] eqn:R1; [| vm_compute in R1; discriminate R1].
  assert (Hr1 : reachable p false s1).
  { apply (run_reachable p false _ _ _ (reach_init p false _ _ _ _) R1). }
  assert (S1 : lane_change_state s1 = LaneChangeState.preLaneChange)
    by by_value R1.
  assert (W1 : (lane_change_wait_timer s1 =? Fin 0)%F = true) by by_value R1.
  assert (A1 : (lane_change_auto_delay s1 =? Fin 0.2)%F = true) by by_value R1.
  destruct (run p false s1 (repeat (Scenario.blinker p) 5))
    as [s5|] eqn:R5;
    [| exfalso; pose proof R1 as V; vm_compute in V; injection V as V;
       rewrite <- V in R5; vm_compute in R5; discriminate R5].
  destruct (run p false s5 (repeat (Demo.driving (Fin 16) true false p) 10))
    as [s15|] eqn:R15;
    [| exfalso; pose proof R1 as V; vm_compute in V; injection V as V;
       rewrite <- V in R5; vm_compute in R5; injection R5 as R5;
       rewrite <- R5 in R15; vm_compute in R15; discriminate R15].
  exists s1, s5, s15.
  split; [first [reflexivity | exact R1] |].
  split; [first [reflexivity | exact R5] |].
  split; [first [reflexivity | exact R15] |].
  assert (F5 : Forall (fun f => left_blinker_on p (f_sm f) = true /\
                                hands_off (f_sm f) = true)
                      (repeat (Scenario.blinker p) 5)).
  { apply Forall_forall. intros x Hx. apply repeat_spec in Hx. subst x.
    split; vm_compute; reflexivity. }
  assert (F10 : Forall (fun f => cruising_16 (f_sm f) = true)
                       (repeat (Demo.driving (Fin 16) true false p) 10)).
  { apply Forall_forall. intros x Hx. apply repeat_spec in Hx. subst x.
    vm_compute; reflexivity. }
  destruct (auto_delay_then_fade p false s1 _ _ s5 s15 Hr1 S1 W1 A1
              (repeat_length _ 5) F5 R5 (repeat_length _ 10) F10 R15)
    as (S5 & _ & _ & L15).
  split; assumption.
Defined.

Lemma ll_prob_in_unit_interval_witness :
  let p := Scenario.params 1 1 in
  reachable p false (Scenario.fresh p) /\
  in_unit (lane_change_ll_prob (Scenario.fresh p)).
Proof.
  intro p.
  assert (Hr : reachable p false (Scenario.fresh p)) by apply reach_init.
  split; [exact Hr |].
  exact (proj1 (ll_prob_in_unit_interval p false _ Hr)).
Defined.

Lemma curvature_rate_limits_witness :
  let p := Scenario.params 1 1 in
  let f := Scenario.blinker p in
  exists self',
    reachable p false (Scenario.fresh p) /\
    update p (Scenario.fresh p) (f_sm f) (f_CP f) (f_params f) (f_now f)
      = Some self' /\
    (fabs (safe_desired_curvature_rate self') <=? max_curvature_rate (Fin 20))%F
      = true /\
    (safe_desired_curvature (Scenario.fresh p)
       - max_curvature_rate (Fin 20) / DT_MDL
     <=? safe_desired_curvature self')%F = true /\
    (safe_desired_curvature self'
     <=? safe_desired_curvature (Scenario.fresh p)
         + max_curvature_rate (Fin 20) / DT_MDL)%F = true.
Proof.
  intros p f.
  destruct (update p (Scenario.fresh p) (f_sm f) (f_CP f) (f_params f) (f_now f))
    as [self'|] eqn:U; [| vm_compute in U; discriminate U].
  exists self'.
  assert (Hr : reachable p false (Scenario.fresh p)) by apply reach_init.
  split; [exact Hr |]. split; [reflexivity |].
  destruct (curvature_rate_limits p false _ _ _ _ _ _ Hr U)
    as (_ & _ & A & _ & B & C).
  split; [exact A |]. split; [exact B | exact C].
Defined.

Lemma solution_validity_witness :
  let p := Scenario.params 1 1 in
  reachable p false (Scenario.fresh p) /\
  exists s plan,
    step p false (Scenario.fresh p) (Scenario.blinker p) = Some (s, plan) /\
    LateralPlan.mpcSolutionValid plan = true.
Proof.
  intro p.
  assert (Hr : reachable p false (Scenario.fresh p)) by apply reach_init.
  split; [exact Hr |].
  destruct (step p false (Scenario.fresh p) (Scenario.blinker p))
    as [[s plan]|] eqn:T; [| vm_compute in T; discriminate T].
  exists s, plan. split; [reflexivity |].
  apply (proj2 (proj2 (solution_validity p false _ Hr)) _ _ _ T).
  intro K. apply solution_invalid_iff in K.
  pose proof T as V. vm_compute in V. injection V as V _.
  rewrite <- V in K. vm_compute in K. discriminate K.
Defined.

Lemma desire_is_table_lookup_witness :
  let p := Scenario.params 1 1 in
  let f := Scenario.blinker p in
  exists self',
    update p (Scenario.fresh p) (f_sm f) (f_CP f) (f_params f) (f_now f)
      = Some self' /\
    desire self'
    = desire_table (lane_change_state self') (lane_change_direction self').
Proof.
  intros p f.
  destruct (update p (Scenario.fresh p) (f_sm f) (f_CP f) (f_params f) (f_now f))
    as [self'|] eqn:U; [| vm_compute in U; discriminate U].
  exists self'. split; [reflexivity |].
  exact (proj1 (desire_is_table_lookup p false _ _ _ _ _ _ U)).
Defined.

(** *** The further properties at work on the scenarios *)

(** The planner in the middle of the lane change of [Scenario.lane_change]. *)
Ltac mid_lane_change p s R Hr :=
  destruct (run p false (Scenario.fresh p) Scenario.lane_change)
    as [s|] eqn:R; [| vm_compute in R; discriminate R];
  assert (Hr : reachable p false s)
    by (apply (run_reachable p false _ _ _ (reach_init p false _ _ _ _) R)).

(** The planner one frame after a fresh start. *)
Ltac after_frame p f s R Hr :=
  destruct (run p false (Scenario.fresh p) [f])
    as [s|] eqn:R; [| vm_compute in R; discriminate R];
  assert (Hr : reachable p false s)
    by (apply (run_reachable p false _ _ _ (reach_init p false _ _ _ _) R)).

Lemma lane_change_timer_tracks_state_witness :
  let p := Scenario.params 1 1 in
  exists s tm,
    run p false (Scenario.fresh p) Scenario.lane_change = Some s /\
    lane_change_state s = LaneChangeState.laneChangeFinishing /\
    lane_change_timer s = Fin tm /\ 0 < tm <= 10.05.
Proof.
  intro p. mid_lane_change p s R Hr.
  destruct (lane_change_timer_tracks_state p false s Hr) as (tm & Ht & Hb & _ & Hp).
  assert (Hs : lane_change_state s = LaneChangeState.laneChangeFinishing)
    by by_value R.
  exists s, tm. split; [reflexivity |]. split; [exact Hs |].
  split; [exact Ht |]. split; [apply Hp; auto | apply Hb].
Defined.

Lemma desire_only_during_lane_change_witness :
  let p := Scenario.params 1 1 in
  exists s,
    run p false (Scenario.fresh p) Scenario.lane_change = Some s /\
    desire s <> Desire.none /\
    lane_change_direction s <> LaneChangeDirection.none /\
    (lane_change_state s = LaneChangeState.laneChangeStarting \/
     lane_change_state s = LaneChangeState.laneChangeFinishing).
Proof.
  intro p. mid_lane_change p s R Hr.
  assert (Hd : desire s <> Desire.none) by by_value R.
  destruct (desire_only_during_lane_change p false s Hr Hd) as (A & B & _).
  exists s. split; [reflexivity |]. split; [exact Hd |]. split; assumption.
Defined.

Lemma forced_reset_turns_lane_change_off_witness :
  let p := Scenario.params 1 1 in
  let f := ScenarioMore.disengaged p in
  exists s s',
    run p false (Scenario.fresh p) Scenario.lane_change = Some s /\
    lane_change_direction s = LaneChangeDirection.left /\
    update p s (f_sm f) (f_CP f) (f_params f) (f_now f) = Some s' /\
    lane_change_state s' = LaneChangeState.off /\
    lane_change_direction s' = LaneChangeDirection.none /\
    desire s' = Desire.none.
Proof.
  intros p f. mid_lane_change p s R Hr.
  assert (Hd : lane_change_direction s = LaneChangeDirection.left) by by_value R.
  destruct (update p s (f_sm f) (f_CP f) (f_params f) (f_now f))
    as [s'|] eqn:U;
    [| exfalso; pose proof R as V; vm_compute in V; injection V as V;
       rewrite <- V in U; vm_compute in U; discriminate U].
  destruct (forced_reset_turns_lane_change_off p s _ _ _ _ s' U
              (or_introl eq_refl)) as (A & B & C & _).
  exists s, s'. repeat split; assumption.
Defined.

Lemma no_lane_change_without_new_blinker_witness :
  let p := Scenario.params 1 1 in
  exists s s2,
    run p false (Scenario.fresh p) [ScenarioMore.slow_blinker p] = Some s /\
    lane_change_state s = LaneChangeState.off /\
    prev_one_blinker s = true /\
    run p false s (repeat (Scenario.blinker p) 3) = Some s2 /\
    lane_change_state s2 = LaneChangeState.off.
Proof.
  intro p. after_frame p (ScenarioMore.slow_blinker p) s R Hr.
  assert (Hs : lane_change_state s = LaneChangeState.off) by by_value R.
  assert (Hp : prev_one_blinker s = true) by by_value R.
  destruct (run p false s (repeat (Scenario.blinker p) 3)) as [s2|] eqn:R2;
    [| exfalso; pose proof R as V; vm_compute in V; injection V as V;
       rewrite <- V in R2; vm_compute in R2; discriminate R2].
  assert (F : Forall (fun f => one_blinker_on (f_sm f) = true)
                     (repeat (Scenario.blinker p) 3)).
  { apply Forall_forall. intros x Hx. apply repeat_spec in Hx. subst x.
    vm_compute; reflexivity. }
  destruct (no_lane_change_without_new_blinker p false _ s s2 Hs Hp F R2)
    as (A & _).
  exists s, s2. repeat split; assumption.
Defined.

Lemma blind_spot_blocks_lane_change_witness :
  let p := Scenario.params 1 1 in
  exists s s2,
    run p false (Scenario.fresh p) [Scenario.blinker p] = Some s /\
    lane_change_state s = LaneChangeState.preLaneChange /\
    run p false s (repeat (ScenarioMore.blocked p) 8) = Some s2 /\
    lane_change_state s2 = LaneChangeState.preLaneChange.
Proof.
  intro p. after_frame p (Scenario.blinker p) s R Hr.
  assert (Hs : lane_change_state s = LaneChangeState.preLaneChange) by by_value R.
  destruct (run p false s (repeat (ScenarioMore.blocked p) 8)) as [s2|] eqn:R2;
    [| exfalso; pose proof R as V; vm_compute in V; injection V as V;
       rewrite <- V in R2; vm_compute in R2; discriminate R2].
  assert (F : Forall (fun f => left_blinker_on p (f_sm f) = true /\
                               CarState.leftBlindspot (SubMaster.carState (f_sm f))
                               = true)
                     (repeat (ScenarioMore.blocked p) 8)).
  { apply Forall_forall. intros x Hx. apply repeat_spec in Hx. subst x.
    split; vm_compute; reflexivity. }
  pose proof (blind_spot_blocks_lane_change p false _ s s2 Hr Hs F R2) as A.
  exists s, s2. repeat split; assumption.
Defined.

Lemma driver_torque_starts_lane_change_witness :
  let p := Scenario.params 1 0 in
  let f := ScenarioMore.pulling p in
  exists s s',
    run p false (Scenario.fresh p) [Scenario.blinker p] = Some s /\
    lane_change_state s = LaneChangeState.preLaneChange /\
    update p s (f_sm f) (f_CP f) (f_params f) (f_now f) = Some s' /\
    lane_change_state s' = LaneChangeState.laneChangeStarting /\
    lane_change_direction s' = LaneChangeDirection.left.
Proof.
  intros p f. after_frame p (Scenario.blinker p) s R Hr.
  assert (Hs : lane_change_state s = LaneChangeState.preLaneChange) by by_value R.
  destruct (update p s (f_sm f) (f_CP f) (f_params f) (f_now f))
    as [s'|] eqn:U;
    [| exfalso; pose proof R as V; vm_compute in V; injection V as V;
       rewrite <- V in U; vm_compute in U; discriminate U].
  destruct (driver_torque_starts_lane_change p false s (f_sm f) _ _ _ s' Hr Hs
              eq_refl eq_refl eq_refl eq_refl U) as (A & B & _).
  exists s, s'. repeat split; assumption.
Defined.

Lemma zero_auto_delay_waits_for_torque_witness :
  let p := Scenario.params 1 0 in
  exists s s2,
    run p false (Scenario.fresh p) [Scenario.blinker p] = Some s /\
    lane_change_state s = LaneChangeState.preLaneChange /\
    run p false s (repeat (Scenario.blinker p) 30) = Some s2 /\
    lane_change_state s2 = LaneChangeState.preLaneChange.
Proof.
  intro p. after_frame p (Scenario.blinker p) s R Hr.
  assert (Hs : lane_change_state s = LaneChangeState.preLaneChange) by by_value R.
  assert (Ha : truthy (lane_change_auto_delay s) = false) by by_value R.
  destruct (run p false s (repeat (Scenario.blinker p) 30)) as [s2|] eqn:R2;
    [| exfalso; pose proof R as V; vm_compute in V; injection V as V;
       rewrite <- V in R2; vm_compute in R2; discriminate R2].
  assert (F : Forall (fun f => left_blinker_on p (f_sm f) = true /\
                               CarState.steeringPressed (SubMaster.carState (f_sm f))
                               = false)
                     (repeat (Scenario.blinker p) 30)).
  { apply Forall_forall. intros x Hx. apply repeat_spec in Hx. subst x.
    split; vm_compute; reflexivity. }
  pose proof (zero_auto_delay_waits_for_torque p false _ s s2 Hr Hs Ha F R2) as A.
  exists s, s2. repeat split; assumption.
Defined.

Lemma stopping_countdown_bounded_witness :
  let p := Scenario.params 2 1 in
  exists s,
    run p false (Scenario.fresh p) [Scenario.lead_close p (Fin 3) (Fin 0)]
      = Some s /\
    laneless_mode_at_stopping s = true /\
    (0 <= laneless_mode_at_stopping_timer s <= 59)%Z.
Proof.
  intro p. after_frame p (Scenario.lead_close p (Fin 3) (Fin 0)) s R Hr.
  assert (Ha : laneless_mode_at_stopping s = true) by by_value R.
  exists s. split; [reflexivity |]. split; [exact Ha |].
  apply (stopping_countdown_bounded p false s Hr).
Defined.

Lemma model_path_keeps_trajectory_size_witness :
  let p := Scenario.params 1 1 in
  exists s,
    run p false (Scenario.fresh p) Scenario.lane_change = Some s /\
    List.length (path_xyz s) = 33%nat.
Proof.
  intro p. mid_lane_change p s R Hr.
  exists s. split; [reflexivity |].
  apply (model_path_keeps_trajectory_size p false s Hr).
Defined.

Lemma short_model_frame_is_ignored_witness :
  let p := Scenario.params 1 1 in
  let f := Scenario.blinker p in
  exists self',
    update p (Scenario.fresh p) (f_sm f) (f_CP f) (f_params f) (f_now f)
      = Some self' /\
    path_xyz self' = path_xyz (Scenario.fresh p) /\
    t_idxs self' = t_idxs (Scenario.fresh p).
Proof.
  intros p f.
  destruct (update p (Scenario.fresh p) (f_sm f) (f_CP f) (f_params f) (f_now f))
    as [self'|] eqn:U; [| vm_compute in U; discriminate U].
  assert (L : List.length (XYZTData.x (ModelV2.position (SubMaster.modelV2 (f_sm f))))
              <> TRAJECTORY_SIZE) by (vm_compute; discriminate).
  destruct (short_model_frame_is_ignored p _ _ _ _ _ self' (or_introl L) U)
    as (A & B & _).
  exists self'. repeat split; assumption.
Defined.

Lemma laneless_status_matches_target_witness :
  let p := Scenario.params 2 1 in
  let f := Scenario.lead_close p (Fin 3) (Fin 0) in
  exists self' lp arb,
    update p (Scenario.fresh p) (f_sm f) (f_CP f) (f_params f) (f_now f)
      = Some self' /\
    arbiter (Scenario.fresh p) (f_sm f)
      (CarState.vEgo (SubMaster.carState (f_sm f))) (use_lanelines self')
      (laneless_mode self') (lane_change_state self') lp (path_xyz self')
      (path_xyz_stds self') (t_idxs self') (steer_rate_cost self') = Some arb /\
    laneless_mode_status self' = true /\
    arb_d_path_xyz arb = path_xyz self'.
Proof.
  intros p f.
  destruct (update p (Scenario.fresh p) (f_sm f) (f_CP f) (f_params f) (f_now f))
    as [self'|] eqn:U; [| vm_compute in U; discriminate U].
  assert (S : laneless_mode_status self' = true) by by_value U.
  destruct (laneless_status_matches_target p _ _ _ _ _ self' U)
    as (lp & arb & Ha & _ & _ & _ & K).
  destruct (K S) as (D & _).
  exists self', lp, arb. repeat split; assumption.
Defined.

Lemma solver_calls_per_update_witness :
  let p := Scenario.params 1 1 in
  let f := Scenario.blinker p in
  exists self' a b ys hs,
    update p (Scenario.fresh p) (f_sm f) (f_CP f) (f_params f) (f_now f)
      = Some self' /\
    libmpc self'
      = (libmpc (Scenario.fresh p)
         ++ [mpc_set_weights a b (steer_rate_cost self');
             mpc_run (cur_state (Scenario.fresh p))
               (CarState.vEgo (SubMaster.carState (f_sm f)))
               CAR_ROTATION_RADIUS ys hs])
        ++ (if mpc_nans (mpc_solution self') then [mpc_init] else []) /\
    List.length ys = S MPC_N.
Proof.
  intros p f.
  destruct (update p (Scenario.fresh p) (f_sm f) (f_CP f) (f_params f) (f_now f))
    as [self'|] eqn:U; [| vm_compute in U; discriminate U].
  destruct (solver_calls_per_update p false _ _ _ _ _ self'
              (reach_init p false _ _ _ _) U)
    as (a & b & ys & hs & L & _ & Ly & _).
  exists self', a, b, ys, hs. repeat split; assumption.
Defined.

Lemma zero_actuator_delay_raises_witness :
  let p := Scenario.params 1 1 in
  let f := Scenario.blinker p in
  starts_at_or_after_zero (t_idxs (Scenario.fresh p)) = true /\
  update p (Scenario.fresh p) (f_sm f) ScenarioMore.no_delay (f_params f) (f_now f)
    = None.
Proof.
  intros p f. split; [reflexivity |].
  apply (zero_actuator_delay_raises p (Scenario.fresh p) (f_sm f)
           ScenarioMore.no_delay (f_params f) (f_now f) 20 0);
    reflexivity.
Defined.

Lemma empty_steer_max_raises_when_engaged_witness :
  let p := Scenario.params 1 1 in
  let f := Scenario.blinker p in
  update p (Scenario.fresh p) (f_sm f) ScenarioMore.no_steer_max (f_params f)
    (f_now f) = None /\
  lane_change_abort (Scenario.fresh p) false
    (read_output_scale (Scenario.fresh p) (f_sm (ScenarioMore.disengaged p))
       ScenarioMore.no_steer_max)
    ScenarioMore.no_steer_max = Some true.
Proof.
  intros p f. split.
  - apply (proj2 (empty_steer_max_raises_when_engaged p (Scenario.fresh p)
                    (f_sm f) ScenarioMore.no_steer_max (f_params f) (f_now f)
                    eq_refl)); reflexivity.
  - exact (proj1 (empty_steer_max_raises_when_engaged p (Scenario.fresh p)
                    (f_sm (ScenarioMore.disengaged p)) ScenarioMore.no_steer_max
                    p (Fin 0) eq_refl)).
Defined.

Lemma laneless_auto_mode_hysteresis_witness :
  let p := Scenario.params 2 1 in
  let f := Demo.driving (Fin 20) false false p in
  exists self',
    update p (Scenario.fresh p) (f_sm f) (f_CP f) (f_params f) (f_now f)
      = Some self' /\
    laneless_mode_status self' = false /\
    laneless_mode_status_buffer self' = false.
Proof.
  intros p f.
  destruct (update p (Scenario.fresh p) (f_sm f) (f_CP f) (f_params f) (f_now f))
    as [self'|] eqn:U; [| vm_compute in U; discriminate U].
  assert (Hul : use_lanelines self' = false) by by_value U.
  assert (Hm : laneless_mode self' = 2%Z) by by_value U.
  assert (Hl : lead_stopping (f_sm f) (CarState.vEgo (SubMaster.carState (f_sm f)))
                 (lane_change_state self') = false) by by_value U.
  destruct (laneless_auto_mode_hysteresis p _ _ _ _ _ self' U Hul Hm Hl eq_refl)
    as (S & B).
  assert (Hs : lane_change_state self' = LaneChangeState.off) by by_value U.
  rewrite Hs in S. exists self'. split; [reflexivity |].
  rewrite B, S. split; reflexivity.
Defined.

Lemma publish_counts_standstill_witness :
  let p := Scenario.params 1 1 in
  exists self' plan live,
    publish false (Scenario.fresh p) (f_sm (Scenario.blinker p))
      = Some (self', plan, live) /\
    LateralPlan.standstillElapsedTime plan = 0%Z /\
    live = None.
Proof.
  intro p.
  destruct (publish_counts_standstill p false (Scenario.fresh p)
              (f_sm (Scenario.blinker p)) (reach_init p false _ _ _ _))
    as (self' & plan & live & e & P & _ & _ & _ & Z & _ & L).
  exists self', plan, live. split; [exact P |].
  split; [exact (proj2 (Z eq_refl)) | exact (proj2 L eq_refl)].
Defined.

(** *** Rounding: the fade and the rate limit in binary64 *)

Section Rounding.

Import PrimFloat.
#[local] Set Warnings "-inexact-float".

(** The fade of C4 in binary64: ten frames at 16 m/s from 1.0 leave
    [ll_prob] at 0.9150000000000005, within 1e-9 of 0.915 and far from
    0.15. *)
Lemma fade_at_16_in_binary64 :
  let ll_prob :=
    Nat.iter 10 (fun x => Binary64.lane_change_ll_prob x 16%float) 1%float in
  ll_prob = 0.9150000000000005%float /\
  leb (abs (ll_prob - 0.915)%float) 0.000000001%float = true /\
  eqb ll_prob 0.15%float = false.
Proof. vm_compute. repeat split. Qed.

(** C6 as worded fails in binary64.  At standstill, with a desired curvature
    of 100 in every frame, the safe curvature climbs from 0 by one clamp per
    frame; the fourth frame takes it from 2.2573169509607705 to
    3.0097559346143608, a step of 0.7524389836535903, above
    [max_curvature_rate / DT_MDL] = 0.7524389836535902.  The safe curvature
    is at the upper bound the code computed; the step is above the limit as
    binary64 values, as the rationals these values stand for, and against
    the exact quotient 0.03762194918267951 / 0.05. *)
Lemma fourth_clamped_step_exceeds_limit :
  let step := fun k => Binary64.safe_desired_curvature k 100%float 0%float in
  let k3 := Nat.iter 3 step 0%float in
  let k4 := step k3 in
  let limit :=
    (Binary64.max_curvature_rate 0 / Binary64.DT_MDL)%float in
  k3 = 2.2573169509607705%float /\
  k4 = 3.0097559346143608%float /\
  limit = 0.7524389836535902%float /\
  ltb limit (k4 - k3)%float = true /\
  leb k4 (k3 + limit)%float = true /\
  exists a b l,
    Binary64.to_Q k3 = Some a /\
    Binary64.to_Q k4 = Some b /\
    Binary64.to_Q limit = Some l /\
    l < b - a /\
    0.03762194918267951 / 0.05 < b - a.
Proof.
  intros step k3 k4 limit.
  split; [vm_compute; reflexivity |].
  split; [vm_compute; reflexivity |].
  split; [vm_compute; reflexivity |].
  split; [vm_compute; reflexivity |].
  split; [vm_compute; reflexivity |].
  destruct (Binary64.to_Q k3) as [a|] eqn:A; [| vm_compute in A; discriminate A].
  destruct (Binary64.to_Q k4) as [b|] eqn:B; [| vm_compute in B; discriminate B].
  destruct (Binary64.to_Q limit) as [l|] eqn:L; [| vm_compute in L; discriminate L].
  exists a, b, l. repeat split.
  - vm_compute in A, B, L.
    injection A as <-. injection B as <-. injection L as <-.
    vm_compute. reflexivity.
  - vm_compute in A, B.
    injection A as <-. injection B as <-.
    vm_compute. reflexivity.
Qed.

End Rounding.
